(** * CopyFixer: the generation endpoint, the prompt composer and the
    admin routes, as Rocq functions

    The development embeds four TypeScript sources:
    - [lib/openrouter]            ([generateCopySuggestions]),
    - [app/api/generate]          ([POST]),
    - [app/api/product-types/[id]] ([PUT], [DELETE]),
    - [app/api/upload-reference]  ([POST]).

    Every [await] on an outside service (the LLM API, the datastore, the
    object store) is a step of a small state-and-exception monad over a
    [World]; the world also says how each outside call will answer, so a
    handler is a function that can be run. *)

From Stdlib Require Import Ascii String QArith.
From stdpp Require Import base numbers list option gmap pretty.

Local Open Scope N_scope.

(** ** JavaScript strings

    A JavaScript string is a sequence of UTF-16 code units. Literals of the
    sources are ASCII and are written with [lit]. *)

Abbreviation jsstring := (list N) (only parsing).

Definition lit (s : string) : jsstring :=
  N_of_ascii <$> list_ascii_of_string s.

Arguments lit : simpl never.

(** The double quote and the line feed, which the templates of the sources
    contain. *)
Definition dq : jsstring := [34].
Definition nl : jsstring := [10].

(** [!s] is false exactly for the non-empty string. *)
Definition truthy (s : jsstring) : bool :=
  match s with [] => false | _ :: _ => true end.

(** A value that may be [undefined] or [null]: [None] is falsy. *)
Definition truthy_opt (o : option jsstring) : bool :=
  match o with Some s => truthy s | None => false end.

(** [a || b] where [a] may be absent and [b] is a string. *)
Definition or_else (a : option jsstring) (b : jsstring) : jsstring :=
  match a with
  | Some s => if truthy s then s else b
  | None => b
  end.

(** ECMAScript WhiteSpace and LineTerminator code points; all of them are in
    the Basic Multilingual Plane, so one code unit each. *)
Definition isWhiteSpace (c : N) : bool :=
  (c =? 9) || (c =? 10) || (c =? 11) || (c =? 12) || (c =? 13) || (c =? 32)
  || (c =? 160) || (c =? 5760) || ((8192 <=? c) && (c <=? 8202))
  || (c =? 8232) || (c =? 8233) || (c =? 8239) || (c =? 8287)
  || (c =? 12288) || (c =? 65279).

Fixpoint trimStart (s : jsstring) : jsstring :=
  match s with
  | [] => []
  | c :: s' => if isWhiteSpace c then trimStart s' else s
  end.

Definition trimEnd (s : jsstring) : jsstring :=
  reverse (trimStart (reverse s)).

(** [String.prototype.trim]. *)
Definition trim (s : jsstring) : jsstring := trimEnd (trimStart s).

(** [String.prototype.split] for a separator of one code unit, which is
    what both call sites use (a line feed and a full stop). The result is
    never empty: the empty string splits into one empty piece. *)
Fixpoint split (sep : N) (s : jsstring) : list jsstring :=
  match s with
  | [] => [[]]
  | c :: s' =>
      if c =? sep then [] :: split sep s'
      else match split sep s' with
           | piece :: pieces => (c :: piece) :: pieces
           | [] => [[c]]
           end
  end.

(** [Array.prototype.join]. *)
Fixpoint join (sep : jsstring) (pieces : list jsstring) : jsstring :=
  match pieces with
  | [] => []
  | [p] => p
  | p :: rest => p ++ sep ++ join sep rest
  end.

Fixpoint startsWith (needle s : jsstring) : bool :=
  match needle, s with
  | [], _ => true
  | _ :: _, [] => false
  | a :: needle', b :: s' => (a =? b) && startsWith needle' s'
  end.

(** [String.prototype.includes]: [needle] occurs in [s] as a contiguous
    run. *)
Fixpoint includes (needle s : jsstring) : bool :=
  startsWith needle s
  || match s with
     | [] => false
     | _ :: s' => includes needle s'
     end.

(** [Array.prototype.includes] on an array of strings. *)
Definition array_includes (arr : list jsstring) (s : jsstring) : bool :=
  bool_decide (s ∈ arr).

(** A number inside a template literal, for a non-negative integer. *)
Definition toString (n : N) : jsstring := lit (pretty n).


(** ** JSON values, for response bodies *)

#[warnings="-register-all"]
Inductive Json : Type :=
| JNull
| JBool (b : bool)
| JNum (n : N)
| JStr (s : jsstring)
| JArr (items : list Json)
| JObj (fields : list (string * Json)).

(** ** Errors

    What a datastore or object-store call reports in the [error] field of
    its result. Whether such an object is an instance of [Error] depends on
    the version of the client library, so it is a field. *)
Record ApiError : Type := {
  err_message : jsstring;
  err_details : option jsstring;
  err_code : jsstring;
  err_is_Error : bool
}.

(** A thrown value: an [Error] made by [new Error(message)] or by the
    runtime, or an error object of a client library thrown as it is. *)
Inductive Thrown : Type :=
| JsError (message : jsstring)
| ApiThrown (e : ApiError).

Definition instanceof_Error (t : Thrown) : bool :=
  match t with
  | JsError _ => true
  | ApiThrown e => err_is_Error e
  end.

Definition message_of (t : Thrown) : jsstring :=
  match t with
  | JsError m => m
  | ApiThrown e => err_message e
  end.

(** ** The chat-completion exchange *)

Inductive Role : Type := system | user.

(** The [content] of a message: plain text, or the two-part payload of a
    text and an inlined image. *)
Inductive Content : Type :=
| Text (text : jsstring)
| TextAndImage (text : jsstring) (image_url : jsstring).

Record ChatMessage : Type := {
  role : Role;
  content : Content
}.

Record ChatRequest : Type := {
  req_url : jsstring;
  req_authorization : jsstring;
  req_referer : jsstring;
  req_title : jsstring;
  model : jsstring;
  messages : list ChatMessage;
  temperature : Q;
  max_tokens : N
}.

(** The parsed body of a response, as far as the code reads it.
    [interface OpenRouterResponse] says that [choices] is an array and
    [content] a string, but the body is whatever the upstream sent, and the
    code reads it as [data.choices[0]?.message?.content]:
    - the content of a message is a string, or a value that is no string
      though it is truthy (a number, [true], an array, an object), on
      which the call of [substring] throws a TypeError with the message the
      runtime writes; [None] is a content that is absent or is one of the
      falsy values that are no string ([null], [false], [0]);
    - a choice may lack its message, and a message its content;
    - there is no [?.] after [choices]: when the body is [null], or has no
      [choices], or a [null] one, reading [data.choices[0]] throws a
      TypeError with the message the runtime writes, and [choices] is
      [inl] of that message; a [choices] that can be indexed is [inr] of
      what the indices give, an empty list when index 0 gives nothing. *)
Inductive ContentValue : Type :=
| StringContent (s : jsstring)
| NonString (typeError : jsstring).

Record ResponseMessage : Type := { resp_content : option ContentValue }.
Record Choice : Type := { message : option ResponseMessage }.
Record OpenRouterResponse : Type := { choices : jsstring + list Choice }.

(** What [fetch] resolves to. [resp_json] is what [response.json()] gives:
    the parsed body, or the thrown value when the body does not parse. *)
Record FetchResponse : Type := {
  resp_status : N;
  resp_statusText : jsstring;
  resp_text : jsstring;
  resp_json : Thrown + OpenRouterResponse
}.

Inductive FetchOutcome : Type :=
| FetchRejects (t : Thrown)
| FetchResolves (r : FetchResponse).

(** [response.ok]: the status is in the range 200-299. *)
Definition resp_ok (r : FetchResponse) : bool :=
  (200 <=? resp_status r) && (resp_status r <=? 299).

(** ** The datastore *)

(** [interface ReferenceFile]. *)
Record ReferenceFile : Type := {
  rf_id : jsstring;
  rf_name : jsstring;
  rf_size : N;
  rf_type : jsstring;
  rf_url : jsstring;
  rf_uploadedAt : jsstring
}.

(** A row of [product_types], without its key. [pt_reference_files] is
    [None] for SQL NULL. *)
Record ProductTypeRow : Type := {
  pt_name : jsstring;
  pt_instructions : jsstring;
  pt_reference_files : option (list ReferenceFile);
  pt_created_at : jsstring
}.

(** A row of [submissions], with the columns the insert of the generation
    endpoint writes. *)
Record SubmissionRow : Type := {
  bad_copy : jsstring;
  product_type_id : jsstring;
  suggestions : list jsstring;
  has_screenshot : bool;
  user_session : jsstring
}.

(** [product_types] is keyed by its primary key [id]; [submissions] keeps
    its rows in insertion order. *)
Record DB : Type := {
  product_types : gmap (list N) ProductTypeRow;
  submissions : list SubmissionRow
}.

Global Instance ReferenceFile_eq_dec : EqDecision ReferenceFile.
Proof. solve_decision. Defined.
Global Instance ProductTypeRow_eq_dec : EqDecision ProductTypeRow.
Proof. solve_decision. Defined.
Global Instance SubmissionRow_eq_dec : EqDecision SubmissionRow.
Proof. solve_decision. Defined.

(** The queries the handlers issue. *)
Inductive Query : Type :=
| SelectInstructions (with_reference_files : bool) (id : jsstring)
| InsertSubmission (row : SubmissionRow)
| SelectIdByNameNotId (name id : jsstring)
| UpdateProductType (id name instructions : jsstring)
    (reference_files : list ReferenceFile)
| SelectIdName (id : jsstring)
| SelectSubmissionIds (product_type_id : jsstring)
| DeleteProductType (id : jsstring).

Global Instance Query_eq_dec : EqDecision Query.
Proof. solve_decision. Defined.

(** The awaited result [{ data, error }] of a query. *)
Record QueryResult (A : Type) : Type := {
  data : option A;
  error : option ApiError
}.
Arguments data {A} _.
Arguments error {A} _.

(** How an outside call goes wrong, if it does: it answers from the stored
    state, or it resolves with an [error] and leaves the state alone, or the
    awaited promise rejects. *)
Inductive Fault : Type :=
| Works
| FailsWith (e : ApiError)
| Rejects (t : Thrown).

(** ** The world *)

Record Env : Type := {
  OPENROUTER_API_KEY : option jsstring;
  NEXT_PUBLIC_APP_URL : option jsstring;
  NEXT_PUBLIC_SUPABASE_URL : option jsstring;
  NEXT_PUBLIC_SUPABASE_ANON_KEY : option jsstring;
  SUPABASE_SERVICE_ROLE_KEY : option jsstring;
  NODE_ENV : option jsstring
}.

(** A call that leaves the process. *)
Inductive Call : Type :=
| CallFetch (req : ChatRequest)
| CallQuery (q : Query)
| CallUpload (bucket path : jsstring) (bytes : list N) (contentType : jsstring).

Record StoredObject : Type := {
  obj_bytes : list N;
  obj_contentType : jsstring
}.

(** The state a handler runs in. [env], [query_fault], [upload_fault],
    [upstream], [uuid], [now], [client_errors_extend_Error] and [stack] are
    read only: they fix the configuration and the answers of the outside.
    [stack] is what the runtime gives as the [stack] of a thrown error: its
    name, its message and the frames. [db] and [storage] are the stored
    state; [calls] and [console] record, oldest first, the outside calls
    made and the labels given to [console.error]. *)
Record World : Type := {
  env : Env;
  query_fault : Query -> Fault;
  upload_fault : Fault;
  upstream : FetchOutcome;
  uuid : jsstring;
  now : jsstring;
  client_errors_extend_Error : bool;
  stack : Thrown -> jsstring;
  db : DB;
  storage : gmap (list N) StoredObject;
  calls : list Call;
  console : list string
}.

Definition with_db (d : DB) (w : World) : World :=
  {| env := env w; query_fault := query_fault w;
     upload_fault := upload_fault w; upstream := upstream w;
     uuid := uuid w; now := now w;
     client_errors_extend_Error := client_errors_extend_Error w;
     stack := stack w;
     db := d; storage := storage w; calls := calls w;
     console := console w |}.

Definition with_storage (s : gmap (list N) StoredObject) (w : World) : World :=
  {| env := env w; query_fault := query_fault w;
     upload_fault := upload_fault w; upstream := upstream w;
     uuid := uuid w; now := now w;
     client_errors_extend_Error := client_errors_extend_Error w;
     stack := stack w;
     db := db w; storage := s; calls := calls w;
     console := console w |}.

Definition with_call (c : Call) (w : World) : World :=
  {| env := env w; query_fault := query_fault w;
     upload_fault := upload_fault w; upstream := upstream w;
     uuid := uuid w; now := now w;
     client_errors_extend_Error := client_errors_extend_Error w;
     stack := stack w;
     db := db w; storage := storage w; calls := calls w ++ [c];
     console := console w |}.

Definition with_console (label : string) (w : World) : World :=
  {| env := env w; query_fault := query_fault w;
     upload_fault := upload_fault w; upstream := upstream w;
     uuid := uuid w; now := now w;
     client_errors_extend_Error := client_errors_extend_Error w;
     stack := stack w;
     db := db w; storage := storage w; calls := calls w;
     console := console w ++ [label] |}.

(** ** The monad of handlers: state and exceptions *)

Inductive Outcome (A : Type) : Type :=
| Return (a : A)
| Throw (t : Thrown).
Arguments Return {A} a.
Arguments Throw {A} t.

Definition M (A : Type) : Type := World -> Outcome A * World.

Definition ret {A} (a : A) : M A := fun w => (Return a, w).

Definition throw {A} (t : Thrown) : M A := fun w => (Throw t, w).

Definition bind {A B} (m : M A) (k : A -> M B) : M B :=
  fun w =>
    match m w with
    | (Return a, w') => k a w'
    | (Throw t, w') => (Throw t, w')
    end.

(** [try { m } catch (e) { handler e }]. *)
Definition try_catch {A} (m : M A) (handler : Thrown -> M A) : M A :=
  fun w =>
    match m w with
    | (Return a, w') => (Return a, w')
    | (Throw t, w') => handler t w'
    end.

(** [returns_only m Q]: whenever [m] returns, what it returns satisfies
    [Q]. *)
Definition returns_only {A} (m : M A) (Q : A -> Prop) : Prop :=
  forall w a, fst (m w) = Return a -> Q a.

Declare Scope js_scope.
Delimit Scope js_scope with js.
Notation "'let*' x ':=' m 'in' k" := (bind m (fun x => k))
  (at level 10, x pattern, m at level 100, k at level 200) : js_scope.
Notation "m ';;' k" := (bind m (fun _ => k))
  (at level 100, k at level 200, right associativity) : js_scope.
Local Open Scope js_scope.

Definition getenv (var : Env -> option jsstring) : M (option jsstring) :=
  fun w => (Return (var (env w)), w).

Definition console_error (label : string) : M unit :=
  fun w => (Return tt, with_console label w).

Definition randomUUID : M jsstring := fun w => (Return (uuid w), w).

Definition Date_now_toISOString : M jsstring := fun w => (Return (now w), w).

(** [await fetch(url, { method: 'POST', headers, body })]. *)
Definition fetch (req : ChatRequest) : M FetchResponse :=
  fun w =>
    let w' := with_call (CallFetch req) w in
    match upstream w with
    | FetchRejects t => (Throw t, w')
    | FetchResolves r => (Return r, w')
    end.

(** An awaited query: [run] is what the datastore does when it works. *)
Definition await_query {A} (q : Query)
    (run : bool -> DB -> QueryResult A * DB) : M (QueryResult A) :=
  fun w =>
    let w' := with_call (CallQuery q) w in
    match query_fault w q with
    | Works =>
        let '(r, d) := run (client_errors_extend_Error w) (db w) in
        (Return r, with_db d w')
    | FailsWith e => (Return {| data := None; error := Some e |}, w')
    | Rejects t => (Throw t, w')
    end.

(** lib/supabase.ts, lines 3 to 6, run when a route module that imports
    it is loaded: [createClient(supabaseUrl, supabaseAnonKey)] throws when
    the URL or the anonymous key is missing, and then no handler of the
    module runs. The handlers run in the worlds where this is [true]. *)
Definition supabaseModuleLoads (e : Env) : bool :=
  truthy_opt (NEXT_PUBLIC_SUPABASE_URL e)
  && truthy_opt (NEXT_PUBLIC_SUPABASE_ANON_KEY e).

(** [createServerSupabaseClient()]: the client constructor of the library
    throws when the URL or the key is missing. The URL is the one that the
    module read when it was loaded; the environment of a process does not
    change, so it is read from [env] here, and where the module has loaded
    only the key can be missing. *)
Definition createServerSupabaseClient : M unit :=
  fun w =>
    if negb (truthy_opt (NEXT_PUBLIC_SUPABASE_URL (env w))) then
      (Throw (JsError (lit "supabaseUrl is required.")), w)
    else if negb (truthy_opt (SUPABASE_SERVICE_ROLE_KEY (env w))) then
      (Throw (JsError (lit "supabaseKey is required.")), w)
    else (Return tt, w).

(** *** What the datastore answers when it works *)

(** [.single()] on no row. *)
Definition PGRST116 (is_Error : bool) : ApiError :=
  {| err_message := lit "JSON object requested, multiple (or no) rows returned";
     err_details := Some (lit "The result contains 0 rows");
     err_code := lit "PGRST116";
     err_is_Error := is_Error |}.

(** The foreign key of [submissions.product_type_id] on
    [product_types.id]. *)
Definition FK_VIOLATION (is_Error : bool) : ApiError :=
  {| err_message := lit "violates foreign key constraint";
     err_details := None;
     err_code := lit "23503";
     err_is_Error := is_Error |}.

Definition ok_result {A} (a : A) : QueryResult A :=
  {| data := Some a; error := None |}.

Definition error_result {A} (e : ApiError) : QueryResult A :=
  {| data := None; error := Some e |}.

Definition references (id : jsstring) (s : SubmissionRow) : bool :=
  bool_decide (product_type_id s = id).

(** [.select(columns).eq('id', id).single()] on [product_types]. *)
Definition run_select_single {A} (project : jsstring -> ProductTypeRow -> A)
    (id : jsstring) (is_Error : bool) (d : DB) : QueryResult A * DB :=
  match product_types d !! id with
  | Some row => (ok_result (project id row), d)
  | None => (error_result (PGRST116 is_Error), d)
  end.

(** [.insert(row)] on [submissions]; the foreign key must resolve. *)
Definition run_insert_submission (row : SubmissionRow)
    (is_Error : bool) (d : DB) : QueryResult unit * DB :=
  match product_types d !! product_type_id row with
  | Some _ =>
      ({| data := None; error := None |},
       {| product_types := product_types d;
          submissions := submissions d ++ [row] |})
  | None => (error_result (FK_VIOLATION is_Error), d)
  end.

(** [.select('id').eq('name', name).neq('id', id)] on [product_types]. *)
Definition run_select_name_conflicts (name id : jsstring)
    (is_Error : bool) (d : DB) : QueryResult (list jsstring) * DB :=
  (ok_result
     (fst <$> map_to_list
        (filter (fun kv => pt_name (snd kv) = name ∧ fst kv ≠ id)
           (product_types d))), d).

(** [.update({ name, instructions, reference_files }).eq('id', id)
    .select(...).single()] on [product_types]. *)
Definition run_update (id name instructions : jsstring)
    (reference_files : list ReferenceFile)
    (is_Error : bool) (d : DB) : QueryResult (jsstring * ProductTypeRow) * DB :=
  match product_types d !! id with
  | Some row =>
      let row' := {| pt_name := name; pt_instructions := instructions;
                     pt_reference_files := Some reference_files;
                     pt_created_at := pt_created_at row |} in
      (ok_result (id, row'),
       {| product_types := <[id := row']> (product_types d);
          submissions := submissions d |})
  | None => (error_result (PGRST116 is_Error), d)
  end.

(** [.select('id').eq('product_type_id', id).limit(1)] on
    [submissions]. *)
Definition run_select_submissions (id : jsstring)
    (is_Error : bool) (d : DB) : QueryResult (list SubmissionRow) * DB :=
  (ok_result (take 1 (filter (fun s => references id s = true) (submissions d))), d).

(** [.delete().eq('id', id)] on [product_types]; a row that a submission
    references is kept by the foreign key. *)
Definition run_delete (id : jsstring)
    (is_Error : bool) (d : DB) : QueryResult unit * DB :=
  if existsb (references id) (submissions d) then
    (error_result (FK_VIOLATION is_Error), d)
  else
    ({| data := None; error := None |},
     {| product_types := delete id (product_types d);
        submissions := submissions d |}).

(** ** lib/openrouter: the prompt composer and the suggestion generator *)

Module OpenRouter.

(** [interface CopyContext]. *)
Record CopyContext : Type := {
  mode : jsstring;
  userType : option jsstring;
  errorType : option jsstring;
  canFix : option jsstring;
  surface : option jsstring
}.

(** [context?.mode === m]. *)
Definition mode_is (context : option CopyContext) (m : string) : bool :=
  bool_decide (mode <$> context = Some (lit m)).

(** The first assignment to [systemPrompt]: one template per mode and a
    fallback. *)
Definition modePrompt (productInstructions : jsstring)
    (context : option CopyContext) : jsstring :=
  if mode_is context "improve_copy" then
    lit "You are an expert UX copywriter specializing in improving existing UI copy. "
    ++ productInstructions ++ nl ++ nl
    ++ lit "Your task is to improve existing UI copy to make it clearer, more helpful, and more user-friendly."
    ++ nl ++ nl
    ++ lit "Always provide exactly 2-3 improved alternatives. Each suggestion should be on a new line. Do not include numbers, bullets, or extra formatting - just the clean copy suggestions."
  else if mode_is context "write_new" then
    lit "You are an expert UX copywriter specializing in writing new error messages. "
    ++ productInstructions ++ nl ++ nl
    ++ lit "Your task is to create new error message copy based on the context provided:" ++ nl
    ++ lit "- User type: " ++ or_else (context ≫= userType) (lit "unknown") ++ nl
    ++ lit "- Error type: " ++ or_else (context ≫= errorType) (lit "unknown") ++ nl
    ++ lit "- Can user fix this: " ++ or_else (context ≫= canFix) (lit "unknown") ++ nl
    ++ lit "- Display surface: " ++ or_else (context ≫= surface) (lit "unknown") ++ nl
    ++ nl
    ++ lit "Consider these factors when writing the error message:" ++ nl
    ++ lit "- Be specific about what went wrong" ++ nl
    ++ lit "- Provide clear next steps if the user can fix it" ++ nl
    ++ lit "- Match the tone to the user type and severity" ++ nl
    ++ lit "- Keep it appropriate for the display context" ++ nl
    ++ nl
    ++ lit "Always provide exactly 2-3 new error message alternatives. Each suggestion should be on a new line. Do not include numbers, bullets, or extra formatting - just the clean copy suggestions."
  else if mode_is context "suggest_pattern" then
    lit "You are an expert UX designer specializing in error handling patterns and information architecture. "
    ++ productInstructions ++ nl ++ nl
    ++ lit "Your task is to recommend design patterns for displaying error information based on:" ++ nl
    ++ lit "- User type: " ++ or_else (context ≫= userType) (lit "unknown") ++ nl
    ++ lit "- Display surface: " ++ or_else (context ≫= surface) (lit "unknown") ++ nl
    ++ nl
    ++ lit "Provide 2-3 specific design pattern recommendations that include:" ++ nl
    ++ lit "- Pattern name (e.g., " ++ dq ++ lit "Inline validation" ++ dq
    ++ lit ", " ++ dq ++ lit "Error banner" ++ dq ++ lit ")" ++ nl
    ++ lit "- When to use it" ++ nl
    ++ lit "- Visual/interaction details" ++ nl
    ++ lit "- Why it's appropriate for this context" ++ nl
    ++ nl
    ++ lit "Format each recommendation as a complete suggestion on a new line. Do not include numbers, bullets, or extra formatting."
  else
    lit "You are an expert UX copywriter. " ++ productInstructions ++ nl ++ nl
    ++ lit "Always provide exactly 2-3 improved alternatives. Each suggestion should be on a new line. Do not include numbers, bullets, or extra formatting - just the clean copy suggestions.".

(** [referenceFileUrls && referenceFileUrls.length > 0]. *)
Definition hasReferenceFiles (referenceFileUrls : option (list jsstring)) : bool :=
  match referenceFileUrls with
  | Some (_ :: _) => true
  | _ => false
  end.

(** What [systemPrompt +=] appends when reference files are present. *)
Definition referenceNote : jsstring :=
  nl ++ nl
  ++ lit "IMPORTANT: Reference documents have been provided that contain examples, style guides, or brand guidelines for this product. Please review these files and ensure your suggestions align with the established tone, style, and patterns shown in the reference materials.".

(** [systemPrompt] as it is when the message list is built. *)
Definition systemPrompt (productInstructions : jsstring)
    (referenceFileUrls : option (list jsstring))
    (context : option CopyContext) : jsstring :=
  if hasReferenceFiles referenceFileUrls
  then modePrompt productInstructions context ++ referenceNote
  else modePrompt productInstructions context.

(** [process.env.NEXT_PUBLIC_APP_URL || 'http://localhost:3000']. *)
Definition baseUrl (appUrl : option jsstring) : jsstring :=
  or_else appUrl (lit "http://localhost:3000").

(** The content of the message that lists the reference files. *)
Definition referenceText (appUrl : option jsstring)
    (urls : list jsstring) : jsstring :=
  lit "Reference documents for context (please review these for tone and style guidance):"
  ++ nl
  ++ join nl
       (imap (fun index url =>
                toString (N.of_nat index + 1) ++ lit ". "
                ++ baseUrl appUrl ++ url) urls).

Definition userMessageText (badCopy : jsstring)
    (context : option CopyContext) : jsstring :=
  if mode_is context "improve_copy" then
    lit "Please improve this UI copy: " ++ dq ++ badCopy ++ dq
  else if mode_is context "write_new" then
    if truthy badCopy
    then lit "Please write new error message copy for this context. Current copy (if any): "
         ++ dq ++ badCopy ++ dq
    else lit "Please write new error message copy for this context."
  else if mode_is context "suggest_pattern" then
    if truthy badCopy
    then lit "Please suggest design patterns for displaying error information. Context description: "
         ++ dq ++ badCopy ++ dq
    else lit "Please suggest design patterns for displaying error information in this context."
  else
    lit "Please improve this UI copy: " ++ dq ++ badCopy ++ dq.

(** The content of the last message: two parts when an image is given. *)
Definition userContent (badCopy : jsstring) (imageBase64 : option jsstring)
    (context : option CopyContext) : Content :=
  match imageBase64 with
  | Some image =>
      if truthy image
      then TextAndImage (userMessageText badCopy context)
             (lit "data:image/jpeg;base64," ++ image)
      else Text (userMessageText badCopy context)
  | None => Text (userMessageText badCopy context)
  end.

(** The [messages] array after its pushes. *)
Definition composeMessages (appUrl : option jsstring)
    (badCopy productInstructions : jsstring) (imageBase64 : option jsstring)
    (referenceFileUrls : option (list jsstring))
    (context : option CopyContext) : list ChatMessage :=
  [ {| role := system;
       content := Text (systemPrompt productInstructions referenceFileUrls context) |} ]
  ++ (if hasReferenceFiles referenceFileUrls
      then [ {| role := user;
                content := Text (referenceText appUrl (default [] referenceFileUrls)) |} ]
      else [])
  ++ [ {| role := user; content := userContent badCopy imageBase64 context |} ].

Definition placeholder : jsstring :=
  lit "Unable to generate suggestions at this time.".

(** The post-processing of the response text. *)
Definition parseSuggestions (content : jsstring) : list jsstring :=
  let suggestions :=
    take 3 (filter (fun line : jsstring => (0 < length line)%nat)
              (trim <$> split 10 content)) in
  if bool_decide (0 < length suggestions)%nat then suggestions
  else [placeholder].

(** [choices[0]?.message?.content] for a [choices] that can be indexed. *)
Definition contentValue (choices : list Choice) : option ContentValue :=
  (head choices ≫= message) ≫= resp_content.

(** [!content] is [false]: a string that is not empty, or a truthy value
    that is no string. *)
Definition truthy_content (content : option ContentValue) : bool :=
  match content with
  | Some (StringContent s) => truthy s
  | Some (NonString _) => true
  | None => false
  end.

(** The string that [data.choices[0]?.message?.content] holds, when it
    holds one. *)
Definition firstContent (data : OpenRouterResponse) : option jsstring :=
  match choices data with
  | inr choices =>
      match contentValue choices with
      | Some (StringContent s) => Some s
      | Some (NonString _) | None => None
      end
  | inl _ => None
  end.

(** [await response.json()]. *)
Definition response_json (r : FetchResponse) : M OpenRouterResponse :=
  match resp_json r with
  | inl t => throw t
  | inr data => ret data
  end.

(** The request [fetch] is called with: the URL, the headers and the
    [requestBody]. *)
Definition chatRequest (apiKey appUrl : option jsstring)
    (messages : list ChatMessage) : ChatRequest :=
  {| req_url := lit "https://openrouter.ai/api/v1/chat/completions";
     req_authorization := lit "Bearer " ++ default [] apiKey;
     req_referer := baseUrl appUrl;
     req_title := lit "CopyFixer";
     model := lit "openai/gpt-4o";
     messages := messages;
     temperature := (7 # 10)%Q;
     max_tokens := 1000 |}.

Definition generateCopySuggestions (badCopy productInstructions : jsstring)
    (imageBase64 : option jsstring)
    (referenceFileUrls : option (list jsstring))
    (context : option CopyContext) : M (list jsstring) :=
  let* apiKey := getenv OPENROUTER_API_KEY in
  if negb (truthy_opt apiKey) then
    console_error "OpenRouter: API key not configured" ;;
    throw (JsError (lit "OpenRouter API key not configured"))
  else
    let* appUrl := getenv NEXT_PUBLIC_APP_URL in
    let messages :=
      composeMessages appUrl badCopy productInstructions imageBase64
        referenceFileUrls context in
    try_catch
      (let* response := fetch (chatRequest apiKey appUrl messages) in
       if negb (resp_ok response) then
         console_error "OpenRouter: API error response:" ;;
         if resp_status response =? 401 then
           throw (JsError (lit "OpenRouter API authentication failed - invalid API key"))
         else if resp_status response =? 429 then
           throw (JsError (lit "OpenRouter API rate limit exceeded - please try again later"))
         else if resp_status response =? 500 then
           throw (JsError (lit "OpenRouter API server error - please try again"))
         else
           throw (JsError (lit "OpenRouter API error: "
                           ++ toString (resp_status response) ++ lit " "
                           ++ resp_statusText response))
       else
         let* data := response_json response in
         match choices data with
         | inl typeError => throw (JsError typeError)
         | inr choices =>
             let content := contentValue choices in
             if negb (truthy_content content) then
               console_error "OpenRouter: No content in API response" ;;
               throw (JsError (lit "No response content from OpenRouter API"))
             else
               match content with
               | Some (NonString typeError) => throw (JsError typeError)
               | Some (StringContent text) => ret (parseSuggestions text)
               | None => ret (parseSuggestions [])
               end
         end)
      (fun error =>
         console_error "OpenRouter: Unexpected error during API call:" ;;
         if instanceof_Error error then
           if includes (lit "fetch") (message_of error) then
             throw (JsError (lit "Network error: Unable to reach OpenRouter API. Please check your internet connection."))
           else if includes (lit "JSON") (message_of error) then
             throw (JsError (lit "OpenRouter API returned invalid response format."))
           else throw error
         else
           throw (JsError (lit "Unknown error occurred while generating copy suggestions."))).

Arguments generateCopySuggestions : simpl never.



End OpenRouter.

(** ** HTTP requests and responses of the route handlers *)

(** A [File] of a multipart form. [file_arrayBuffer] is what
    [await file.arrayBuffer()] gives: the bytes, or the thrown value when
    the read rejects. *)
Record File : Type := {
  file_name : jsstring;
  file_size : N;
  file_type : jsstring;
  file_arrayBuffer : Thrown + list N
}.

Record Cookie : Type := {
  cookie_name : jsstring;
  cookie_value : jsstring;
  httpOnly : bool;
  secure : bool;
  sameSite : jsstring;
  maxAge : N
}.

Record Response : Type := {
  status : N;
  body : Json;
  set_cookie : option Cookie
}.

(** [NextResponse.json(body, { status })]; the status defaults to 200. *)
Definition json (b : Json) (s : N) : Response :=
  {| status := s; body := b; set_cookie := None |}.

Definition error_body (msg : jsstring) : Json :=
  JObj [("error"%string, JStr msg)].

(** [error.stack]: the trace that the runtime wrote. *)
Definition error_stack (t : Thrown) : M jsstring :=
  fun w => (Return (stack w t), w).

(** ** lib/utils *)

Definition base64_alphabet : jsstring :=
  lit "ABCDEFGHIJKLMNOPQRSTUVWXYZabcdefghijklmnopqrstuvwxyz0123456789+/".

Definition base64_char (i : N) : N :=
  nth (N.to_nat i) base64_alphabet 61.

(** [Buffer.from(arrayBuffer).toString('base64')]. *)
Fixpoint base64 (bytes : list N) : jsstring :=
  match bytes with
  | [] => []
  | [a] =>
      [base64_char (a / 4); base64_char ((a mod 4) * 16); 61; 61]
  | [a; b] =>
      [base64_char (a / 4); base64_char ((a mod 4) * 16 + b / 16);
       base64_char ((b mod 16) * 4); 61]
  | a :: b :: c :: rest =>
      [base64_char (a / 4); base64_char ((a mod 4) * 16 + b / 16);
       base64_char ((b mod 16) * 4 + c / 64); base64_char (c mod 64)]
      ++ base64 rest
  end.

Definition arrayBuffer (file : File) : M (list N) :=
  match file_arrayBuffer file with
  | inl t => throw t
  | inr bytes => ret bytes
  end.

Definition convertFileToBase64 (file : File) : M jsstring :=
  try_catch
    (let* bytes := arrayBuffer file in
     ret (base64 bytes))
    (fun error =>
       console_error "Error converting file to base64:" ;;
       throw (JsError (lit "Failed to convert file to base64"))).

(** ** app/api/generate/route.ts *)

Module Generate.

(** The fields [formData.get] is asked for; [None] is [null]. *)
Record FormData : Type := {
  fd_mode : option jsstring;
  fd_productTypeId : option jsstring;
  fd_screenshot : option File;
  fd_badCopy : option jsstring;
  fd_inputCopy : option jsstring;
  fd_userType : option jsstring;
  fd_errorType : option jsstring;
  fd_canFix : option jsstring;
  fd_surface : option jsstring
}.

(** [formData] is what [await request.formData()] gives; [cookie] is the
    value of the [user_session] cookie when the request carries one. *)
Record Request : Type := {
  formData : Thrown + FormData;
  cookie : option jsstring
}.

Definition request_formData (request : Request) : M FormData :=
  match formData request with
  | inl t => throw t
  | inr fd => ret fd
  end.

(** The local type of [productType]. *)
Record ProductTypeData : Type := {
  instructions : jsstring;
  reference_files : option (list ReferenceFile)
}.

Definition select_with_reference_files (id : jsstring) : M (QueryResult ProductTypeData) :=
  await_query (SelectInstructions true id)
    (run_select_single
       (fun _ row => {| instructions := pt_instructions row;
                        reference_files := pt_reference_files row |}) id).

(** The fallback query selects [instructions] only. *)
Definition select_instructions (id : jsstring) : M (QueryResult jsstring) :=
  await_query (SelectInstructions false id)
    (run_select_single (fun _ row => pt_instructions row) id).

Definition insert_submission (row : SubmissionRow) : M (QueryResult unit) :=
  await_query (InsertSubmission row) (run_insert_submission row).

(** The message shown for a failure of [generateCopySuggestions]. *)
Definition userMessage (openRouterError : Thrown) : jsstring :=
  if instanceof_Error openRouterError then
    if includes (lit "API key") (message_of openRouterError) then
      lit "OpenRouter API key is invalid or missing"
    else if includes (lit "429") (message_of openRouterError) then
      lit "Rate limit exceeded. Please try again later"
    else if includes (lit "401") (message_of openRouterError) then
      lit "OpenRouter API authentication failed"
    else if includes (lit "network") (message_of openRouterError)
            || includes (lit "fetch") (message_of openRouterError) then
      lit "Network error: Unable to reach AI service"
    else
      lit "AI service error: " ++ message_of openRouterError
  else lit "Failed to generate suggestions".

(** What the handler reads from the form, under "Core fields" and
    "Mode-specific fields". A [productTypeId] that is [null] is refused by
    the validation before it is used. *)
Record Parsed : Type := {
  p_mode : jsstring;
  p_productTypeId : jsstring;
  p_screenshot : option File;
  p_badCopy : jsstring;
  p_context : OpenRouter.CopyContext
}.

Definition parse (fd : FormData) : Parsed :=
  let mode := or_else (fd_mode fd) (lit "improve_copy") in
  {| p_mode := mode;
     p_productTypeId := default [] (fd_productTypeId fd);
     p_screenshot := fd_screenshot fd;
     p_badCopy := or_else (fd_badCopy fd) (or_else (fd_inputCopy fd) []);
     p_context :=
       {| OpenRouter.mode := mode;
          OpenRouter.userType := fd_userType fd;
          OpenRouter.errorType := fd_errorType fd;
          OpenRouter.canFix := fd_canFix fd;
          OpenRouter.surface := fd_surface fd |} |}.

(** The success payload of a request answered in world [w]: the
    suggestions, and the session cookie when the request had none. *)
Definition success (request : Request) (w : World)
    (suggestions : list jsstring) : Response :=
  {| status := 200;
     body := JObj [("suggestions"%string, JArr (JStr <$> suggestions))];
     set_cookie :=
       match cookie request with
       | Some _ => None
       | None =>
           Some {| cookie_name := lit "user_session";
                   cookie_value := uuid w;
                   httpOnly := true;
                   secure := bool_decide (NODE_ENV (env w) = Some (lit "production"));
                   sameSite := lit "lax";
                   maxAge := 2592000 |}
       end |}.

(** The row the handler asks the datastore to insert. *)
Definition submission (request : Request) (w : World) (p : Parsed)
    (suggestions : list jsstring) : SubmissionRow :=
  {| bad_copy := p_badCopy p;
     product_type_id := p_productTypeId p;
     suggestions := suggestions;
     has_screenshot := bool_decide (is_Some (p_screenshot p));
     user_session :=
       if truthy_opt (cookie request) then default [] (cookie request)
       else uuid w |}.

(** The rejection for a missing copy, and a response other than it. *)
Definition missingCopy : Json :=
  error_body (lit "Original copy is required for improvement mode").

Definition notMissingCopy (response : Response) : Prop :=
  body response <> missingCopy.

(** From "Get or create user session" to [return response]. *)
Definition respond (request : Request) (p : Parsed)
    (suggestions : list jsstring) : M Response :=
  let* userSession :=
    (if truthy_opt (cookie request) then ret (default [] (cookie request))
     else randomUUID) in
  let* node_env := getenv NODE_ENV in
  let response :=
    {| status := 200;
       body := JObj [("suggestions"%string, JArr (JStr <$> suggestions))];
       set_cookie :=
         match cookie request with
         | Some _ => None
         | None =>
             Some {| cookie_name := lit "user_session";
                     cookie_value := userSession;
                     httpOnly := true;
                     secure := bool_decide (node_env = Some (lit "production"));
                     sameSite := lit "lax";
                     maxAge := 60 * 60 * 24 * 30 |}
         end |} in
  try_catch
    (let* r :=
       insert_submission
         {| bad_copy := p_badCopy p;
            product_type_id := p_productTypeId p;
            suggestions := suggestions;
            has_screenshot := bool_decide (is_Some (p_screenshot p));
            user_session := userSession |} in
     match error r with
     | Some _ => console_error "SUBMISSION STORAGE ERROR:"
     | None => ret tt
     end)
    (fun storageError =>
       console_error "SUBMISSION STORAGE UNEXPECTED ERROR:") ;;
  ret response.

(** From "Convert screenshot to base64 if provided" on. *)
Definition generate (request : Request) (p : Parsed)
    (productType : ProductTypeData) : M Response :=
  let* converted :=
    match p_screenshot p with
    | Some screenshot =>
        if 0 <? file_size screenshot then
          try_catch
            (let* b := convertFileToBase64 screenshot in ret (inr (Some b)))
            (fun conversionError =>
               console_error "SCREENSHOT CONVERSION ERROR:" ;;
               ret (inl (json
                 (error_body (lit "Failed to process screenshot: "
                    ++ (if instanceof_Error conversionError
                        then message_of conversionError
                        else lit "Unknown error")))
                 500)))
        else ret (inr None)
    | None => ret (inr None)
    end in
  match converted with
  | inl response => ret response
  | inr imageBase64 =>
      let referenceFileUrls :=
        rf_url <$> default [] (reference_files productType) in
      let* generated :=
        try_catch
          (let* s :=
             OpenRouter.generateCopySuggestions (p_badCopy p)
               (instructions productType) imageBase64
               (Some referenceFileUrls) (Some (p_context p)) in
           ret (inr s))
          (fun openRouterError =>
             console_error "OPENROUTER API ERROR:" ;;
             ret (inl (json (error_body (userMessage openRouterError)) 500))) in
      match generated with
      | inl response => ret response
      | inr suggestions => respond request p suggestions
      end
  end.

(** From "Get product type instructions from Supabase" on. *)
Definition load (request : Request) (p : Parsed) : M Response :=
  createServerSupabaseClient ;;
  let* found :=
    try_catch
      (let* r := select_with_reference_files (p_productTypeId p) in
       match error r with
       | None => ret (data r, None)
       | Some e => throw (ApiThrown e)
       end)
      (fun _ =>
         let* r := select_instructions (p_productTypeId p) in
         ret ((fun i => {| instructions := i; reference_files := Some [] |})
                <$> data r,
              error r)) in
  let productType := fst found in
  let productError := snd found in
  match productError with
  | Some e =>
      console_error "DATABASE ERROR:" ;;
      ret (json (error_body (lit "Database error: " ++ err_message e)) 500)
  | None =>
      match productType with
      | None =>
          console_error "VALIDATION ERROR: Product type not found" ;;
          ret (json (error_body (lit "Invalid product type")) 400)
      | Some productType => generate request p productType
      end
  end.

(** The [catch] of the whole handler. *)
Definition unexpected (error : Thrown) : M Response :=
  console_error "=== GENERATE API UNEXPECTED ERROR ===" ;;
  console_error "Error details:" ;;
  console_error "Stack trace:" ;;
  let* trace := error_stack error in
  ret (json
    (JObj [("error"%string,
            JStr (lit "Unexpected server error: "
                  ++ (if instanceof_Error error then message_of error
                      else lit "Unknown error")));
           ("details"%string,
            JStr (if instanceof_Error error then trace
                  else lit "No additional details"))])
    500).

Definition POST (request : Request) : M Response :=
  try_catch
    (let* openRouterKey := getenv OPENROUTER_API_KEY in
     let* supabaseUrl := getenv NEXT_PUBLIC_SUPABASE_URL in
     let* supabaseServiceKey := getenv SUPABASE_SERVICE_ROLE_KEY in
     if negb (truthy_opt openRouterKey) then
       console_error "MISSING: OPENROUTER_API_KEY not configured" ;;
       ret (json (error_body (lit "OpenRouter API key not configured. Please check environment variables.")) 500)
     else if negb (truthy_opt supabaseUrl) || negb (truthy_opt supabaseServiceKey) then
       console_error "MISSING: Supabase configuration incomplete" ;;
       ret (json (error_body (lit "Database configuration incomplete. Please check environment variables.")) 500)
     else
       let* fd := request_formData request in
       let p := parse fd in
       if negb (truthy_opt (fd_productTypeId fd)) then
         console_error "VALIDATION ERROR: Product type is required" ;;
         ret (json (error_body (lit "Product type is required")) 400)
       else if bool_decide (p_mode p = lit "improve_copy")
               && negb (truthy (p_badCopy p)) then
         console_error "VALIDATION ERROR: Bad copy is required for improve_copy mode" ;;
         ret (json (error_body (lit "Original copy is required for improvement mode")) 400)
       else load request p)
    unexpected.

End Generate.

(** ** app/api/product-types/[id]/route.ts *)

Module ProductTypeById.

(** JSON's falsy values. *)
Inductive Falsy : Type := f_null | f_false | f_zero | f_empty_string.

(** The [referenceFiles] field of a request body: absent, falsy, or an
    array of reference files. *)
Inductive ReferenceFilesField : Type :=
| rf_absent
| rf_falsy (v : Falsy)
| rf_array (files : list ReferenceFile).

(** [referenceFiles || []]. *)
Definition or_empty (referenceFiles : ReferenceFilesField) : list ReferenceFile :=
  match referenceFiles with
  | rf_array files => files
  | rf_absent | rf_falsy _ => []
  end.

(** The destructured body of a PUT request. *)
Record Body : Type := {
  name : option jsstring;
  instructions : option jsstring;
  referenceFiles : ReferenceFilesField
}.

Definition request_json (b : Thrown + Body) : M Body :=
  match b with
  | inl t => throw t
  | inr body => ret body
  end.

Definition json_of_reference_file (f : ReferenceFile) : Json :=
  JObj [("id"%string, JStr (rf_id f)); ("name"%string, JStr (rf_name f));
        ("size"%string, JNum (rf_size f)); ("type"%string, JStr (rf_type f));
        ("url"%string, JStr (rf_url f));
        ("uploadedAt"%string, JStr (rf_uploadedAt f))].

(** A row selected as [id, name, instructions, reference_files,
    created_at]. *)
Definition json_of_product_type (id : jsstring) (row : ProductTypeRow) : Json :=
  JObj [("id"%string, JStr id); ("name"%string, JStr (pt_name row));
        ("instructions"%string, JStr (pt_instructions row));
        ("reference_files"%string,
         match pt_reference_files row with
         | Some files => JArr (json_of_reference_file <$> files)
         | None => JNull
         end);
        ("created_at"%string, JStr (pt_created_at row))].

Definition PUT (id : jsstring) (request : Thrown + Body) : M Response :=
  try_catch
    (let* b := request_json request in
     if negb (truthy id) || negb (truthy_opt (name b))
        || negb (truthy_opt (instructions b)) then
       ret (json (error_body (lit "ID, name and instructions are required")) 400)
     else
       let name := default [] (name b) in
       let instructions := default [] (instructions b) in
       createServerSupabaseClient ;;
       let* check :=
         await_query (SelectIdByNameNotId name id)
           (run_select_name_conflicts name id) in
       match error check with
       | Some checkError =>
           console_error "PUT /api/product-types/[id] - Error checking existing names:" ;;
           throw (ApiThrown checkError)
       | None =>
           if bool_decide (0 < length (default [] (data check)))%nat then
             ret (json (error_body (lit "A product type with this name already exists")) 409)
           else
             let* updated :=
               await_query
                 (UpdateProductType id name instructions
                    (or_empty (referenceFiles b)))
                 (run_update id name instructions
                    (or_empty (referenceFiles b))) in
             match error updated with
             | Some updateError =>
                 console_error "PUT /api/product-types/[id] - Database update error:" ;;
                 throw (ApiThrown updateError)
             | None =>
                 match data updated with
                 | None =>
                     ret (json (error_body (lit "Product type not found")) 404)
                 | Some productType =>
                     ret (json (json_of_product_type (fst productType)
                                  (snd productType)) 200)
                 end
             end
       end)
    (fun error =>
       console_error "PUT /api/product-types/[id] - Unexpected error:" ;;
       ret (json
         (JObj [("error"%string, JStr (lit "Failed to update product type"));
                ("details"%string,
                 JStr (if instanceof_Error error then message_of error
                       else lit "Unknown error"))])
         500)).

(** The three-field bodies of the DELETE handler. *)
Definition conflict_body (msg details : jsstring) : Json :=
  JObj [("error"%string, JStr (lit "Cannot delete product type"));
        ("message"%string, JStr msg);
        ("details"%string, JStr details)].

Definition DELETE (id : jsstring) : M Response :=
  try_catch
    (if negb (truthy id) then
       ret (json (error_body (lit "Product type ID is required")) 400)
     else
       createServerSupabaseClient ;;
       let* check :=
         await_query (SelectIdName id)
           (run_select_single (fun i row => (i, pt_name row)) id) in
       match error check with
       | Some checkError =>
           if negb (bool_decide (err_code checkError = lit "PGRST116")) then
             console_error "DELETE /api/product-types/[id] - Error checking existence:" ;;
             throw (ApiThrown checkError)
           else ret tt
       | None => ret tt
       end ;;
       match data check with
       | None =>
           ret (json (error_body (lit "Product type not found")) 404)
       | Some existing =>
           let* related :=
             await_query (SelectSubmissionIds id) (run_select_submissions id) in
           match error related with
           | Some submissionsError =>
               console_error "DELETE /api/product-types/[id] - Error checking submissions:"
           | None => ret tt
           end ;;
           if bool_decide (0 < length (default [] (data related)))%nat then
             ret (json
               (conflict_body
                  (lit "This product type has been used in copy generation requests and cannot be deleted. You can edit it instead.")
                  (lit "Foreign key constraint: submissions exist for this product type"))
               409)
           else
             let* deleted :=
               await_query (DeleteProductType id) (run_delete id) in
             match error deleted with
             | Some deleteError =>
                 console_error "DELETE /api/product-types/[id] - Database delete error:" ;;
                 if bool_decide (err_code deleteError = lit "23503") then
                   ret (json
                     (conflict_body
                        (lit "This product type is being used by existing submissions and cannot be deleted.")
                        (err_message deleteError))
                     409)
                 else
                   ret (json
                     (JObj [("error"%string, JStr (lit "Database error"));
                            ("message"%string, JStr (err_message deleteError));
                            ("details"%string,
                             JStr (or_else (err_details deleteError)
                                     (lit "Unknown database error")))])
                     500)
             | None =>
                 ret (json
                   (JObj [("message"%string,
                           JStr (lit "Product type deleted successfully"));
                          ("deletedId"%string, JStr id);
                          ("deletedName"%string, JStr (snd existing))])
                   200)
             end
       end)
    (fun error =>
       console_error "DELETE /api/product-types/[id] - Unexpected error:" ;;
       match error with
       | ApiThrown dbError =>
           if bool_decide (err_code dbError = lit "23503") then
             ret (json
               (conflict_body
                  (lit "This product type is being used and cannot be deleted.")
                  (err_message dbError))
               409)
           else
             ret (json
               (JObj [("error"%string, JStr (lit "Failed to delete product type"));
                      ("message"%string,
                       JStr (if instanceof_Error error then message_of error
                             else lit "Unknown error"));
                      ("details"%string,
                       JStr (lit "Unexpected server error during deletion"))])
               500)
       | JsError _ =>
           ret (json
             (JObj [("error"%string, JStr (lit "Failed to delete product type"));
                    ("message"%string, JStr (message_of error));
                    ("details"%string,
                     JStr (lit "Unexpected server error during deletion"))])
             500)
       end).

End ProductTypeById.

(** ** app/api/upload-reference/route.ts *)

(** [String.prototype.toLowerCase] on the letters of Basic Latin; the other
    code units are kept. The upload handler below takes the lower-casing
    function as a parameter, and this one is used to run it. *)
Definition asciiToLowerCase (s : jsstring) : jsstring :=
  (fun c => if (65 <=? c) && (c <=? 90) then c + 32 else c) <$> s.

Module UploadReference.

Definition MAX_FILE_SIZE : N := 5 * 1024 * 1024.

Definition ALLOWED_TYPES : list jsstring :=
  [lit ".pdf"; lit ".png"; lit ".jpg"; lit ".jpeg"; lit ".webp"].

(** [supabase.storage.from('reference-files').upload(path, bytes,
    { contentType })]: an object that exists is not overwritten. *)
Definition storage_upload (path : jsstring) (bytes : list N)
    (contentType : jsstring) : M (QueryResult jsstring) :=
  fun w =>
    let w' := with_call (CallUpload (lit "reference-files") path bytes contentType) w in
    match upload_fault w with
    | Works =>
        match storage w !! path with
        | Some _ =>
            (Return (error_result
               {| err_message := lit "The resource already exists";
                  err_details := None;
                  err_code := lit "409";
                  err_is_Error := client_errors_extend_Error w |}), w')
        | None =>
            (Return (ok_result path),
             with_storage
               (<[path := {| obj_bytes := bytes;
                             obj_contentType := contentType |}]> (storage w))
               w')
        end
    | FailsWith e => (Return (error_result e), w')
    | Rejects t => (Throw t, w')
    end.

(** [supabase.storage.from('reference-files').getPublicUrl(path)]. *)
Definition getPublicUrl (path : jsstring) : M jsstring :=
  let* supabaseUrl := getenv NEXT_PUBLIC_SUPABASE_URL in
  ret (default [] supabaseUrl
       ++ lit "/storage/v1/object/public/reference-files/" ++ path).

Definition request_file (request : Thrown + option File) : M (option File) :=
  match request with
  | inl t => throw t
  | inr file => ret file
  end.

Section WithLowerCase.

Variable toLowerCase : jsstring -> jsstring.

(** ['.' + file.name.split('.').pop()?.toLowerCase()]. *)
Definition fileExtension (file_name : jsstring) : jsstring :=
  lit "."
  ++ match last (split 46 file_name) with
     | Some ext => toLowerCase ext
     | None => lit "undefined"
     end.

Definition POST (request : Thrown + option File) : M Response :=
  try_catch
    (let* maybe_file := request_file request in
     match maybe_file with
     | None =>
         console_error "Reference upload: No file provided" ;;
         ret (json (error_body (lit "No file provided")) 400)
     | Some file =>
         if negb (array_includes ALLOWED_TYPES (fileExtension (file_name file))) then
           console_error "Reference upload: Invalid file type:" ;;
           ret (json (error_body (lit "Invalid file type. Only PDF, PNG, JPG, and WebP files are allowed.")) 400)
         else if MAX_FILE_SIZE <? file_size file then
           console_error "Reference upload: File too large:" ;;
           ret (json (error_body (lit "File size exceeds 5MB limit.")) 400)
         else
           let* fileId := randomUUID in
           let fileName := fileId ++ lit "-" ++ file_name file in
           let filePath := lit "reference-docs/" ++ fileName in
           createServerSupabaseClient ;;
           let* bytes := arrayBuffer file in
           let* uploaded := storage_upload filePath bytes (file_type file) in
           match error uploaded with
           | Some uploadError =>
               console_error "Reference upload: Supabase Storage error:" ;;
               ret (json (error_body (lit "Failed to upload file to storage: "
                                      ++ err_message uploadError)) 500)
           | None =>
               let* publicUrl := getPublicUrl filePath in
               if negb (truthy publicUrl) then
                 console_error "Reference upload: Failed to get public URL" ;;
                 ret (json (error_body (lit "Failed to get file URL")) 500)
               else
                 let* uploadedAt := Date_now_toISOString in
                 ret (json
                   (JObj [("id"%string, JStr fileId);
                          ("name"%string, JStr (file_name file));
                          ("size"%string, JNum (file_size file));
                          ("type"%string, JStr (file_type file));
                          ("url"%string, JStr publicUrl);
                          ("uploadedAt"%string, JStr uploadedAt)])
                   200)
           end
     end)
    (fun error =>
       console_error "Reference upload: Unexpected error:" ;;
       ret (json (error_body (lit "Failed to upload file: "
                              ++ (if instanceof_Error error then message_of error
                                  else lit "Unknown error"))) 500)).

End WithLowerCase.

End UploadReference.

(** ** A configured deployment with a small database, to run the handlers *)

Module Fixture.

Definition configured : Env :=
  {| OPENROUTER_API_KEY := Some (lit "sk-or-test");
     NEXT_PUBLIC_APP_URL := Some (lit "https://copyfixer.example");
     NEXT_PUBLIC_SUPABASE_URL := Some (lit "https://db.example");
     NEXT_PUBLIC_SUPABASE_ANON_KEY := Some (lit "anon");
     SUPABASE_SERVICE_ROLE_KEY := Some (lit "service-role");
     NODE_ENV := Some (lit "production") |}.

Definition style_guide : ReferenceFile :=
  {| rf_id := lit "f1"; rf_name := lit "guide.pdf"; rf_size := 2048;
     rf_type := lit "application/pdf";
     rf_url := lit "/files/guide.pdf";
     rf_uploadedAt := lit "2025-01-01T00:00:00.000Z" |}.

Definition saas : ProductTypeRow :=
  {| pt_name := lit "SaaS";
     pt_instructions := lit "Write professional, benefit-driven copy.";
     pt_reference_files := Some [style_guide];
     pt_created_at := lit "2025-01-01T00:00:00.000Z" |}.

Definition mobile : ProductTypeRow :=
  {| pt_name := lit "Mobile App";
     pt_instructions := lit "Write concise, action-oriented copy.";
     pt_reference_files := None;
     pt_created_at := lit "2025-01-02T00:00:00.000Z" |}.

Definition earlier : SubmissionRow :=
  {| bad_copy := lit "Oops!";
     product_type_id := lit "pt-saas";
     suggestions := [lit "Something went wrong. Try again."];
     has_screenshot := false;
     user_session := lit "session-1" |}.

(** [pt-saas] is referenced by a submission, [pt-mobile] is not. *)
Definition database : DB :=
  {| product_types := <[lit "pt-saas" := saas]> (<[lit "pt-mobile" := mobile]> ∅);
     submissions := [earlier] |}.

(** The upstream answers 200 with [text] as the content of its first
    choice. *)
Definition completion (text : jsstring) : OpenRouterResponse :=
  {| choices :=
       inr [ {| message := Some {| resp_content := Some (StringContent text) |} |} ] |}.

Definition ok_response (text : jsstring) : FetchResponse :=
  {| resp_status := 200; resp_statusText := lit "OK"; resp_text := [];
     resp_json := inr (completion text) |}.



Definition answers (text : jsstring) : FetchOutcome :=
  FetchResolves (ok_response text).

(** The upstream answers with an error status. *)
Definition refuses (code : N) (statusText : string) : FetchOutcome :=
  FetchResolves
    {| resp_status := code; resp_statusText := lit statusText;
       resp_text := []; resp_json := inl (JsError (lit "Unexpected end of JSON input")) |}.

Definition world (e : Env) (up : FetchOutcome) : World :=
  {| env := e;
     query_fault := fun _ => Works;
     upload_fault := Works;
     upstream := up;
     uuid := lit "00000000-0000-4000-8000-000000000000";
     now := lit "2025-06-01T12:00:00.000Z";
     client_errors_extend_Error := true;
     stack := fun t => lit "Error: " ++ message_of t ++ nl
                       ++ lit "    at POST (route.js:1:1)";
     db := database;
     storage := ∅;
     calls := [];
     console := [] |}.

Definition context_of_mode (m : string) : OpenRouter.CopyContext :=
  {| OpenRouter.mode := lit m;
     OpenRouter.userType := Some (lit "admin");
     OpenRouter.errorType := None;
     OpenRouter.canFix := Some (lit "yes");
     OpenRouter.surface := None |}.

Definition three_lines : jsstring :=
  lit "Something went wrong." ++ nl ++ nl ++ lit "  We hit a snag.  " ++ nl
  ++ lit "Please try again." ++ nl ++ lit "A fourth line".

Definition healthy : World := world configured (answers three_lines).

(** The same world with one query failing. *)
Definition failing (q : Query) (f : Fault) (w : World) : World :=
  {| env := env w;
     query_fault := fun q' => if bool_decide (q' = q) then f else query_fault w q';
     upload_fault := upload_fault w; upstream := upstream w;
     uuid := uuid w; now := now w;
     client_errors_extend_Error := client_errors_extend_Error w;
     stack := stack w;
     db := db w; storage := storage w; calls := calls w;
     console := console w |}.

(** A form of the generation endpoint. *)
Definition form (mode : string) (productTypeId : option jsstring)
    (badCopy : option jsstring) : Generate.FormData :=
  {| Generate.fd_mode := Some (lit mode);
     Generate.fd_productTypeId := productTypeId;
     Generate.fd_screenshot := None;
     Generate.fd_badCopy := badCopy;
     Generate.fd_inputCopy := None;
     Generate.fd_userType := Some (lit "admin");
     Generate.fd_errorType := None;
     Generate.fd_canFix := None;
     Generate.fd_surface := Some (lit "modal") |}.

Definition request_of (fd : Generate.FormData) : Generate.Request :=
  {| Generate.formData := inr fd; Generate.cookie := None |}.

Definition storage_down : ApiError :=
  {| err_message := lit "connection refused";
     err_details := None;
     err_code := lit "08006";
     err_is_Error := true |}.

End Fixture.
(** ** lib/utils: slugify *)

(** The class [\w] of a regular expression without the unicode flag. *)
Definition isWordChar (c : N) : bool :=
  ((48 <=? c) && (c <=? 57)) || ((65 <=? c) && (c <=? 90)) || (c =? 95)
  || ((97 <=? c) && (c <=? 122)).

Module Utils.

Section WithLowerCase.

Variable toLowerCase : jsstring -> jsstring.

(** [text.toLowerCase().replace(/ /g, '-').replace(/[^\w-]+/g, '')]. *)
Definition slugify (text : jsstring) : jsstring :=
  filter (fun c => isWordChar c = true \/ c = 45)
    ((fun c => if c =? 32 then 45 else c) <$> toLowerCase text).

End WithLowerCase.

End Utils.

(** ** app/api/upload-reference/route.ts: DELETE *)

(** [String.prototype.split] for a separator of several code units:
    [skip] counts the code units of a separator just found that are still
    to be passed over, [piece] holds the current piece, last code unit
    first. *)
Fixpoint splitBy (sep : jsstring) (skip : nat) (piece s : jsstring)
    : list jsstring :=
  match s with
  | [] => [reverse piece]
  | c :: s' =>
      match skip with
      | S k => splitBy sep k piece s'
      | O =>
          if startsWith sep s
          then reverse piece :: splitBy sep (length sep - 1) [] s'
          else splitBy sep 0 (c :: piece) s'
      end
  end.

Definition splitOn (sep s : jsstring) : list jsstring := splitBy sep 0 [] s.

Module UploadReferenceDelete.

(** [supabase.storage.from('reference-files').remove([path])], with the
    answer of the object store given: removing a key that is not stored is
    no error. *)
Definition storage_remove (answer : Fault) (path : jsstring)
    : M (QueryResult unit) :=
  fun w =>
    match answer with
    | Works => (Return (ok_result tt), with_storage (delete path (storage w)) w)
    | FailsWith e => (Return (error_result e), w)
    | Rejects t => (Throw t, w)
    end.

(** [fileId] and [fileUrl] are [searchParams.get('id')] and
    [searchParams.get('url')]. *)
Definition DELETE (remove_answer : Fault) (fileId fileUrl : option jsstring)
    : M Response :=
  try_catch
    (if negb (truthy_opt fileId) || negb (truthy_opt fileUrl) then
       console_error "Reference delete: Missing file ID or URL" ;;
       ret (json (error_body (lit "File ID and URL are required")) 400)
     else
       let urlParts := splitOn (lit "/reference-files/") (default [] fileUrl) in
       if negb (bool_decide (length urlParts = 2%nat)) then
         console_error "Reference delete: Invalid file URL format" ;;
         ret (json (error_body (lit "Invalid file URL format")) 400)
       else
         let filePath := lit "reference-files/" ++ default [] (urlParts !! 1%nat) in
         createServerSupabaseClient ;;
         let* removed := storage_remove remove_answer filePath in
         match error removed with
         | Some deleteError =>
             console_error "Reference delete: Supabase Storage error:" ;;
             ret (json (error_body (lit "Failed to delete file from storage: "
                                    ++ err_message deleteError)) 500)
         | None =>
             ret (json (JObj [("message"%string,
                               JStr (lit "File deleted successfully"))]) 200)
         end)
    (fun error =>
       console_error "Reference delete: Unexpected error:" ;;
       ret (json (error_body (lit "Failed to delete file: "
                              ++ (if instanceof_Error error then message_of error
                                  else lit "Unknown error"))) 500)).

End UploadReferenceDelete.

(** ** app/api/product-types/route.ts: POST and PUT *)

Module ProductTypes.

(** An awaited query whose answer is given with the call. *)
Definition await_answer {A} (answer : Fault)
    (run : World -> QueryResult A * DB) : M (QueryResult A) :=
  fun w =>
    match answer with
    | Works => let '(r, d) := run w in (Return r, with_db d w)
    | FailsWith e => (Return (error_result e), w)
    | Rejects t => (Throw t, w)
    end.

(** The primary key of [product_types]. *)
Definition DUPLICATE_KEY (is_Error : bool) : ApiError :=
  {| err_message := lit "duplicate key value violates unique constraint";
     err_details := None;
     err_code := lit "23505";
     err_is_Error := is_Error |}.

(** [.single()]: the one row an awaited select found, and the error of
    [.single()] for no row or for several. *)
Definition single {A} (is_Error : bool) (rows : list A) : QueryResult A :=
  match rows with
  | [row] => ok_result row
  | _ => error_result (PGRST116 is_Error)
  end.

(** [.select('id').eq('name', name).single()]. *)
Definition run_select_by_name (name : jsstring) (w : World)
    : QueryResult jsstring * DB :=
  (single (client_errors_extend_Error w)
     (fst <$> map_to_list
        (filter (fun kv : list N * ProductTypeRow => pt_name (snd kv) = name)
           (product_types (db w)))),
   db w).

(** [.select('id').eq('name', name).neq('id', id).single()]. *)
Definition run_select_other_by_name (name id : jsstring) (w : World)
    : QueryResult jsstring * DB :=
  (single (client_errors_extend_Error w)
     (fst <$> map_to_list
        (filter (fun kv : list N * ProductTypeRow =>
                   pt_name (snd kv) = name /\ fst kv <> id)
           (product_types (db w)))),
   db w).

(** [.insert({ name, instructions, reference_files }).select(...)
    .single()]: the datastore gives the row its [id] and [created_at]. *)
Definition run_insert (name instructions : jsstring)
    (reference_files : option (list ReferenceFile)) (w : World)
    : QueryResult (jsstring * ProductTypeRow) * DB :=
  match product_types (db w) !! uuid w with
  | Some _ => (error_result (DUPLICATE_KEY (client_errors_extend_Error w)), db w)
  | None =>
      let row := {| pt_name := name; pt_instructions := instructions;
                    pt_reference_files := reference_files;
                    pt_created_at := now w |} in
      (ok_result (uuid w, row),
       {| product_types := <[uuid w := row]> (product_types (db w));
          submissions := submissions (db w) |})
  end.

(** [.update({ name, instructions }).eq('id', id).select().single()]. *)
Definition run_update_basic (id name instructions : jsstring) (w : World)
    : QueryResult (jsstring * ProductTypeRow) * DB :=
  match product_types (db w) !! id with
  | Some row =>
      let row' := {| pt_name := name; pt_instructions := instructions;
                     pt_reference_files := pt_reference_files row;
                     pt_created_at := pt_created_at row |} in
      (ok_result (id, row'),
       {| product_types := <[id := row']> (product_types (db w));
          submissions := submissions (db w) |})
  | None => (error_result (PGRST116 (client_errors_extend_Error w)), db w)
  end.

(** How the outside calls of [POST] answer: the name check, the insert
    with [reference_files] and the insert without. *)
Record PostAnswers : Type := {
  check_answer : Fault;
  insert_answer : Fault;
  fallback_answer : Fault
}.

(** A row selected as [id, name, instructions, created_at], to which the
    handler adds an empty [reference_files]. *)
Definition json_with_empty_refs (id : jsstring) (row : ProductTypeRow) : Json :=
  JObj [("id"%string, JStr id); ("name"%string, JStr (pt_name row));
        ("instructions"%string, JStr (pt_instructions row));
        ("created_at"%string, JStr (pt_created_at row));
        ("reference_files"%string, JArr [])].

Definition POST (answers : PostAnswers)
    (request : Thrown + ProductTypeById.Body) : M Response :=
  try_catch
    (let* b := ProductTypeById.request_json request in
     if negb (truthy_opt (ProductTypeById.name b))
        || negb (truthy_opt (ProductTypeById.instructions b)) then
       ret (json (error_body (lit "Name and instructions are required")) 400)
     else
       let name := default [] (ProductTypeById.name b) in
       let instructions := default [] (ProductTypeById.instructions b) in
       createServerSupabaseClient ;;
       let* check :=
         await_answer (check_answer answers) (run_select_by_name name) in
       match data check with
       | Some existing =>
           ret (json (error_body (lit "A product type with this name already exists")) 409)
       | None =>
           let* first :=
             try_catch
               (let* inserted :=
                  await_answer (insert_answer answers)
                    (run_insert name instructions
                       (Some (ProductTypeById.or_empty
                                (ProductTypeById.referenceFiles b)))) in
                match error inserted with
                | None =>
                    ret (Some (json
                      (match data inserted with
                       | Some productType =>
                           ProductTypeById.json_of_product_type
                             (fst productType) (snd productType)
                       | None => JNull
                       end) 200))
                | Some _ => ret None
                end)
               (fun refError => ret None) in
           match first with
           | Some response => ret response
           | None =>
               let* inserted :=
                 await_answer (fallback_answer answers)
                   (run_insert name instructions None) in
               match error inserted with
               | Some e => throw (ApiThrown e)
               | None =>
                   ret (json
                     (match data inserted with
                      | Some productType =>
                          json_with_empty_refs (fst productType) (snd productType)
                      | None => JObj [("reference_files"%string, JArr [])]
                      end) 200)
               end
           end
       end)
    (fun error =>
       console_error "Create product type error:" ;;
       ret (json (error_body (lit "Failed to create product type")) 500)).

(** The destructured body of the PUT of this route. *)
Record PutBody : Type := {
  put_id : option jsstring;
  put_name : option jsstring;
  put_instructions : option jsstring
}.

Definition request_put (b : Thrown + PutBody) : M PutBody :=
  match b with
  | inl t => throw t
  | inr body => ret body
  end.

Definition PUT (check_answer update_answer : Fault)
    (request : Thrown + PutBody) : M Response :=
  try_catch
    (let* b := request_put request in
     if negb (truthy_opt (put_id b)) || negb (truthy_opt (put_name b))
        || negb (truthy_opt (put_instructions b)) then
       ret (json (error_body (lit "ID, name and instructions are required")) 400)
     else
       let id := default [] (put_id b) in
       let name := default [] (put_name b) in
       let instructions := default [] (put_instructions b) in
       createServerSupabaseClient ;;
       let* check :=
         await_answer check_answer (run_select_other_by_name name id) in
       match data check with
       | Some existing =>
           ret (json (error_body (lit "A product type with this name already exists")) 409)
       | None =>
           let* updated :=
             await_answer update_answer (run_update_basic id name instructions) in
           match error updated with
           | Some e => throw (ApiThrown e)
           | None =>
               ret (json
                 (match data updated with
                  | Some productType =>
                      ProductTypeById.json_of_product_type
                        (fst productType) (snd productType)
                  | None => JNull
                  end) 200)
           end
       end)
    (fun error =>
       console_error "Update product type error:" ;;
       ret (json (error_body (lit "Failed to update product type")) 500)).

End ProductTypes.

(** ** app/api/submissions/route.ts: the session of a request *)

Module Submissions.

(** [request.headers.get('cookie')?.split(';')
      .find(c => c.trim().startsWith('user_session='))?.split('=')[1]];
    [None] is [undefined]. *)
Definition userSession (cookieHeader : option jsstring) : option jsstring :=
  match cookieHeader with
  | None => None
  | Some header =>
      match List.find (fun c => startsWith (lit "user_session=") (trim c))
              (split 59 header) with
      | None => None
      | Some c => split 61 c !! 1%nat
      end
  end.

End Submissions.

(** ** Names of product types *)

(** No two stored product types have the same name. *)
Definition uniqueNames (d : DB) : Prop :=
  forall i j r r',
    product_types d !! i = Some r -> product_types d !! j = Some r' ->
    pt_name r = pt_name r' -> i = j.

(** Every submission refers to a stored product type. *)
Definition referencesResolve (d : DB) : Prop :=
  forall s, s ∈ submissions d -> is_Some (product_types d !! product_type_id s).

(** What an entry of a suggestion list looks like: not empty, no line
    feed inside, and no white space at either end. *)
Definition isSuggestion (s : jsstring) : Prop :=
  s <> [] /\ (10 ∉ s)
  /\ (forall c, head s = Some c -> isWhiteSpace c = false)
  /\ (forall c, last s = Some c -> isWhiteSpace c = false).


(** ** Reading the generation endpoint *)

(** A screenshot that is not empty can be read. *)
Definition readable (p : Generate.Parsed) : Prop :=
  forall f, Generate.p_screenshot p = Some f -> 0 < file_size f ->
            exists bytes, file_arrayBuffer f = inr bytes.

(** The request the generator sends for [p] and [productType] with the
    image [image]. *)
Definition upstreamCall (w : World) (p : Generate.Parsed)
    (productType : Generate.ProductTypeData) (image : option jsstring) : Call :=
  CallFetch
    (OpenRouter.chatRequest (OPENROUTER_API_KEY (env w))
       (NEXT_PUBLIC_APP_URL (env w))
       (OpenRouter.composeMessages (NEXT_PUBLIC_APP_URL (env w))
          (Generate.p_badCopy p) (Generate.instructions productType) image
          (Some (rf_url <$> default [] (Generate.reference_files productType)))
          (Some (Generate.p_context p)))).

(** One to three suggestions. *)
Definition suggestionList (suggestions : list jsstring) : Prop :=
  (1 <= length suggestions <= 3)%nat /\ Forall isSuggestion suggestions.

(** What an answer of the generation endpoint looks like. *)
Definition generateAnswer (response : Response) : Prop :=
  (status response = 200 \/ status response = 400 \/ status response = 500)
  /\ (status response = 200 ->
      exists suggestions,
        body response = JObj [("suggestions"%string, JArr (JStr <$> suggestions))]
        /\ suggestionList suggestions).

(** The code units a slug is made of: small letters, digits, the
    underscore and the hyphen. *)
Definition isSlugChar (c : N) : Prop :=
  97 <= c <= 122 \/ 48 <= c <= 57 \/ c = 95 \/ c = 45.

(** ** More requests and worlds to run the handlers on *)

Module Scenario.

(** Two deployments that load the route modules and lack one key. *)
Definition no_upstream_key : Env :=
  {| OPENROUTER_API_KEY := None;
     NEXT_PUBLIC_APP_URL := None;
     NEXT_PUBLIC_SUPABASE_URL := Some (lit "https://db.example");
     NEXT_PUBLIC_SUPABASE_ANON_KEY := Some (lit "anon");
     SUPABASE_SERVICE_ROLE_KEY := Some (lit "service-role");
     NODE_ENV := None |}.

Definition no_service_key : Env :=
  {| OPENROUTER_API_KEY := Some (lit "sk-or-test");
     NEXT_PUBLIC_APP_URL := None;
     NEXT_PUBLIC_SUPABASE_URL := Some (lit "https://db.example");
     NEXT_PUBLIC_SUPABASE_ANON_KEY := Some (lit "anon");
     SUPABASE_SERVICE_ROLE_KEY := None;
     NODE_ENV := None |}.

(** A screenshot of no bytes, and one whose bytes cannot be read. *)
Definition blank : File :=
  {| file_name := lit "blank.png"; file_size := 0;
     file_type := lit "image/png"; file_arrayBuffer := inr [] |}.

Definition broken : File :=
  {| file_name := lit "broken.png"; file_size := 10;
     file_type := lit "image/png";
     file_arrayBuffer := inl (JsError (lit "The file could not be read")) |}.

Definition improve (screenshot : option File) : Generate.FormData :=
  {| Generate.fd_mode := Some (lit "improve_copy");
     Generate.fd_productTypeId := Some (lit "pt-saas");
     Generate.fd_screenshot := screenshot;
     Generate.fd_badCopy := Some (lit "Oops!");
     Generate.fd_inputCopy := None;
     Generate.fd_userType := None;
     Generate.fd_errorType := None;
     Generate.fd_canFix := None;
     Generate.fd_surface := None |}.

(** A request that carries a [user_session] cookie of the given value. *)
Definition returning (value : jsstring) : Generate.Request :=
  {| Generate.formData := inr (improve None); Generate.cookie := Some value |}.

Definition column_missing : ApiError :=
  {| err_message := lit "column product_types.reference_files does not exist";
     err_details := None;
     err_code := lit "42703";
     err_is_Error := false |}.

(** A body that names a product type. *)
Definition named (name : string) : ProductTypeById.Body :=
  {| ProductTypeById.name := Some (lit name);
     ProductTypeById.instructions := Some (lit "Be brief.");
     ProductTypeById.referenceFiles := ProductTypeById.rf_absent |}.

Definition working : ProductTypes.PostAnswers :=
  {| ProductTypes.check_answer := Works;
     ProductTypes.insert_answer := Works;
     ProductTypes.fallback_answer := Works |}.

Definition unchecked : ProductTypes.PostAnswers :=
  {| ProductTypes.check_answer := FailsWith Fixture.storage_down;
     ProductTypes.insert_answer := Works;
     ProductTypes.fallback_answer := Works |}.

(** An uploaded guide: its key in the bucket and its public URL. *)
Definition guide_key : jsstring :=
  lit "reference-docs/00000000-0000-4000-8000-000000000000-Guide.PDF".

Definition guide_url : jsstring :=
  lit "https://db.example/storage/v1/object/public/reference-files/reference-docs/00000000-0000-4000-8000-000000000000-Guide.PDF".

Definition guide : File :=
  {| file_name := lit "Guide.PDF"; file_size := 3;
     file_type := lit "application/pdf";
     file_arrayBuffer := inr [37; 80; 68] |}.

(** The world after the upload of the guide. *)
Definition uploaded : World :=
  (UploadReference.POST asciiToLowerCase (inr (Some guide)) Fixture.healthy).2.

End Scenario.

(** * Properties *)

(** ** Strings *)

Section Strings.

Implicit Types (needle s pre post : jsstring).

Lemma startsWith_spec needle s :
  startsWith needle s = true ↔ ∃ post, s = needle ++ post.
Proof.
  revert s; induction needle as [|a needle IH]; intros s; simpl.
  - split; [intros _; by exists s | done].
  - destruct s as [|b s]; simpl.
    + split; [done | intros [post Hpost]; discriminate].
    + rewrite andb_true_iff, N.eqb_eq, IH. split.
      * intros [-> [post ->]]. by exists post.
      * intros [post Hpost]. injection Hpost as -> ->. eauto.
Qed.

Lemma includes_spec needle s :
  includes needle s = true ↔ ∃ pre post, s = pre ++ needle ++ post.
Proof.
  induction s as [|b s IH]; simpl.
  - rewrite orb_false_r, startsWith_spec. split.
    + intros [post Hpost]. by exists [], post.
    + intros (pre & post & Hs). symmetry in Hs.
      apply app_eq_nil in Hs as [-> Hs]. eauto.
  - rewrite orb_true_iff, startsWith_spec, IH. split.
    + intros [[post Hpost] | (pre & post & ->)].
      * by exists [], post.
      * by exists (b :: pre), post.
    + intros ([|c pre] & post & Hs); simpl in Hs.
      * left. eauto.
      * right. injection Hs as -> ->. eauto.
Qed.



Lemma includes_app_l needle s post :
  includes needle s = true → includes needle (s ++ post) = true.
Proof.
  rewrite !includes_spec. intros (p & q & ->).
  exists p, (q ++ post). by rewrite <- !app_assoc.
Qed.




Lemma split_nonempty sep s : split sep s ≠ [].
Proof.
  destruct s as [|c s]; simpl; [done|].
  destruct (c =? sep); [done|]. by destruct (split sep s).
Qed.

End Strings.

(** ** Decimal numerals *)






(** ** The prompt composer *)

Section Composer.

Import OpenRouter.

Implicit Types (appUrl image : option jsstring) (badCopy instructions : jsstring).
Implicit Types (refs : option (list jsstring)) (context : option CopyContext).

Lemma modePrompt_contains instructions context :
  ∃ pre post, modePrompt instructions context = pre ++ instructions ++ post.
Proof.
  unfold modePrompt. repeat case_match; eexists _, _; reflexivity.
Qed.

(** C6: whatever the mode, and so for each of [improve_copy], [write_new]
    and [suggest_pattern], the system prompt contains the product
    instructions verbatim, and it is the content of the first message, whose
    role is [system]. *)
Theorem C6_instructions_verbatim
    appUrl badCopy instructions image refs context :
  (∃ pre post,
     systemPrompt instructions refs context = pre ++ instructions ++ post)
  ∧ includes instructions (systemPrompt instructions refs context) = true
  ∧ head (composeMessages appUrl badCopy instructions image refs context)
    = Some {| role := system;
              content := Text (systemPrompt instructions refs context) |}.
Proof.
  assert (∃ pre post,
     systemPrompt instructions refs context = pre ++ instructions ++ post)
    as Hsub.
  { destruct (modePrompt_contains instructions context) as (pre & post & E).
    unfold systemPrompt. rewrite E. case_match; [|by eauto].
    exists pre, (post ++ referenceNote). by rewrite <- !app_assoc. }
  split_and!; [done | by apply includes_spec | done].
Qed.






End Composer.

Section Fallback.

Import OpenRouter.

(** C2, as stated, fails: for a mode the composer does not know, the system
    message is the generic template, not the one of [improve_copy]. *)
Lemma C2_counterexample :
  let legacy := Fixture.context_of_mode "legacy" in
  let improve := Fixture.context_of_mode "improve_copy" in
  mode_is (Some legacy) "improve_copy" = false
  ∧ mode_is (Some legacy) "write_new" = false
  ∧ mode_is (Some legacy) "suggest_pattern" = false
  ∧ systemPrompt (lit "Be brief.") None (Some legacy)
    = lit "You are an expert UX copywriter. Be brief." ++ nl ++ nl
      ++ lit "Always provide exactly 2-3 improved alternatives. Each suggestion should be on a new line. Do not include numbers, bullets, or extra formatting - just the clean copy suggestions."
  ∧ systemPrompt (lit "Be brief.") None (Some improve)
    = lit "You are an expert UX copywriter specializing in improving existing UI copy. Be brief."
      ++ nl ++ nl
      ++ lit "Your task is to improve existing UI copy to make it clearer, more helpful, and more user-friendly."
      ++ nl ++ nl
      ++ lit "Always provide exactly 2-3 improved alternatives. Each suggestion should be on a new line. Do not include numbers, bullets, or extra formatting - just the clean copy suggestions."
  ∧ composeMessages None (lit "Oops") (lit "Be brief.") None None (Some legacy)
    ≠ composeMessages None (lit "Oops") (lit "Be brief.") None None (Some improve).
Proof. vm_compute. split_and!; done. Qed.

(** C2, amended: for a mode that is none of the three, or with no context
    at all, the user message and every message after the first are those
    of [improve_copy] with the same inputs, and the system prompt is the
    generic copywriter template, which carries the product instructions
    and, when reference files are given, the note on them. *)
Theorem C2_unrecognized_mode
    (appUrl : option jsstring) (badCopy instructions : jsstring)
    (image : option jsstring) (refs : option (list jsstring))
    (context : option CopyContext) (improve : CopyContext) :
  mode_is context "improve_copy" = false →
  mode_is context "write_new" = false →
  mode_is context "suggest_pattern" = false →
  mode improve = lit "improve_copy" →
  let msgs := composeMessages appUrl badCopy instructions image refs context in
  let msgs' := composeMessages appUrl badCopy instructions image refs (Some improve) in
  userMessageText badCopy context
  = lit "Please improve this UI copy: " ++ dq ++ badCopy ++ dq
  ∧ userMessageText badCopy context = userMessageText badCopy (Some improve)
  ∧ tail msgs = tail msgs'
  ∧ head msgs
    = Some {| role := system;
              content := Text
                ((lit "You are an expert UX copywriter. " ++ instructions
                  ++ nl ++ nl
                  ++ lit "Always provide exactly 2-3 improved alternatives. Each suggestion should be on a new line. Do not include numbers, bullets, or extra formatting - just the clean copy suggestions.")
                 ++ (if hasReferenceFiles refs then referenceNote else [])) |}.
Proof.
  intros H1 H2 H3 Hi. cbv zeta.
  assert (mode_is (Some improve) "improve_copy" = true) as Hi'.
  { unfold mode_is. cbn [fmap option_fmap option_map]. rewrite Hi.
    by apply bool_decide_eq_true. }
  assert (userMessageText badCopy context
          = lit "Please improve this UI copy: " ++ dq ++ badCopy ++ dq) as Hu.
  { unfold userMessageText. by rewrite H1, H2, H3. }
  assert (userMessageText badCopy (Some improve)
          = lit "Please improve this UI copy: " ++ dq ++ badCopy ++ dq) as Hu'.
  { unfold userMessageText. by rewrite Hi'. }
  split_and!.
  - done.
  - by rewrite Hu, Hu'.
  - unfold composeMessages, userContent. cbn [tail app]. by rewrite Hu, Hu'.
  - unfold composeMessages, systemPrompt, modePrompt. rewrite H1, H2, H3.
    cbn [head app]. case_match; [done|]. by rewrite app_nil_r.
Qed.

(** C2, amended, on the mode "legacy". *)
Lemma C2_witness :
  tail (composeMessages None (lit "Oops") (lit "Be brief.") None None
          (Some (Fixture.context_of_mode "legacy")))
  = tail (composeMessages None (lit "Oops") (lit "Be brief.") None None
            (Some (Fixture.context_of_mode "improve_copy"))).
Proof.
  apply (C2_unrecognized_mode None (lit "Oops") (lit "Be brief.") None None
           (Some (Fixture.context_of_mode "legacy"))
           (Fixture.context_of_mode "improve_copy")); reflexivity.
Defined.

End Fallback.

(** ** The suggestion generator *)

Section Generator.

Import OpenRouter.

Implicit Types (w : World) (r : FetchResponse) (data : OpenRouterResponse).
Implicit Types (badCopy instructions : jsstring) (image : option jsstring).
Implicit Types (refs : option (list jsstring)) (context : option CopyContext).

(** The lines of a response text that survive trimming. *)
Lemma parseSuggestions_eq (c : jsstring) :
  let lines := filter (fun l : jsstring => (0 < length l)%nat) (trim <$> split 10 c) in
  parseSuggestions c = if decide (lines = []) then [placeholder] else take 3 lines.
Proof.
  cbv zeta. unfold parseSuggestions.
  destruct (filter _ _) as [|l lines]; [done|].
  rewrite decide_False by done. rewrite bool_decide_eq_true_2; [done|].
  simpl. lia.
Qed.

(** A body has a string for content when its [choices] can be indexed and
    the content of the first choice is that string. *)
Lemma firstContent_Some data c :
  firstContent data = Some c →
  ∃ cs, choices data = inr cs ∧ contentValue cs = Some (StringContent c).
Proof.
  unfold firstContent. destruct (choices data) as [m|cs]; [done|].
  destruct (contentValue cs) as [[s|m]|] eqn:E; [|done..].
  intros [= ->]. by exists cs.
Qed.

(** With a key and a 2xx response that parses and has content, the
    generator returns the parsed suggestions. *)
Lemma generate_success badCopy instructions image refs context w r data c :
  truthy_opt (OPENROUTER_API_KEY (env w)) = true →
  upstream w = FetchResolves r →
  resp_ok r = true →
  resp_json r = inr data →
  firstContent data = Some c →
  c ≠ [] →
  (generateCopySuggestions badCopy instructions image refs context w).1
  = Return (parseSuggestions c).
Proof.
  intros Hkey Hup Hok Hjson Hc Hne.
  unfold generateCopySuggestions, bind, getenv, try_catch, fetch, response_json.
  cbn. rewrite Hkey. cbn. rewrite Hup. cbn. rewrite Hok. cbn.
  rewrite Hjson. cbn.
  destruct (firstContent_Some _ _ Hc) as (cs & -> & ->). cbn.
  destruct c; [done|]. reflexivity.
Qed.

(** C1: on a successful response with content, the generator returns the
    trimmed non-empty lines of the content, at most the first three of
    them, or the placeholder alone when there is none; so between one and
    three entries, real lines whenever one line is not blank, and exactly
    the placeholder when every line is blank. *)
Theorem C1_suggestion_list badCopy instructions image refs context w r data c :
  truthy_opt (OPENROUTER_API_KEY (env w)) = true →
  upstream w = FetchResolves r →
  resp_ok r = true →
  resp_json r = inr data →
  firstContent data = Some c →
  c ≠ [] →
  let lines := filter (fun l : jsstring => (0 < length l)%nat) (trim <$> split 10 c) in
  ∃ result,
    (generateCopySuggestions badCopy instructions image refs context w).1
    = Return result
    ∧ result = (if decide (lines = []) then [placeholder] else take 3 lines)
    ∧ (1 ≤ length result ≤ 3)%nat
    ∧ ((∃ l, l ∈ split 10 c ∧ trim l ≠ []) →
       result = take 3 lines ∧ Forall (fun s => s ≠ []) result)
    ∧ (Forall (fun l => trim l = []) (split 10 c) → result = [placeholder]).
Proof.
  intros Hkey Hup Hok Hjson Hc Hne lines.
  exists (parseSuggestions c).
  split; [by eapply generate_success|].
  pose proof (parseSuggestions_eq c) as Hparse. cbv zeta in Hparse.
  fold lines in Hparse. rewrite Hparse. split; [done|].
  split; [|split].
  - case_decide; [simpl; lia|]. rewrite length_take.
    destruct lines; [done|]. cbn [length]. lia.
  - intros (l & Hl & Htrim).
    assert (trim l ∈ lines) as Hin.
    { apply list_elem_of_filter. split.
      - destruct (trim l); [done|]. simpl. lia.
      - by apply list_elem_of_fmap_2. }
    rewrite decide_False by (intros E; rewrite E in Hin; by apply elem_of_nil in Hin).
    split; [done|]. apply Forall_take. apply Forall_forall.
    intros s [Hs _]%list_elem_of_filter. intros ->. simpl in Hs. lia.
  - intros Hblank. rewrite decide_True; [done|].
    destruct lines as [|l rest] eqn:E; [done|]. exfalso.
    assert (l ∈ lines) as Hin by (rewrite E; left).
    apply list_elem_of_filter in Hin as [Hlen Hin].
    apply list_elem_of_fmap in Hin as (l0 & -> & Hl0).
    rewrite Forall_forall in Hblank. rewrite (Hblank _ Hl0) in Hlen.
    simpl in Hlen. lia.
Qed.

(** C1 on the fixture: four non-empty lines, one blank line between them,
    one of them padded with spaces. *)
Lemma C1_witness :
  (generateCopySuggestions (lit "Oops! Something went wrong.")
     (lit "Be brief.") None None None Fixture.healthy).1
  = Return [lit "Something went wrong."; lit "We hit a snag.";
            lit "Please try again."].
Proof.
  destruct (C1_suggestion_list (lit "Oops! Something went wrong.")
              (lit "Be brief.") None None None Fixture.healthy
              _ _ Fixture.three_lines eq_refl eq_refl eq_refl eq_refl eq_refl
              ltac:(done))
    as (result & -> & -> & _).
  reflexivity.
Defined.

End Generator.

Section Failures.

Import OpenRouter.

Implicit Types (w : World) (r : FetchResponse) (data : OpenRouterResponse).
Implicit Types (badCopy instructions : jsstring) (image : option jsstring).
Implicit Types (refs : option (list jsstring)) (context : option CopyContext).









(** The generic error is what the [if] chain throws; the [catch] block
    replaces it when the status text holds one of the words it looks
    for. *)
Example status_text_with_JSON :
  (generateCopySuggestions (lit "Oops") (lit "Be brief.") None None None
     (Fixture.world Fixture.configured
        (Fixture.refuses 400 "Invalid JSON body"))).1
  = Throw (JsError (lit "OpenRouter API returned invalid response format.")).
Proof. reflexivity. Qed.


End Failures.

(** ** Reasoning on what a handler returns *)

Section ReturnsOnly.

Context {A B : Type}.

Lemma returns_only_ret (a : A) (Q : A → Prop) : Q a → returns_only (ret a) Q.
Proof. intros Ha w a' [= <-]. done. Qed.

Lemma returns_only_throw (t : Thrown) (Q : A → Prop) :
  returns_only (throw t) Q.
Proof. intros w a. discriminate. Qed.

Lemma returns_only_bind (m : M A) (k : A → M B) (P : A → Prop) (Q : B → Prop) :
  returns_only m P → (∀ a, P a → returns_only (k a) Q) →
  returns_only (bind m k) Q.
Proof.
  intros Hm Hk w b. unfold bind.
  destruct (m w) as [[a|t] w'] eqn:E; [|discriminate].
  apply (Hk a). apply (Hm w). by rewrite E.
Qed.

Lemma returns_only_seq (m : M A) (k : M B) (Q : B → Prop) :
  returns_only k Q → returns_only (bind m (fun _ => k)) Q.
Proof.
  intros Hk. apply (returns_only_bind _ _ (fun _ => True)); [done|]. by intros.
Qed.

Lemma returns_only_try_catch (m : M A) (h : Thrown → M A) (Q : A → Prop) :
  returns_only m Q → (∀ t, returns_only (h t) Q) →
  returns_only (try_catch m h) Q.
Proof.
  intros Hm Hh w a. unfold try_catch.
  destruct (m w) as [[a'|t] w'] eqn:E.
  - intros [= <-]. apply (Hm w). by rewrite E.
  - apply Hh.
Qed.

Lemma returns_only_weaken (m : M A) (P Q : A → Prop) :
  returns_only m P → (∀ a, P a → Q a) → returns_only m Q.
Proof. intros Hm HPQ w a Ha. eauto. Qed.

Lemma returns_only_True (m : M A) : returns_only m (fun _ => True).
Proof. done. Qed.

End ReturnsOnly.

(** ** The generation endpoint *)

Section GenerateEndpoint.

Import Generate.

Implicit Types (w : World) (request : Request) (fd : FormData) (p : Parsed).

Ltac other_message :=
  unfold notMissingCopy, missingCopy, error_body, json; cbn [body];
  let E := fresh in intros E; vm_compute in E; discriminate E.

Lemma userMessage_other t :
  notMissingCopy (json (error_body (userMessage t)) 500).
Proof.
  unfold userMessage. repeat case_match; other_message.
Qed.

Lemma respond_notMissingCopy request p suggestions :
  returns_only (respond request p suggestions) notMissingCopy.
Proof.
  unfold respond.
  eapply returns_only_bind; [apply returns_only_True|intros userSession _].
  eapply returns_only_bind; [apply returns_only_True|intros node_env _].
  apply returns_only_seq, returns_only_ret.
  unfold notMissingCopy, missingCopy, error_body. cbn [body]. discriminate.
Qed.

Lemma generate_notMissingCopy request p productType :
  returns_only (generate request p productType) notMissingCopy.
Proof.
  unfold generate.
  eapply (returns_only_bind _ _
            (fun converted => ∀ response, converted = inl response →
                                notMissingCopy response)).
  - destruct (p_screenshot p) as [screenshot|];
      [destruct (0 <? file_size screenshot)|].
    + apply returns_only_try_catch.
      * eapply returns_only_bind; [apply returns_only_True|intros b _].
        by apply returns_only_ret.
      * intros t. apply returns_only_seq, returns_only_ret.
        intros response [= <-]. case_match; other_message.
    + by apply returns_only_ret.
    + by apply returns_only_ret.
  - intros [response|imageBase64] Hconv.
    + apply returns_only_ret. by apply Hconv.
    + eapply (returns_only_bind _ _
                (fun generated => ∀ response, generated = inl response →
                                    notMissingCopy response)).
      * apply returns_only_try_catch.
        -- eapply returns_only_bind; [apply returns_only_True|intros s _].
           by apply returns_only_ret.
        -- intros t. apply returns_only_seq, returns_only_ret.
           intros response [= <-]. apply userMessage_other.
      * intros [response|suggestions] Hgen.
        -- apply returns_only_ret. by apply Hgen.
        -- apply respond_notMissingCopy.
Qed.

Lemma load_notMissingCopy request p :
  returns_only (try_catch (load request p) unexpected) notMissingCopy.
Proof.
  apply returns_only_try_catch.
  - unfold load. apply returns_only_seq.
    eapply returns_only_bind; [apply returns_only_True|intros found _].
    destruct (snd found) as [e|].
    + apply returns_only_seq, returns_only_ret. other_message.
    + destruct (fst found) as [productType|].
      * apply generate_notMissingCopy.
      * apply returns_only_seq, returns_only_ret. other_message.
  - intros t. unfold unexpected.
    do 3 apply returns_only_seq.
    eapply returns_only_bind; [apply returns_only_True|intros trace _].
    apply returns_only_ret.
    unfold notMissingCopy, missingCopy, error_body, json. cbn [body].
    discriminate.
Qed.


(** The [catch] of the handler answers every thrown value, so the handler
    always returns a response. *)
Lemma unexpected_returns (m : M Response) w :
  ∃ response, (try_catch m unexpected w).1 = Return response.
Proof.
  unfold try_catch. destruct (m w) as [[response|t] w']; cbn; eauto.
Qed.

Lemma POST_returns request w :
  ∃ response, (POST request w).1 = Return response.
Proof. apply unexpected_returns. Qed.

(** The first half of the handler, on a configured server and a form that
    parses. *)
Lemma POST_validation request fd w :
  truthy_opt (OPENROUTER_API_KEY (env w)) = true →
  truthy_opt (NEXT_PUBLIC_SUPABASE_URL (env w)) = true →
  truthy_opt (SUPABASE_SERVICE_ROLE_KEY (env w)) = true →
  formData request = inr fd →
  POST request w =
    if negb (truthy_opt (fd_productTypeId fd)) then
      (Return (json (error_body (lit "Product type is required")) 400),
       with_console "VALIDATION ERROR: Product type is required" w)
    else if bool_decide (p_mode (parse fd) = lit "improve_copy")
            && negb (truthy (p_badCopy (parse fd))) then
      (Return (json missingCopy 400),
       with_console "VALIDATION ERROR: Bad copy is required for improve_copy mode" w)
    else try_catch (load request (parse fd)) unexpected w.
Proof.
  intros Hkey Hurl Hservice Hform.
  unfold POST, try_catch, bind, getenv, request_formData. cbn.
  rewrite Hkey, Hurl, Hservice, Hform. cbn.
  destruct (truthy_opt (fd_productTypeId fd)); cbn; [|done].
  destruct (bool_decide _ && negb _); cbn; [done|].
  reflexivity.
Qed.

(** C4: on a configured server, a form without [productTypeId] is answered
    400 "Product type is required" with no outside call and the datastore
    as it was; in mode [improve_copy] an empty copy is answered 400; in
    modes [write_new] and [suggest_pattern] an empty copy passes the
    validation: the handler goes on to load the product type, and the
    response it then returns is not the rejection for a missing copy. *)
Theorem C4_validation request fd w :
  truthy_opt (OPENROUTER_API_KEY (env w)) = true →
  truthy_opt (NEXT_PUBLIC_SUPABASE_URL (env w)) = true →
  truthy_opt (SUPABASE_SERVICE_ROLE_KEY (env w)) = true →
  formData request = inr fd →
  let p := parse fd in
  let run := POST request w in
  (truthy_opt (fd_productTypeId fd) = false →
     run.1 = Return {| status := 400;
                       body := JObj [("error"%string, JStr (lit "Product type is required"))];
                       set_cookie := None |}
     ∧ db run.2 = db w ∧ calls run.2 = calls w)
  ∧ (truthy_opt (fd_productTypeId fd) = true →
     p_mode p = lit "improve_copy" → p_badCopy p = [] →
     run.1 = Return {| status := 400;
                       body := JObj [("error"%string,
                                      JStr (lit "Original copy is required for improvement mode"))];
                       set_cookie := None |}
     ∧ db run.2 = db w ∧ calls run.2 = calls w)
  ∧ (truthy_opt (fd_productTypeId fd) = true →
     p_mode p = lit "write_new" ∨ p_mode p = lit "suggest_pattern" →
     p_badCopy p = [] →
     run = try_catch (load request p) unexpected w
     ∧ ∃ response,
         run.1 = Return response
         ∧ body response
           ≠ JObj [("error"%string,
                    JStr (lit "Original copy is required for improvement mode"))]).
Proof.
  intros Hkey Hurl Hservice Hform. cbv zeta.
  rewrite (POST_validation request fd w) by done. split_and!.
  - intros ->. done.
  - intros -> Hmode Hcopy. rewrite Hmode, Hcopy. cbn.
    rewrite bool_decide_eq_true_2 by done. done.
  - intros -> Hmode Hcopy. cbn [negb].
    assert (bool_decide (p_mode (parse fd) = lit "improve_copy") = false) as ->.
    { apply bool_decide_eq_false. destruct Hmode as [-> | ->]; by vm_compute. }
    cbn [andb]. split; [done|].
    destruct (unexpected_returns (load request (parse fd)) w) as [response Hrun].
    exists response. split; [done|].
    by apply (load_notMissingCopy request (parse fd) w).
Qed.

End GenerateEndpoint.

Section Persistence.

Import Generate.

Implicit Types (w : World) (request : Request) (fd : FormData) (p : Parsed).

Lemma generate_success_run badCopy instructions image refs context w r data c :
  truthy_opt (OPENROUTER_API_KEY (env w)) = true →
  upstream w = FetchResolves r →
  resp_ok r = true →
  resp_json r = inr data →
  OpenRouter.firstContent data = Some c →
  c ≠ [] →
  OpenRouter.generateCopySuggestions badCopy instructions image refs context w
  = (Return (OpenRouter.parseSuggestions c),
     with_call
       (CallFetch
          (OpenRouter.chatRequest (OPENROUTER_API_KEY (env w))
             (NEXT_PUBLIC_APP_URL (env w))
             (OpenRouter.composeMessages (NEXT_PUBLIC_APP_URL (env w)) badCopy
                instructions image refs context)))
       w).
Proof.
  intros Hkey Hup Hok Hjson Hc Hne.
  unfold OpenRouter.generateCopySuggestions, bind, getenv, try_catch, fetch,
    OpenRouter.response_json.
  cbn. rewrite Hkey. cbn. rewrite Hup. cbn. rewrite Hok. cbn.
  rewrite Hjson. cbn.
  destruct (firstContent_Some _ _ Hc) as (cs & -> & ->). cbn.
  destruct c; [done|]. reflexivity.
Qed.

(** Whatever the insert does, [respond] returns the success payload. *)
Lemma respond_returns request p suggestions w :
  (respond request p suggestions w).1 = Return (success request w suggestions).
Proof.
  unfold respond, try_catch, bind, insert_submission, await_query, getenv,
    randomUUID, success.
  destruct (cookie request) as [[|? ?]|]; cbn;
    destruct (query_fault w _); cbn; try done;
    unfold run_insert_submission; cbn; destruct (product_types (db w) !! _); done.
Qed.

(** A failed insert is logged and leaves the datastore as it was; an
    insert that works appends the row. *)
Lemma respond_effect request p suggestions w :
  let after := (respond request p suggestions w).2 in
  let row := submission request w p suggestions in
  (∀ e, query_fault w (InsertSubmission row) = FailsWith e →
        console after = console w ++ ["SUBMISSION STORAGE ERROR:"%string]
        ∧ db after = db w)
  ∧ (∀ t, query_fault w (InsertSubmission row) = Rejects t →
          console after = console w ++ ["SUBMISSION STORAGE UNEXPECTED ERROR:"%string]
          ∧ db after = db w)
  ∧ (query_fault w (InsertSubmission row) = Works →
     is_Some (product_types (db w) !! p_productTypeId p) →
     console after = console w
     ∧ db after = {| product_types := product_types (db w);
                     submissions := submissions (db w) ++ [row] |}).
Proof.
  cbv zeta.
  unfold respond, try_catch, bind, insert_submission, await_query, getenv,
    randomUUID, submission, run_insert_submission.
  split_and!.
  - intros x Hx; destruct (truthy_opt (cookie request)); cbn in *;
      rewrite Hx; done.
  - intros x Hx; destruct (truthy_opt (cookie request)); cbn in *;
      rewrite Hx; done.
  - intros Hx [row Hrow]; destruct (truthy_opt (cookie request)); cbn in *;
      rewrite Hx, Hrow; done.
Qed.

Lemma load_reaches_respond request p w row r data c :
  truthy_opt (OPENROUTER_API_KEY (env w)) = true →
  truthy_opt (NEXT_PUBLIC_SUPABASE_URL (env w)) = true →
  truthy_opt (SUPABASE_SERVICE_ROLE_KEY (env w)) = true →
  query_fault w (SelectInstructions true (p_productTypeId p)) = Works →
  product_types (db w) !! p_productTypeId p = Some row →
  (∀ f, p_screenshot p = Some f → 0 < file_size f →
        ∃ bytes, file_arrayBuffer f = inr bytes) →
  upstream w = FetchResolves r →
  resp_ok r = true →
  resp_json r = inr data →
  OpenRouter.firstContent data = Some c →
  c ≠ [] →
  ∃ w', load request p w = respond request p (OpenRouter.parseSuggestions c) w'
        ∧ env w' = env w ∧ query_fault w' = query_fault w ∧ uuid w' = uuid w
        ∧ db w' = db w ∧ console w' = console w.
Proof.
  intros Hkey Hurl Hservice Hq Hrow Hshot Hup Hok Hjson Hc Hne.
  unfold load, createServerSupabaseClient, select_with_reference_files,
    await_query, run_select_single.
  unfold try_catch, bind. rewrite Hurl, Hservice. cbn. rewrite Hq, Hrow. cbn.
  unfold generate.
  destruct (p_screenshot p) as [f|] eqn:Ef.
  - destruct (0 <? file_size f) eqn:Esize.
    + destruct (Hshot f eq_refl) as [bytes Hbytes]; [by apply N.ltb_lt|].
      unfold convertFileToBase64, arrayBuffer, try_catch, bind. rewrite Hbytes.
      cbn. rewrite (generate_success_run _ _ _ _ _ _ r data c) by done.
      cbn. eexists. split; [reflexivity | done].
    + unfold try_catch, bind. cbn.
      rewrite (generate_success_run _ _ _ _ _ _ r data c) by done.
      cbn. eexists. split; [reflexivity | done].
  - unfold try_catch, bind. cbn.
    rewrite (generate_success_run _ _ _ _ _ _ r data c) by done.
    cbn. eexists. split; [reflexivity | done].
Qed.

(** C5: on the path where the product type is found and the upstream
    answers with content, the response is the success payload with the
    parsed suggestions whatever the insert of the submission does; when the
    insert resolves with an error or rejects, that is logged and the
    datastore is as it was, and when it works the row is appended. *)
Theorem C5_persistence_failure_not_fatal request fd w row r data c :
  truthy_opt (OPENROUTER_API_KEY (env w)) = true →
  truthy_opt (NEXT_PUBLIC_SUPABASE_URL (env w)) = true →
  truthy_opt (SUPABASE_SERVICE_ROLE_KEY (env w)) = true →
  formData request = inr fd →
  let p := parse fd in
  truthy_opt (fd_productTypeId fd) = true →
  (p_mode p = lit "improve_copy" → p_badCopy p ≠ []) →
  query_fault w (SelectInstructions true (p_productTypeId p)) = Works →
  product_types (db w) !! p_productTypeId p = Some row →
  (∀ f, p_screenshot p = Some f → 0 < file_size f →
        ∃ bytes, file_arrayBuffer f = inr bytes) →
  upstream w = FetchResolves r →
  resp_ok r = true →
  resp_json r = inr data →
  OpenRouter.firstContent data = Some c →
  c ≠ [] →
  let suggestions := OpenRouter.parseSuggestions c in
  let insert := InsertSubmission (submission request w p suggestions) in
  let run := POST request w in
  run.1 = Return {| status := 200;
                    body := JObj [("suggestions"%string, JArr (JStr <$> suggestions))];
                    set_cookie := set_cookie (success request w suggestions) |}
  ∧ (∀ e, query_fault w insert = FailsWith e →
       console run.2 = console w ++ ["SUBMISSION STORAGE ERROR:"%string]
       ∧ db run.2 = db w)
  ∧ (∀ t, query_fault w insert = Rejects t →
       console run.2 = console w ++ ["SUBMISSION STORAGE UNEXPECTED ERROR:"%string]
       ∧ db run.2 = db w)
  ∧ (query_fault w insert = Works →
     console run.2 = console w
     ∧ db run.2 = {| product_types := product_types (db w);
                     submissions := submissions (db w)
                                    ++ [submission request w p suggestions] |}).
Proof.
  intros Hkey Hurl Hservice Hform p Hid Hcopy Hq Hrow Hshot Hup Hok Hjson Hc Hne.
  cbv zeta. rewrite (POST_validation request fd w) by done.
  rewrite Hid. cbn [negb].
  assert (bool_decide (p_mode p = lit "improve_copy")
          && negb (truthy (p_badCopy p)) = false) as Hvalid.
  { destruct (decide (p_mode p = lit "improve_copy")) as [E|E].
    - specialize (Hcopy E). destruct (p_badCopy p); [done|].
      by rewrite andb_false_r.
    - by rewrite bool_decide_eq_false_2. }
  fold p. rewrite Hvalid.
  destruct (load_reaches_respond request p w row r data c)
    as (w' & Hload & Henv & Hfault & Huuid & Hdb & Hconsole); try done.
  unfold try_catch. rewrite Hload.
  pose proof (respond_returns request p (OpenRouter.parseSuggestions c) w') as Hret.
  pose proof (respond_effect request p (OpenRouter.parseSuggestions c) w') as Heffect.
  cbv zeta in Heffect. unfold submission in *. rewrite Hfault, Huuid in Heffect.
  destruct (respond request p (OpenRouter.parseSuggestions c) w') as [o w''].
  cbn [fst snd] in *. subst o. unfold success. rewrite Huuid, Henv.
  rewrite Hdb, Hconsole in Heffect.
  destruct Heffect as (Hfails & Hrejects & Hworks).
  split_and!; [done | done | done |].
  intros Hins. apply Hworks; [done|]. by rewrite Hrow.
Qed.

End Persistence.

Section GenerateWitnesses.

Import Generate.

(** The three cases of C4 on the fixture: no product type, no copy to
    improve, and no copy in mode [write_new]. *)
Lemma C4_witness :
  (POST (Fixture.request_of (Fixture.form "improve_copy" None (Some (lit "Oops!"))))
     Fixture.healthy).1
  = Return (json (error_body (lit "Product type is required")) 400)
  ∧ (POST (Fixture.request_of (Fixture.form "improve_copy" (Some (lit "pt-saas")) None))
       Fixture.healthy).1
    = Return (json (error_body (lit "Original copy is required for improvement mode")) 400)
  ∧ ∃ response,
      (POST (Fixture.request_of (Fixture.form "write_new" (Some (lit "pt-saas")) None))
         Fixture.healthy).1 = Return response
      ∧ body response
        ≠ error_body (lit "Original copy is required for improvement mode").
Proof.
  split_and!.
  - destruct (C4_validation
                (Fixture.request_of (Fixture.form "improve_copy" None (Some (lit "Oops!"))))
                _ Fixture.healthy eq_refl eq_refl eq_refl eq_refl) as [H _].
    exact (proj1 (H eq_refl)).
  - destruct (C4_validation
                (Fixture.request_of (Fixture.form "improve_copy" (Some (lit "pt-saas")) None))
                _ Fixture.healthy eq_refl eq_refl eq_refl eq_refl) as (_ & H & _).
    exact (proj1 (H eq_refl eq_refl eq_refl)).
  - destruct (C4_validation
                (Fixture.request_of (Fixture.form "write_new" (Some (lit "pt-saas")) None))
                _ Fixture.healthy eq_refl eq_refl eq_refl eq_refl) as (_ & _ & H).
    exact (proj2 (H eq_refl (or_introl eq_refl) eq_refl)).
Defined.

(** In mode [write_new] the fixture answers a form without copy with the
    suggestions. *)
Example write_new_without_copy :
  let request := Fixture.request_of
                   (Fixture.form "write_new" (Some (lit "pt-saas")) None) in
  (POST request Fixture.healthy).1
  = Return (success request Fixture.healthy
              [lit "Something went wrong."; lit "We hit a snag.";
               lit "Please try again."]).
Proof. reflexivity. Qed.

(** C5 on the fixture, with the datastore refusing the insert. *)
Lemma C5_witness :
  let request := Fixture.request_of
                   (Fixture.form "improve_copy" (Some (lit "pt-saas")) (Some (lit "Oops!"))) in
  let suggestions := [lit "Something went wrong."; lit "We hit a snag.";
                      lit "Please try again."] in
  let row := {| bad_copy := lit "Oops!"; product_type_id := lit "pt-saas";
                suggestions := suggestions; has_screenshot := false;
                user_session := uuid Fixture.healthy |} in
  let w := Fixture.failing (InsertSubmission row) (FailsWith Fixture.storage_down)
             Fixture.healthy in
  (POST request w).1 = Return (success request w suggestions)
  ∧ console (POST request w).2 = ["SUBMISSION STORAGE ERROR:"%string]
  ∧ db (POST request w).2 = Fixture.database.
Proof.
  intros request suggestions row w.
  destruct (C5_persistence_failure_not_fatal request _ w Fixture.saas
              (Fixture.ok_response Fixture.three_lines)
              (Fixture.completion Fixture.three_lines)
              Fixture.three_lines eq_refl eq_refl eq_refl eq_refl eq_refl)
    as (Hret & Hfails & _).
  - intros _. by vm_compute.
  - reflexivity.
  - reflexivity.
  - intros f Hf. discriminate Hf.
  - reflexivity.
  - reflexivity.
  - reflexivity.
  - reflexivity.
  - by vm_compute.
  - split; [exact Hret|]. exact (Hfails Fixture.storage_down eq_refl).
Defined.

End GenerateWitnesses.

(** ** The product-type routes *)

Section ProductTypes.

Import ProductTypeById.

Implicit Types (w : World) (id : jsstring) (row : ProductTypeRow).

Lemma take_1_filter_length (id : jsstring) (rows : list SubmissionRow) :
  (0 < length (take 1 (filter (fun s => references id s = true) rows)))%nat
  ↔ ∃ s, s ∈ rows ∧ product_type_id s = id.
Proof.
  split.
  - intros Hlen.
    destruct (filter _ rows) as [|s rest] eqn:E; [simpl in Hlen; lia|].
    assert (s ∈ filter (fun s => references id s = true) rows) as Hs
      by (rewrite E; left).
    apply list_elem_of_filter in Hs as [Href Hs].
    exists s. split; [done|]. by apply bool_decide_eq_true in Href.
  - intros (s & Hs & Href).
    assert (s ∈ filter (fun s => references id s = true) rows) as Hin.
    { apply list_elem_of_filter. split; [|done].
      by apply bool_decide_eq_true. }
    destruct (filter _ rows); [by apply elem_of_nil in Hin|]. simpl. lia.
Qed.

Lemma existsb_references_false (id : jsstring) (rows : list SubmissionRow) :
  (∀ s, s ∈ rows → product_type_id s ≠ id) →
  existsb (references id) rows = false.
Proof.
  intros Hnone. apply not_true_is_false. intros Hex.
  apply existsb_exists in Hex as (s & Hs & Href).
  apply (Hnone s); [by apply list_elem_of_In|].
  by apply bool_decide_eq_true in Href.
Qed.

(** C8: with the datastore answering, DELETE returns 404 for an id that is
    not stored; 409 for a product type that a submission references, and
    the datastore is as it was; and otherwise it removes the row, leaves
    the submissions, and returns the id and the name of the removed row. *)
Theorem C8_delete id w :
  id ≠ [] →
  truthy_opt (NEXT_PUBLIC_SUPABASE_URL (env w)) = true →
  truthy_opt (SUPABASE_SERVICE_ROLE_KEY (env w)) = true →
  query_fault w (SelectIdName id) = Works →
  let run := DELETE id w in
  (product_types (db w) !! id = None →
     run.1 = Return {| status := 404;
                       body := JObj [("error"%string, JStr (lit "Product type not found"))];
                       set_cookie := None |}
     ∧ db run.2 = db w)
  ∧ (∀ row, product_types (db w) !! id = Some row →
       query_fault w (SelectSubmissionIds id) = Works →
       (∃ s, s ∈ submissions (db w) ∧ product_type_id s = id) →
       run.1 = Return {| status := 409;
                         body := conflict_body
                           (lit "This product type has been used in copy generation requests and cannot be deleted. You can edit it instead.")
                           (lit "Foreign key constraint: submissions exist for this product type");
                         set_cookie := None |}
       ∧ db run.2 = db w)
  ∧ (∀ row, product_types (db w) !! id = Some row →
       query_fault w (SelectSubmissionIds id) = Works →
       query_fault w (DeleteProductType id) = Works →
       (∀ s, s ∈ submissions (db w) → product_type_id s ≠ id) →
       run.1 = Return {| status := 200;
                         body := JObj [("message"%string,
                                        JStr (lit "Product type deleted successfully"));
                                       ("deletedId"%string, JStr id);
                                       ("deletedName"%string, JStr (pt_name row))];
                         set_cookie := None |}
       ∧ product_types (db run.2) = delete id (product_types (db w))
       ∧ submissions (db run.2) = submissions (db w)).
Proof.
  intros Hid Hurl Hservice Hcheck. cbv zeta.
  unfold DELETE, try_catch, bind, createServerSupabaseClient, await_query,
    run_select_single.
  destruct id as [|c id]; [done|]. cbn [truthy negb].
  rewrite Hurl, Hservice. cbn [negb]. rewrite Hcheck.
  split_and!.
  - intros ->. cbn. done.
  - intros row -> Hsubs Href. cbn. rewrite Hsubs. cbn.
    rewrite bool_decide_eq_true_2 by (by apply take_1_filter_length).
    cbn. done.
  - intros row -> Hsubs Hdel Hnone. cbn. rewrite Hsubs. cbn.
    rewrite bool_decide_eq_false_2.
    2:{ rewrite take_1_filter_length. intros (s & Hs & Href). by apply (Hnone s). }
    cbn. rewrite Hdel. unfold run_delete.
    rewrite existsb_references_false by done. done.
Qed.

(** C8 on the fixture: an id that is not stored, a product type that a
    submission references, and one that none references. *)
Lemma C8_witness :
  (DELETE (lit "pt-none") Fixture.healthy).1
  = Return (json (error_body (lit "Product type not found")) 404)
  ∧ ((DELETE (lit "pt-saas") Fixture.healthy).1
     = Return (json
         (conflict_body
            (lit "This product type has been used in copy generation requests and cannot be deleted. You can edit it instead.")
            (lit "Foreign key constraint: submissions exist for this product type"))
         409)
     ∧ db (DELETE (lit "pt-saas") Fixture.healthy).2 = Fixture.database)
  ∧ (DELETE (lit "pt-mobile") Fixture.healthy).1
    = Return (json (JObj [("message"%string,
                           JStr (lit "Product type deleted successfully"));
                          ("deletedId"%string, JStr (lit "pt-mobile"));
                          ("deletedName"%string, JStr (lit "Mobile App"))]) 200).
Proof.
  pose proof (fun id Hid => C8_delete id Fixture.healthy Hid eq_refl eq_refl eq_refl)
    as C8. cbv zeta in C8.
  assert (∃ s, s ∈ submissions (db Fixture.healthy)
               ∧ product_type_id s = lit "pt-saas") as Hreferenced.
  { exists Fixture.earlier. split; [left | done]. }
  split; [|split; [split|]].
  - destruct (C8 (lit "pt-none") ltac:(done)) as (H & _).
    exact (proj1 (H eq_refl)).
  - destruct (C8 (lit "pt-saas") ltac:(done)) as (_ & H & _).
    by destruct (H Fixture.saas eq_refl eq_refl Hreferenced) as [-> _].
  - destruct (C8 (lit "pt-saas") ltac:(done)) as (_ & H & _).
    by destruct (H Fixture.saas eq_refl eq_refl Hreferenced) as [_ ->].
  - destruct (C8 (lit "pt-mobile") ltac:(done)) as (_ & _ & H).
    destruct (H Fixture.mobile eq_refl eq_refl eq_refl) as [-> _]; [|done].
    intros s Hs%list_elem_of_singleton. subst s. by vm_compute.
Defined.

Lemma existsb_references_true (id : jsstring) (rows : list SubmissionRow) :
  (∃ s, s ∈ rows ∧ product_type_id s = id) →
  existsb (references id) rows = true.
Proof.
  intros (s & Hs & Href). apply existsb_exists. exists s.
  split; [by apply list_elem_of_In|]. by apply bool_decide_eq_true.
Qed.

(** Whatever fails on the way, DELETE does not remove a product type that
    a submission references: when the handler cannot check the
    submissions it still attempts the delete, and the foreign key keeps the
    row. *)
Lemma DELETE_keeps_referenced id w :
  (∃ s, s ∈ submissions (db w) ∧ product_type_id s = id) →
  db (DELETE id w).2 = db w.
Proof.
  intros Href.
  pose proof (existsb_references_true id _ Href) as Hfk.
  assert (bool_decide
            (0 < length (take 1 (filter (fun s => references id s = true)
                                   (submissions (db w)))))%nat = true) as Hcheck.
  { apply bool_decide_eq_true. by apply take_1_filter_length. }
  unfold DELETE, try_catch, bind, createServerSupabaseClient, await_query,
    run_select_single, run_select_submissions, run_delete.
  destruct (truthy id); cbn; [|done].
  destruct (truthy_opt (NEXT_PUBLIC_SUPABASE_URL (env w))); cbn; [|done].
  destruct (truthy_opt (SUPABASE_SERVICE_ROLE_KEY (env w))); cbn; [|done].
  destruct (query_fault w (SelectIdName id)) as [|e|t]; cbn.
  - destruct (product_types (db w) !! id) as [row|]; cbn; [|done].
    destruct (query_fault w (SelectSubmissionIds id)) as [|e|t]; cbn.
    + by rewrite Hcheck.
    + rewrite bool_decide_eq_false_2 by (cbn; lia). cbn.
      destruct (query_fault w (DeleteProductType id)) as [|e'|t']; cbn.
      * rewrite Hfk. cbn. by destruct (client_errors_extend_Error w).
      * by destruct (bool_decide (err_code e' = lit "23503")).
      * destruct t' as [m|e'']; cbn; [done|].
        by destruct (bool_decide (err_code e'' = lit "23503")).
    + destruct t as [m|e'']; cbn; [done|].
      by destruct (bool_decide (err_code e'' = lit "23503")).
  - destruct (bool_decide (err_code e = lit "PGRST116")); cbn; [done|].
    by destruct (bool_decide (err_code e = lit "23503")).
  - destruct t as [m|e'']; cbn; [done|].
    by destruct (bool_decide (err_code e'' = lit "23503")).
Qed.

End ProductTypes.

Section Put.

Import ProductTypeById.

Implicit Types (w : World) (id : jsstring) (row : ProductTypeRow) (b : Body).

Lemma no_conflict (name id : jsstring) (d : DB) :
  (∀ i r, product_types d !! i = Some r → pt_name r = name → i = id) →
  (map_to_list
     (filter (fun kv : list N * ProductTypeRow => pt_name kv.2 = name ∧ kv.1 ≠ id)
        (product_types d))).*1 = [].
Proof.
  intros Hunique.
  replace (filter _ (product_types d)) with (∅ : gmap (list N) ProductTypeRow).
  - by rewrite map_to_list_empty.
  - symmetry. apply map_empty. intros i. apply map_lookup_filter_None_2.
    destruct (product_types d !! i) as [r|] eqn:Hi; [right|by left].
    intros r' [= <-] [Hname Hne]. cbn in *. by apply Hne, (Hunique i r).
Qed.

(** C9: a PUT whose body has no [referenceFiles], or a falsy one, asks the
    datastore to write the empty list; on a stored product type whose new
    name no other row has, the row is then stored with the new name and
    instructions and with no reference files, whatever it held before. *)
Theorem C9_put_clears_reference_files id b w row name' instructions' :
  id ≠ [] →
  truthy_opt (NEXT_PUBLIC_SUPABASE_URL (env w)) = true →
  truthy_opt (SUPABASE_SERVICE_ROLE_KEY (env w)) = true →
  name b = Some name' → name' ≠ [] →
  instructions b = Some instructions' → instructions' ≠ [] →
  referenceFiles b = rf_absent ∨ (∃ v, referenceFiles b = rf_falsy v) →
  query_fault w (SelectIdByNameNotId name' id) = Works →
  query_fault w (UpdateProductType id name' instructions' []) = Works →
  product_types (db w) !! id = Some row →
  (∀ i r, product_types (db w) !! i = Some r → pt_name r = name' → i = id) →
  let run := PUT id (inr b) w in
  let row' := {| pt_name := name'; pt_instructions := instructions';
                 pt_reference_files := Some [];
                 pt_created_at := pt_created_at row |} in
  run.1 = Return {| status := 200; body := json_of_product_type id row';
                    set_cookie := None |}
  ∧ product_types (db run.2) = <[id := row']> (product_types (db w))
  ∧ (pt_reference_files <$> product_types (db run.2) !! id) = Some (Some [])
  ∧ calls run.2
    = calls w ++ [CallQuery (SelectIdByNameNotId name' id);
                  CallQuery (UpdateProductType id name' instructions' [])].
Proof.
  intros Hid Hurl Hservice Hname Hname' Hinstr Hinstr' Hrefs Hq1 Hq2 Hrow Hunique.
  cbv zeta.
  assert (or_empty (referenceFiles b) = []) as Hempty
    by (destruct Hrefs as [-> | [v ->]]; done).
  destruct id as [|c0 id]; [done|].
  destruct name' as [|c1 name']; [done|].
  destruct instructions' as [|c2 instructions']; [done|].
  unfold PUT, try_catch, bind, request_json, createServerSupabaseClient,
    await_query.
  cbn. rewrite Hname, Hinstr. cbn. rewrite Hurl, Hservice. cbn.
  rewrite Hq1. cbn. rewrite (no_conflict _ _ _ Hunique).
  rewrite bool_decide_eq_false_2 by (cbn; lia). cbn.
  rewrite Hempty, Hq2. unfold run_update. cbn. rewrite Hrow. cbn.
  split_and!; try done.
  - by rewrite lookup_insert_eq.
  - by rewrite <- app_assoc.
Qed.

(** C9 on the fixture: the stored style guide is gone after a PUT without
    [referenceFiles]. *)
Lemma C9_witness :
  let b := {| name := Some (lit "SaaS"); instructions := Some (lit "Be bold.");
              referenceFiles := rf_absent |} in
  Fixture.saas.(pt_reference_files) = Some [Fixture.style_guide]
  ∧ (pt_reference_files
       <$> product_types (db (PUT (lit "pt-saas") (inr b) Fixture.healthy).2)
           !! lit "pt-saas")
    = Some (Some []).
Proof.
  intros b. split; [reflexivity|].
  refine (proj1 (proj2 (proj2
    (C9_put_clears_reference_files (lit "pt-saas") b Fixture.healthy Fixture.saas
       (lit "SaaS") (lit "Be bold.") _ eq_refl eq_refl eq_refl _ eq_refl _
       (or_introl eq_refl) eq_refl eq_refl eq_refl _)))); try done.
  intros i r Hi Hr.
  destruct (decide (i = lit "pt-saas")) as [->|Hne1]; [done|].
  destruct (decide (i = lit "pt-mobile")) as [->|Hne2].
  - vm_compute in Hi. injection Hi as <-. by vm_compute in Hr.
  - unfold Fixture.healthy, Fixture.world, Fixture.database in Hi. cbn in Hi.
    rewrite !lookup_insert_ne in Hi by done. by rewrite lookup_empty in Hi.
Defined.

End Put.

(** ** The upload of reference files *)

Section Upload.

Import UploadReference.

Variable toLowerCase : jsstring → jsstring.

Implicit Types (w : World) (file : File).

(** C10: the type check reads the file name only. A file whose lower-cased
    extension is not in [ALLOWED_TYPES] is answered 400 whatever its MIME
    type, and a file larger than 5MB is answered 400, both with no outside
    call and the object store as it was; a file with an allowed extension
    and size passes both checks whatever its MIME type: its bytes are
    uploaded under that type, and when the store accepts them the answer is
    200 with the metadata. *)
Theorem C10_upload_validation file w :
  let extension := fileExtension toLowerCase (file_name file) in
  let run := POST toLowerCase (inr (Some file)) w in
  (extension ∉ ALLOWED_TYPES →
     run.1 = Return {| status := 400;
                       body := JObj [("error"%string,
                                      JStr (lit "Invalid file type. Only PDF, PNG, JPG, and WebP files are allowed."))];
                       set_cookie := None |}
     ∧ calls run.2 = calls w ∧ storage run.2 = storage w)
  ∧ (extension ∈ ALLOWED_TYPES → MAX_FILE_SIZE < file_size file →
     run.1 = Return {| status := 400;
                       body := JObj [("error"%string,
                                      JStr (lit "File size exceeds 5MB limit."))];
                       set_cookie := None |}
     ∧ calls run.2 = calls w ∧ storage run.2 = storage w)
  ∧ (extension ∈ ALLOWED_TYPES → file_size file ≤ MAX_FILE_SIZE →
     ∀ supabaseUrl bytes,
       NEXT_PUBLIC_SUPABASE_URL (env w) = Some supabaseUrl →
       supabaseUrl ≠ [] →
       truthy_opt (SUPABASE_SERVICE_ROLE_KEY (env w)) = true →
       file_arrayBuffer file = inr bytes →
       let path := lit "reference-docs/" ++ uuid w ++ lit "-" ++ file_name file in
       calls run.2
       = calls w ++ [CallUpload (lit "reference-files") path bytes (file_type file)]
       ∧ (upload_fault w = Works → storage w !! path = None →
          run.1 = Return {| status := 200;
                            body := JObj [("id"%string, JStr (uuid w));
                                          ("name"%string, JStr (file_name file));
                                          ("size"%string, JNum (file_size file));
                                          ("type"%string, JStr (file_type file));
                                          ("url"%string,
                                           JStr (supabaseUrl
                                                 ++ lit "/storage/v1/object/public/reference-files/"
                                                 ++ path));
                                          ("uploadedAt"%string, JStr (now w))];
                            set_cookie := None |}
          ∧ storage run.2
            = <[path := {| obj_bytes := bytes;
                           obj_contentType := file_type file |}]> (storage w))).
Proof.
  cbv zeta.
  unfold POST, try_catch, bind, request_file, array_includes. cbn.
  split_and!.
  - intros Hext. by rewrite bool_decide_eq_false_2.
  - intros Hext Hsize. rewrite bool_decide_eq_true_2 by done. cbn.
    by rewrite (proj2 (N.ltb_lt _ _) Hsize).
  - intros Hext Hsize supabaseUrl bytes Hurl Hurl' Hservice Hbytes.
    rewrite bool_decide_eq_true_2 by done. cbn.
    rewrite (proj2 (N.ltb_ge _ _) Hsize).
    unfold createServerSupabaseClient, arrayBuffer, storage_upload, getPublicUrl,
      bind, getenv.
    cbn. rewrite Hurl. destruct supabaseUrl as [|c url]; [done|]. cbn.
    rewrite Hservice, Hbytes. cbn.
    split.
    + destruct (upload_fault w); cbn; [|done..].
      destruct (storage w !! _); cbn; [done|]. rewrite Hurl. done.
    + intros -> ->. cbn. rewrite Hurl. done.
Qed.

End Upload.

(** C10 on two files: an executable that declares a PDF type is refused
    with no outside call, and a PDF that declares an HTML type is
    uploaded. *)
Lemma C10_witness :
  let script := {| file_name := lit "styles.pdf.exe"; file_size := 10;
                   file_type := lit "application/pdf";
                   file_arrayBuffer := inr [77; 90] |} in
  let guide := {| file_name := lit "Guide.PDF"; file_size := 3;
                  file_type := lit "text/html";
                  file_arrayBuffer := inr [60; 112; 62] |} in
  let run := UploadReference.POST asciiToLowerCase in
  ((run (inr (Some script)) Fixture.healthy).1
   = Return (json (error_body (lit "Invalid file type. Only PDF, PNG, JPG, and WebP files are allowed.")) 400)
   ∧ calls (run (inr (Some script)) Fixture.healthy).2 = [])
  ∧ calls (run (inr (Some guide)) Fixture.healthy).2
    = [CallUpload (lit "reference-files")
         (lit "reference-docs/00000000-0000-4000-8000-000000000000-Guide.PDF")
         [60; 112; 62] (lit "text/html")].
Proof.
  intros script guide run. split.
  - destruct (C10_upload_validation asciiToLowerCase script Fixture.healthy)
      as (H & _).
    destruct H as (Hret & Hcalls & _);
      [apply (bool_decide_unpack _); by vm_compute|]. by split.
  - destruct (C10_upload_validation asciiToLowerCase guide Fixture.healthy)
      as (_ & _ & H).
    refine (proj1 (H _ _ (lit "https://db.example") [60; 112; 62]
                     eq_refl _ eq_refl eq_refl)).
    + apply (bool_decide_unpack _). by vm_compute.
    + by vm_compute.
    + by vm_compute.
Defined.

(** * Further properties *)

(** ** The suggestion generator: transport, parsing, the request sent *)

Section GeneratorMore.

Import OpenRouter.

Implicit Types (w : World) (r : FetchResponse) (data : OpenRouterResponse).
Implicit Types (badCopy instructions : jsstring) (image : option jsstring).
Implicit Types (refs : option (list jsstring)) (context : option CopyContext).

(** What the [catch] block throws for the value it caught. *)
Lemma generate_fetch_rejects badCopy instructions image refs context w t :
  truthy_opt (OPENROUTER_API_KEY (env w)) = true →
  upstream w = FetchRejects t →
  (generateCopySuggestions badCopy instructions image refs context w).1
  = Throw
      (if instanceof_Error t then
         if includes (lit "fetch") (message_of t) then
           JsError (lit "Network error: Unable to reach OpenRouter API. Please check your internet connection.")
         else if includes (lit "JSON") (message_of t) then
           JsError (lit "OpenRouter API returned invalid response format.")
         else t
       else JsError (lit "Unknown error occurred while generating copy suggestions.")).
Proof.
  intros Hkey Hup.
  unfold generateCopySuggestions, bind, getenv, try_catch, fetch.
  cbn. rewrite Hkey. cbn. rewrite Hup. cbn.
  destruct (instanceof_Error t); cbn; [|done].
  destruct (includes (lit "fetch") (message_of t)); cbn; [done|].
  destruct (includes (lit "JSON") (message_of t)); done.
Qed.

(** X1: When [fetch] rejects with an [Error] whose message holds the word
    "fetch", as the runtime's "fetch failed" does, the generator throws the
    network error; an [Error] with neither "fetch" nor "JSON" in its message
    is thrown on as it is, and a thrown value that is no [Error] becomes the
    unknown error. *)
Theorem transport_failure badCopy instructions image refs context w t :
  truthy_opt (OPENROUTER_API_KEY (env w)) = true →
  upstream w = FetchRejects t →
  let run := generateCopySuggestions badCopy instructions image refs context w in
  (instanceof_Error t = true → includes (lit "fetch") (message_of t) = true →
     run.1 = Throw (JsError (lit "Network error: Unable to reach OpenRouter API. Please check your internet connection.")))
  ∧ (instanceof_Error t = true → includes (lit "fetch") (message_of t) = false →
     includes (lit "JSON") (message_of t) = false → run.1 = Throw t)
  ∧ (instanceof_Error t = false →
     run.1 = Throw (JsError (lit "Unknown error occurred while generating copy suggestions."))).
Proof.
  intros Hkey Hup. cbv zeta.
  rewrite (generate_fetch_rejects _ _ _ _ _ w t Hkey Hup).
  split_and!.
  - by intros -> ->.
  - by intros -> -> ->.
  - by intros ->.
Qed.

Lemma transport_failure_witness :
  (generateCopySuggestions (lit "Oops") (lit "Be brief.") None None None
     (Fixture.world Fixture.configured
        (FetchRejects (JsError (lit "fetch failed"))))).1
  = Throw (JsError (lit "Network error: Unable to reach OpenRouter API. Please check your internet connection.")).
Proof.
  refine (proj1 (transport_failure (lit "Oops") (lit "Be brief.") None None None
                   (Fixture.world Fixture.configured
                      (FetchRejects (JsError (lit "fetch failed"))))
                   _ eq_refl eq_refl) eq_refl eq_refl).
Defined.

(** X2: A 2xx response whose body does not parse, with a parse error that
    names JSON as the runtime's do, is the invalid-format error. *)
Theorem unparsable_body badCopy instructions image refs context w r m :
  truthy_opt (OPENROUTER_API_KEY (env w)) = true →
  upstream w = FetchResolves r →
  resp_ok r = true →
  resp_json r = inl (JsError m) →
  includes (lit "fetch") m = false →
  includes (lit "JSON") m = true →
  (generateCopySuggestions badCopy instructions image refs context w).1
  = Throw (JsError (lit "OpenRouter API returned invalid response format.")).
Proof.
  intros Hkey Hup Hok Hjson Hfetch HJSON.
  unfold generateCopySuggestions, bind, getenv, try_catch, fetch, response_json.
  cbn. rewrite Hkey. cbn. rewrite Hup. cbn. rewrite Hok. cbn.
  rewrite Hjson. cbn. by rewrite Hfetch, HJSON.
Qed.

Lemma unparsable_body_witness :
  (generateCopySuggestions (lit "Oops") (lit "Be brief.") None None None
     (Fixture.world Fixture.configured
        (FetchResolves
           {| resp_status := 200; resp_statusText := lit "OK";
              resp_text := lit "<html>";
              resp_json := inl (JsError (lit "Unexpected token < in JSON at position 0")) |}))).1
  = Throw (JsError (lit "OpenRouter API returned invalid response format.")).
Proof.
  apply (unparsable_body (lit "Oops") (lit "Be brief.") None None None
           (Fixture.world Fixture.configured
              (FetchResolves
                 {| resp_status := 200; resp_statusText := lit "OK";
                    resp_text := lit "<html>";
                    resp_json := inl (JsError (lit "Unexpected token < in JSON at position 0")) |}))
           {| resp_status := 200; resp_statusText := lit "OK";
              resp_text := lit "<html>";
              resp_json := inl (JsError (lit "Unexpected token < in JSON at position 0")) |}
           (lit "Unexpected token < in JSON at position 0"));
    reflexivity.
Defined.






(** What a call of the generator leaves behind. *)
Lemma generator_frame badCopy instructions image refs context w :
  truthy_opt (OPENROUTER_API_KEY (env w)) = true →
  let after := (generateCopySuggestions badCopy instructions image refs context w).2 in
  calls after
  = calls w
    ++ [CallFetch
          (chatRequest (OPENROUTER_API_KEY (env w)) (NEXT_PUBLIC_APP_URL (env w))
             (composeMessages (NEXT_PUBLIC_APP_URL (env w)) badCopy
                instructions image refs context))]
  ∧ db after = db w ∧ storage after = storage w ∧ env after = env w
  ∧ query_fault after = query_fault w ∧ uuid after = uuid w
  ∧ upstream after = upstream w.
Proof.
  intros Hkey. cbv zeta.
  unfold generateCopySuggestions, bind, getenv, try_catch, fetch, response_json.
  cbn. rewrite Hkey. cbn.
  destruct (upstream w) as [t|r] eqn:Hup; cbn.
  - destruct (instanceof_Error t); cbn; [|done].
    destruct (includes (lit "fetch") (message_of t)); cbn; [done|].
    by destruct (includes (lit "JSON") (message_of t)).
  - destruct (resp_ok r); cbn.
    + destruct (resp_json r) as [t|data]; cbn.
      * destruct (instanceof_Error t); cbn; [|done].
        destruct (includes (lit "fetch") (message_of t)); cbn; [done|].
        by destruct (includes (lit "JSON") (message_of t)).
      * destruct (choices data) as [m|cs]; cbn.
        -- destruct (includes (lit "fetch") m); cbn; [done|].
           by destruct (includes (lit "JSON") m).
        -- destruct (contentValue cs) as [[s|m]|]; cbn; [| |done].
           ++ destruct (truthy s); cbn; done.
           ++ destruct (includes (lit "fetch") m); cbn; [done|].
              by destruct (includes (lit "JSON") m).
    + destruct (resp_status r =? 401);
        [|destruct (resp_status r =? 429); [|destruct (resp_status r =? 500)]];
        cbn;
        repeat (match goal with |- context [includes ?a ?b] =>
                  destruct (includes a b) eqn:? end; cbn); done.
Qed.

(** X4: With a key, the generator calls the upstream once and only once,
    whatever the upstream answers and whether it returns or throws: there is
    no retry. The call carries the composed messages, the model, the
    temperature and the token cap; nothing is written to the datastore or to
    the object store. *)
Theorem one_upstream_call badCopy instructions image refs context w :
  truthy_opt (OPENROUTER_API_KEY (env w)) = true →
  let run := generateCopySuggestions badCopy instructions image refs context w in
  calls run.2
  = calls w
    ++ [CallFetch
          {| req_url := lit "https://openrouter.ai/api/v1/chat/completions";
             req_authorization :=
               lit "Bearer " ++ default [] (OPENROUTER_API_KEY (env w));
             req_referer := baseUrl (NEXT_PUBLIC_APP_URL (env w));
             req_title := lit "CopyFixer";
             model := lit "openai/gpt-4o";
             messages := composeMessages (NEXT_PUBLIC_APP_URL (env w)) badCopy
                           instructions image refs context;
             temperature := (7 # 10)%Q;
             max_tokens := 1000 |}]
  ∧ db run.2 = db w ∧ storage run.2 = storage w.
Proof.
  intros Hkey. cbv zeta.
  destruct (generator_frame badCopy instructions image refs context w Hkey)
    as (Hcalls & Hdb & Hstorage & _).
  by rewrite Hcalls.
Qed.

Lemma one_upstream_call_witness :
  length (calls (generateCopySuggestions (lit "Oops") (lit "Be brief.") None None
                   None (Fixture.world Fixture.configured
                           (Fixture.refuses 503 "Service Unavailable"))).2)
  = 1%nat.
Proof.
  rewrite (proj1 (one_upstream_call (lit "Oops") (lit "Be brief.") None None None
                    (Fixture.world Fixture.configured
                       (Fixture.refuses 503 "Service Unavailable")) eq_refl)).
  reflexivity.
Defined.

End GeneratorMore.

(** ** What a suggestion looks like *)

Section Suggestions.

Import OpenRouter.

Lemma trimStart_head s c : head (trimStart s) = Some c → isWhiteSpace c = false.
Proof.
  induction s as [|a s IH]; [done|]. cbn.
  destruct (isWhiteSpace a) eqn:Ha; [done|]. cbn. by intros [= <-].
Qed.

Lemma trimStart_suffix s : trimStart s `suffix_of` s.
Proof.
  induction s as [|a s IH]; [done|]. cbn.
  destruct (isWhiteSpace a); [by apply suffix_cons_r | done].
Qed.

Lemma trimStart_last s : trimStart s ≠ [] → last (trimStart s) = last s.
Proof.
  intros Hne. destruct (trimStart_suffix s) as [pre Hs].
  rewrite Hs at 2. destruct (trimStart s) as [|a t] eqn:Ht; [done|].
  by rewrite last_app_cons.
Qed.

Lemma trimStart_elem c s : c ∈ trimStart s → c ∈ s.
Proof.
  destruct (trimStart_suffix s) as [pre Hs]. rewrite Hs at 2.
  set_solver.
Qed.

Lemma trim_elem c s : c ∈ trim s → c ∈ s.
Proof.
  unfold trim, trimEnd. rewrite elem_of_reverse. intros H.
  apply trimStart_elem in H. rewrite elem_of_reverse in H.
  by apply trimStart_elem.
Qed.

Lemma trim_head s c : head (trim s) = Some c → isWhiteSpace c = false.
Proof.
  unfold trim, trimEnd. rewrite head_reverse. intros H.
  destruct (trimStart (reverse (trimStart s))) as [|a t] eqn:Ht; [done|].
  rewrite <- Ht in H. rewrite trimStart_last in H by (by rewrite Ht).
  rewrite last_reverse in H. by apply trimStart_head in H.
Qed.

Lemma trim_last s c : last (trim s) = Some c → isWhiteSpace c = false.
Proof.
  unfold trim, trimEnd. rewrite last_reverse. apply trimStart_head.
Qed.

Lemma split_no_sep sep s piece : piece ∈ split sep s → sep ∉ piece.
Proof.
  revert piece. induction s as [|c s IH]; intros piece; cbn.
  - intros ->%list_elem_of_singleton. set_solver.
  - destruct (N.eqb_spec c sep) as [->|Hc].
    + intros [->|H]%elem_of_cons; [set_solver | by apply IH].
    + pose proof (split_nonempty sep s) as Hne.
      destruct (split sep s) as [|p ps]; [done|].
      intros [->|H]%elem_of_cons.
      * intros [?|?]%elem_of_cons; [done|]. apply (IH p); [left | done].
      * apply IH. by right.
Qed.

Lemma placeholder_isSuggestion : isSuggestion placeholder.
Proof.
  unfold isSuggestion. split_and!.
  - done.
  - apply (bool_decide_unpack _). by vm_compute.
  - intros c [= <-]. by vm_compute.
  - intros c H. vm_compute in H. injection H as <-. by vm_compute.
Qed.

Lemma parseSuggestions_isSuggestion (content : jsstring) :
  Forall isSuggestion (parseSuggestions content).
Proof.
  rewrite parseSuggestions_eq. cbv zeta.
  destruct (decide _) as [_|_].
  - apply Forall_singleton, placeholder_isSuggestion.
  - apply Forall_take, Forall_forall. intros l Hl.
    apply list_elem_of_filter in Hl as [Hlen Hl].
    apply list_elem_of_fmap in Hl as (piece & -> & Hpiece).
    unfold isSuggestion. split_and!.
    + intros Heq. rewrite Heq in Hlen. cbn in Hlen. lia.
    + intros Hin. apply trim_elem in Hin. by apply split_no_sep in Hpiece.
    + apply trim_head.
    + apply trim_last.
Qed.

(** X5: Every element of the list made from a response text is a suggestion
    as a caller would show it: not empty, on one line, and with no white
    space at either end; and it is a line of the response text, trimmed,
    or else the placeholder. This holds for any response text. *)
Theorem suggestions_are_trimmed_lines (content : jsstring) :
  Forall (fun s => isSuggestion s
                   ∧ (s = placeholder
                      ∨ ∃ line, line ∈ split 10 content ∧ s = trim line))
    (parseSuggestions content).
Proof.
  apply Forall_and. split; [apply parseSuggestions_isSuggestion|].
  rewrite parseSuggestions_eq. cbv zeta.
  destruct (decide _) as [_|_].
  - apply Forall_singleton. by left.
  - apply Forall_take, Forall_forall. intros s Hs. right.
    apply list_elem_of_filter in Hs as [_ Hs].
    apply list_elem_of_fmap in Hs as (line & -> & Hline).
    by exists line.
Qed.

(** X6: The screenshot goes into the last message and nowhere else: every
    message before the last is plain text, and the last one carries the
    image, as a JPEG data URL of the given base64 text, exactly when that
    text is given and not empty. *)
Theorem image_only_in_last_message appUrl badCopy instructions image refs context :
  ∃ before text,
    composeMessages appUrl badCopy instructions image refs context
    = before ++ [ {| role := user;
                     content := if truthy_opt image
                                then TextAndImage text
                                       (lit "data:image/jpeg;base64," ++ default [] image)
                                else Text text |} ]
    ∧ Forall (fun m => ∃ t, content m = Text t) before.
Proof.
  unfold composeMessages, userContent.
  exists ([ {| role := system;
               content := Text (systemPrompt instructions refs context) |} ]
          ++ (if hasReferenceFiles refs
              then [ {| role := user;
                        content := Text (referenceText appUrl (default [] refs)) |} ]
              else [])),
         (userMessageText badCopy context).
  split.
  - rewrite <- app_assoc. do 3 f_equal.
    destruct image as [i|]; [|done]. cbn. by destruct (truthy i).
  - apply Forall_app. split; [apply Forall_singleton; by eexists|].
    destruct (hasReferenceFiles refs); [|done].
    apply Forall_singleton. by eexists.
Qed.

End Suggestions.

(** ** The generation endpoint: configuration, lookup, failures *)

Section GenerateMore.

Import Generate.

Implicit Types (w : World) (request : Request) (fd : FormData) (p : Parsed).

(** X7: A server that lacks a part of its configuration answers 500 before
    it reads the request. The route module has loaded, so the datastore URL
    and the anonymous key are there. Without the upstream key the answer
    names the key; with the upstream key but without the service key it
    names the database configuration. This holds for every request, a
    malformed one included; no outside call is made. *)
Theorem missing_configuration request w :
  supabaseModuleLoads (env w) = true →
  let run := POST request w in
  (truthy_opt (OPENROUTER_API_KEY (env w)) = false →
     run.1 = Return (json (error_body (lit "OpenRouter API key not configured. Please check environment variables.")) 500)
     ∧ calls run.2 = calls w ∧ db run.2 = db w)
  ∧ (truthy_opt (OPENROUTER_API_KEY (env w)) = true →
     truthy_opt (SUPABASE_SERVICE_ROLE_KEY (env w)) = false →
     run.1 = Return (json (error_body (lit "Database configuration incomplete. Please check environment variables.")) 500)
     ∧ calls run.2 = calls w ∧ db run.2 = db w).
Proof.
  intros Hloads. cbv zeta.
  apply andb_prop in Hloads as [Hurl _].
  unfold POST, try_catch, bind, getenv. cbn. split.
  - intros ->. done.
  - intros -> ->. by rewrite Hurl.
Qed.

Lemma copy_given p :
  (p_mode p = lit "improve_copy" → p_badCopy p ≠ []) →
  bool_decide (p_mode p = lit "improve_copy") && negb (truthy (p_badCopy p)) = false.
Proof.
  intros Hcopy. destruct (bool_decide_reflect (p_mode p = lit "improve_copy")) as [Hm|];
    [|done].
  specialize (Hcopy Hm). by destruct (p_badCopy p).
Qed.

Lemma load_reaches_generate request p w row :
  truthy_opt (NEXT_PUBLIC_SUPABASE_URL (env w)) = true →
  truthy_opt (SUPABASE_SERVICE_ROLE_KEY (env w)) = true →
  query_fault w (SelectInstructions true (p_productTypeId p)) = Works →
  product_types (db w) !! p_productTypeId p = Some row →
  load request p w
  = generate request p
      {| instructions := pt_instructions row;
         reference_files := pt_reference_files row |}
      (with_db (db w)
         (with_call (CallQuery (SelectInstructions true (p_productTypeId p))) w)).
Proof.
  intros Hurl Hservice Hq Hrow.
  unfold load, createServerSupabaseClient, select_with_reference_files,
    await_query, run_select_single.
  unfold try_catch, bind. rewrite Hurl, Hservice. cbn. rewrite Hq, Hrow. cbn.
  reflexivity.
Qed.

(** After the validation, on a server whose datastore finds the product
    type with the first query, the handler is at the conversion of the
    screenshot. *)
Lemma POST_reaches_generate request fd w row :
  truthy_opt (OPENROUTER_API_KEY (env w)) = true →
  truthy_opt (NEXT_PUBLIC_SUPABASE_URL (env w)) = true →
  truthy_opt (SUPABASE_SERVICE_ROLE_KEY (env w)) = true →
  formData request = inr fd →
  truthy_opt (fd_productTypeId fd) = true →
  (p_mode (parse fd) = lit "improve_copy" → p_badCopy (parse fd) ≠ []) →
  query_fault w (SelectInstructions true (p_productTypeId (parse fd))) = Works →
  product_types (db w) !! p_productTypeId (parse fd) = Some row →
  POST request w
  = try_catch
      (generate request (parse fd)
         {| instructions := pt_instructions row;
            reference_files := pt_reference_files row |})
      unexpected
      (with_db (db w)
         (with_call (CallQuery (SelectInstructions true (p_productTypeId (parse fd)))) w)).
Proof.
  intros Hkey Hurl Hservice Hform Hid Hcopy Hq Hrow.
  rewrite (POST_validation request fd w) by done. rewrite Hid. cbn [negb].
  rewrite (copy_given _ Hcopy).
  unfold try_catch. by rewrite (load_reaches_generate request _ w row).
Qed.

Lemma load_unknown request p w :
  truthy_opt (NEXT_PUBLIC_SUPABASE_URL (env w)) = true →
  truthy_opt (SUPABASE_SERVICE_ROLE_KEY (env w)) = true →
  query_fault w (SelectInstructions true (p_productTypeId p)) = Works →
  query_fault w (SelectInstructions false (p_productTypeId p)) = Works →
  product_types (db w) !! p_productTypeId p = None →
  let run := load request p w in
  run.1 = Return (json (error_body (lit "Database error: JSON object requested, multiple (or no) rows returned")) 500)
  ∧ calls run.2
    = calls w ++ [CallQuery (SelectInstructions true (p_productTypeId p));
                  CallQuery (SelectInstructions false (p_productTypeId p))]
  ∧ db run.2 = db w.
Proof.
  intros Hurl Hservice Hq1 Hq2 Hrow. cbv zeta.
  unfold load, createServerSupabaseClient, select_with_reference_files,
    select_instructions, await_query, run_select_single.
  unfold try_catch, bind. rewrite Hurl, Hservice. cbn.
  rewrite Hq1, Hrow. cbn. rewrite Hq2, Hrow. cbn.
  rewrite <- app_assoc. done.
Qed.

(** X8: An id that is not stored is answered 500 with the datastore's
    message, not 400 "Invalid product type": [.single()] reports an error
    for no row, the first query's error sends the handler to the fallback
    query, and that one's error is returned. The upstream is not called. *)
Theorem unknown_product_type request fd w :
  truthy_opt (OPENROUTER_API_KEY (env w)) = true →
  truthy_opt (NEXT_PUBLIC_SUPABASE_URL (env w)) = true →
  truthy_opt (SUPABASE_SERVICE_ROLE_KEY (env w)) = true →
  formData request = inr fd →
  let p := parse fd in
  truthy_opt (fd_productTypeId fd) = true →
  (p_mode p = lit "improve_copy" → p_badCopy p ≠ []) →
  query_fault w (SelectInstructions true (p_productTypeId p)) = Works →
  query_fault w (SelectInstructions false (p_productTypeId p)) = Works →
  product_types (db w) !! p_productTypeId p = None →
  let run := POST request w in
  run.1 = Return (json (error_body (lit "Database error: JSON object requested, multiple (or no) rows returned")) 500)
  ∧ calls run.2
    = calls w ++ [CallQuery (SelectInstructions true (p_productTypeId p));
                  CallQuery (SelectInstructions false (p_productTypeId p))]
  ∧ db run.2 = db w.
Proof.
  intros Hkey Hurl Hservice Hform p. subst p. cbv zeta.
  intros Hid Hcopy Hq1 Hq2 Hrow.
  rewrite (POST_validation request fd w) by done. rewrite Hid. cbn [negb].
  rewrite (copy_given _ Hcopy).
  destruct (load_unknown request _ w Hurl Hservice Hq1 Hq2 Hrow) as (H1 & H2 & H3).
  unfold try_catch.
  destruct (load request (parse fd) w) as [[response|t] w'] eqn:E; cbn in *; [|done].
  by simplify_eq.
Qed.

Lemma unknown_product_type_witness :
  (POST (Fixture.request_of
           (Fixture.form "improve_copy" (Some (lit "pt-gone")) (Some (lit "Oops!"))))
     Fixture.healthy).1
  = Return (json (error_body (lit "Database error: JSON object requested, multiple (or no) rows returned")) 500).
Proof.
  refine (proj1 (unknown_product_type
                   (Fixture.request_of
                      (Fixture.form "improve_copy" (Some (lit "pt-gone"))
                         (Some (lit "Oops!"))))
                   _ Fixture.healthy eq_refl eq_refl eq_refl eq_refl eq_refl
                   _ eq_refl eq_refl eq_refl)).
  intros _. by vm_compute.
Defined.

Lemma missing_configuration_witness :
  let request := Fixture.request_of (Fixture.form "improve_copy" None None) in
  let answer e :=
    (POST request (Fixture.world e (Fixture.answers Fixture.three_lines))).1 in
  answer Scenario.no_upstream_key
  = Return (json (error_body (lit "OpenRouter API key not configured. Please check environment variables.")) 500)
  ∧ answer Scenario.no_service_key
    = Return (json (error_body (lit "Database configuration incomplete. Please check environment variables.")) 500).
Proof.
  intros request answer. split.
  - exact (proj1 (proj1 (missing_configuration request
                           (Fixture.world Scenario.no_upstream_key
                              (Fixture.answers Fixture.three_lines))
                           eq_refl)
                    eq_refl)).
  - exact (proj1 (proj2 (missing_configuration request
                           (Fixture.world Scenario.no_service_key
                              (Fixture.answers Fixture.three_lines))
                           eq_refl)
                    eq_refl eq_refl)).
Defined.



End GenerateMore.

Section GenerateSuccess.

Import Generate.

Implicit Types (w : World) (request : Request) (fd : FormData) (p : Parsed).

(** With an upstream that answers with content, the handler gets from the
    conversion of the screenshot to the session and the insert; the image
    it sends is the base64 text of a screenshot that is not empty. *)
Lemma generate_reaches_respond request p productType w r data c :
  readable p →
  truthy_opt (OPENROUTER_API_KEY (env w)) = true →
  upstream w = FetchResolves r →
  resp_ok r = true →
  resp_json r = inr data →
  OpenRouter.firstContent data = Some c →
  c ≠ [] →
  ∃ image,
    generate request p productType w
    = respond request p (OpenRouter.parseSuggestions c)
        (with_call (upstreamCall w p productType image) w)
    ∧ (p_screenshot p = None → image = None)
    ∧ (∀ f, p_screenshot p = Some f → file_size f = 0 → image = None)
    ∧ (∀ f bytes, p_screenshot p = Some f → 0 < file_size f →
                  file_arrayBuffer f = inr bytes → image = Some (base64 bytes)).
Proof.
  intros Hshot Hkey Hup Hok Hjson Hc Hne. unfold generate, upstreamCall.
  destruct (p_screenshot p) as [f|] eqn:Ef.
  - destruct (0 <? file_size f) eqn:Esize.
    + destruct (Hshot f Ef) as [bytes Hbytes]; [by apply N.ltb_lt|].
      exists (Some (base64 bytes)).
      unfold convertFileToBase64, arrayBuffer, try_catch, bind. rewrite Hbytes.
      cbn. rewrite (generate_success_run _ _ _ _ _ _ r data c) by done.
      cbn. split_and!; [done | done | |].
      * intros f' [= <-] Hzero. apply N.ltb_lt in Esize. lia.
      * intros f' bytes' [= <-] _ Hb. rewrite Hbytes in Hb. by injection Hb as <-.
    + exists None. unfold try_catch, bind. cbn.
      rewrite (generate_success_run _ _ _ _ _ _ r data c) by done.
      cbn. split_and!; [done | done | done |].
      intros f' bytes' [= <-] Hpos. apply N.ltb_ge in Esize. lia.
  - exists None. unfold try_catch, bind. cbn.
    rewrite (generate_success_run _ _ _ _ _ _ r data c) by done.
    cbn. split_and!; done.
Qed.

(** The success payload and the row depend on the world through the
    session id and [NODE_ENV] only. *)
Lemma success_frame request w w' suggestions :
  uuid w' = uuid w → env w' = env w →
  success request w' suggestions = success request w suggestions.
Proof. unfold success. by intros -> ->. Qed.

Lemma submission_frame request w w' p suggestions :
  uuid w' = uuid w →
  submission request w' p suggestions = submission request w p suggestions.
Proof. unfold submission. by intros ->. Qed.

(** [respond] asks the datastore for one thing, the insert of the row. *)
Lemma respond_calls request p suggestions w :
  calls (respond request p suggestions w).2
  = calls w ++ [CallQuery (InsertSubmission (submission request w p suggestions))].
Proof.
  unfold respond, try_catch, bind, insert_submission, await_query, getenv,
    randomUUID, submission.
  destruct (truthy_opt (cookie request)); cbn;
    destruct (query_fault w _); cbn; try done;
    unfold run_insert_submission; cbn;
    destruct (product_types (db w) !! _); done.
Qed.

(** X10: When the first query of the product type resolves with an error, of
    whatever kind, the handler reads the instructions alone and goes on
    with an empty list of reference files: the request to the upstream has
    the system prompt without the note and no reference message, though the
    stored product type has reference files, and the client gets its
    suggestions with no sign of it. *)
Theorem lookup_fallback_drops_reference_files request fd w e row r data c :
  truthy_opt (OPENROUTER_API_KEY (env w)) = true →
  truthy_opt (NEXT_PUBLIC_SUPABASE_URL (env w)) = true →
  truthy_opt (SUPABASE_SERVICE_ROLE_KEY (env w)) = true →
  formData request = inr fd →
  let p := parse fd in
  truthy_opt (fd_productTypeId fd) = true →
  (p_mode p = lit "improve_copy" → p_badCopy p ≠ []) →
  query_fault w (SelectInstructions true (p_productTypeId p)) = FailsWith e →
  query_fault w (SelectInstructions false (p_productTypeId p)) = Works →
  product_types (db w) !! p_productTypeId p = Some row →
  readable p →
  upstream w = FetchResolves r →
  resp_ok r = true →
  resp_json r = inr data →
  OpenRouter.firstContent data = Some c →
  c ≠ [] →
  let run := POST request w in
  run.1 = Return (success request w (OpenRouter.parseSuggestions c))
  ∧ ∃ image,
      CallFetch
        (OpenRouter.chatRequest (OPENROUTER_API_KEY (env w))
           (NEXT_PUBLIC_APP_URL (env w))
           [ {| role := system;
                content := Text (OpenRouter.modePrompt (pt_instructions row)
                                   (Some (p_context p))) |};
             {| role := user;
                content := OpenRouter.userContent (p_badCopy p) image
                             (Some (p_context p)) |} ])
      ∈ calls run.2.
Proof.
  intros Hkey Hurl Hservice Hform p. subst p. cbv zeta.
  intros Hid Hcopy Hq1 Hq2 Hrow Hshot Hup Hok Hjson Hc Hne.
  rewrite (POST_validation request fd w) by done. rewrite Hid. cbn [negb].
  rewrite (copy_given _ Hcopy).
  generalize dependent (parse fd). intros p Hcopy Hq1 Hq2 Hrow Hshot.
  unfold load, createServerSupabaseClient, select_with_reference_files,
    select_instructions, await_query, run_select_single.
  unfold try_catch, bind. rewrite Hurl, Hservice. cbn.
  rewrite Hq1. cbn. rewrite Hq2, Hrow. cbn.
  match goal with |- context [generate request p ?pt ?w1] =>
    destruct (generate_reaches_respond request p pt w1 r data c)
      as (image & -> & _); try done;
    set (w2 := with_call _ w1)
  end.
  pose proof (respond_returns request p (OpenRouter.parseSuggestions c) w2) as Hret.
  pose proof (respond_calls request p (OpenRouter.parseSuggestions c) w2) as Hcalls.
  destruct (respond request p (OpenRouter.parseSuggestions c) w2)
    as [[response|t] w3]; cbn in *; [|done].
  simplify_eq. split; [done|].
  exists image. rewrite Hcalls. apply elem_of_app. left.
  unfold w2, upstreamCall. cbn. apply elem_of_app. right.
  apply list_elem_of_singleton. done.
Qed.

(** The whole path of a request that succeeds: the handler is at the
    session and the insert, in a world where two calls have been made, the
    query of the product type and the request to the upstream with
    [image]. *)
Lemma POST_reaches_respond request fd w row r data c :
  truthy_opt (OPENROUTER_API_KEY (env w)) = true →
  truthy_opt (NEXT_PUBLIC_SUPABASE_URL (env w)) = true →
  truthy_opt (SUPABASE_SERVICE_ROLE_KEY (env w)) = true →
  formData request = inr fd →
  truthy_opt (fd_productTypeId fd) = true →
  (p_mode (parse fd) = lit "improve_copy" → p_badCopy (parse fd) ≠ []) →
  query_fault w (SelectInstructions true (p_productTypeId (parse fd))) = Works →
  product_types (db w) !! p_productTypeId (parse fd) = Some row →
  readable (parse fd) →
  upstream w = FetchResolves r →
  resp_ok r = true →
  resp_json r = inr data →
  OpenRouter.firstContent data = Some c →
  c ≠ [] →
  ∃ image w2,
    POST request w
    = try_catch (respond request (parse fd) (OpenRouter.parseSuggestions c))
        unexpected w2
    ∧ env w2 = env w ∧ uuid w2 = uuid w ∧ db w2 = db w
    ∧ query_fault w2 = query_fault w
    ∧ calls w2
      = calls w
        ++ [CallQuery (SelectInstructions true (p_productTypeId (parse fd)));
            upstreamCall w (parse fd)
              {| instructions := pt_instructions row;
                 reference_files := pt_reference_files row |} image]
    ∧ (p_screenshot (parse fd) = None → image = None)
    ∧ (∀ f, p_screenshot (parse fd) = Some f → file_size f = 0 → image = None)
    ∧ (∀ f bytes, p_screenshot (parse fd) = Some f → 0 < file_size f →
                  file_arrayBuffer f = inr bytes → image = Some (base64 bytes)).
Proof.
  intros Hkey Hurl Hservice Hform Hid Hcopy Hq Hrow Hshot Hup Hok Hjson Hc Hne.
  rewrite (POST_reaches_generate request fd w row) by done.
  set (w1 := with_db _ _).
  destruct (generate_reaches_respond request (parse fd)
              {| instructions := pt_instructions row;
                 reference_files := pt_reference_files row |}
              w1 r data c) as (image & Hgen & Himage); try done.
  exists image, (with_call (upstreamCall w1 (parse fd)
                              {| instructions := pt_instructions row;
                                 reference_files := pt_reference_files row |}
                              image) w1).
  split; [unfold try_catch; by rewrite Hgen|].
  split_and!; try done; try apply Himage.
  unfold w1. cbn. by rewrite <- app_assoc.
Qed.

(** X11: The session of a request that succeeds. Without a [user_session]
    cookie the handler makes a session id, stores the submission under it
    and sets it as the cookie. With a cookie that has a value the
    submission is stored under that value and no cookie is set. With a
    cookie whose value is empty the handler makes a new id and stores the
    submission under it, but sets no cookie: the client is never told the
    id. *)
Theorem session_of_request request fd w row r data c :
  truthy_opt (OPENROUTER_API_KEY (env w)) = true →
  truthy_opt (NEXT_PUBLIC_SUPABASE_URL (env w)) = true →
  truthy_opt (SUPABASE_SERVICE_ROLE_KEY (env w)) = true →
  formData request = inr fd →
  let p := parse fd in
  truthy_opt (fd_productTypeId fd) = true →
  (p_mode p = lit "improve_copy" → p_badCopy p ≠ []) →
  (∀ q, query_fault w q = Works) →
  product_types (db w) !! p_productTypeId p = Some row →
  readable p →
  upstream w = FetchResolves r →
  resp_ok r = true →
  resp_json r = inr data →
  OpenRouter.firstContent data = Some c →
  c ≠ [] →
  let run := POST request w in
  ∃ response stored,
    run.1 = Return response
    ∧ status response = 200
    ∧ submissions (db run.2) = submissions (db w) ++ [stored]
    ∧ (cookie request = None →
       user_session stored = uuid w
       ∧ set_cookie response
         = Some {| cookie_name := lit "user_session";
                   cookie_value := uuid w;
                   httpOnly := true;
                   secure := bool_decide (NODE_ENV (env w) = Some (lit "production"));
                   sameSite := lit "lax";
                   maxAge := 2592000 |})
    ∧ (∀ s, cookie request = Some s → s ≠ [] →
            user_session stored = s ∧ set_cookie response = None)
    ∧ (cookie request = Some [] →
       user_session stored = uuid w ∧ set_cookie response = None).
Proof.
  intros Hkey Hurl Hservice Hform p. subst p. cbv zeta.
  intros Hid Hcopy Hq Hrow Hshot Hup Hok Hjson Hc Hne.
  destruct (POST_reaches_respond request fd w row r data c)
    as (image & w2 & -> & Henv & Huuid & Hdb & Hfault & _); try done.
  set (suggestions := OpenRouter.parseSuggestions c).
  pose proof (respond_returns request (parse fd) suggestions w2) as Hret.
  destruct (respond_effect request (parse fd) suggestions w2) as (_ & _ & Hworks).
  rewrite Hfault, Hdb in Hworks.
  destruct (Hworks (Hq _)) as [_ Hstored]; [by rewrite Hrow|].
  rewrite (success_frame _ w) in Hret by done.
  rewrite (submission_frame _ w) in Hstored by done.
  unfold try_catch.
  destruct (respond request (parse fd) suggestions w2) as [[response|t] w3];
    cbn in *; [|done].
  simplify_eq.
  exists (success request w suggestions),
         (submission request w (parse fd) suggestions).
  rewrite Hstored. cbn. split_and!; try done.
  - intros Hcookie. unfold submission, success. by rewrite Hcookie.
  - intros s Hcookie Hs. unfold submission, success. rewrite Hcookie. cbn.
    by destruct s.
  - intros Hcookie. unfold submission, success. by rewrite Hcookie.
Qed.

(** X12: A screenshot of size zero is not sent to the upstream, whose request
    then has a last message of plain text, but the stored submission says
    that there was a screenshot. *)
Theorem empty_screenshot request fd w row r data c f :
  truthy_opt (OPENROUTER_API_KEY (env w)) = true →
  truthy_opt (NEXT_PUBLIC_SUPABASE_URL (env w)) = true →
  truthy_opt (SUPABASE_SERVICE_ROLE_KEY (env w)) = true →
  formData request = inr fd →
  let p := parse fd in
  truthy_opt (fd_productTypeId fd) = true →
  (p_mode p = lit "improve_copy" → p_badCopy p ≠ []) →
  (∀ q, query_fault w q = Works) →
  product_types (db w) !! p_productTypeId p = Some row →
  fd_screenshot fd = Some f →
  file_size f = 0 →
  upstream w = FetchResolves r →
  resp_ok r = true →
  resp_json r = inr data →
  OpenRouter.firstContent data = Some c →
  c ≠ [] →
  let run := POST request w in
  ∃ stored req text,
    submissions (db run.2) = submissions (db w) ++ [stored]
    ∧ has_screenshot stored = true
    ∧ CallFetch req ∈ calls run.2
    ∧ last (messages req) = Some {| role := user; content := Text text |}.
Proof.
  intros Hkey Hurl Hservice Hform p. subst p. cbv zeta.
  intros Hid Hcopy Hq Hrow Hf Hsize Hup Hok Hjson Hc Hne.
  assert (readable (parse fd)) as Hshot.
  { intros f' Hf' Hpos. cbn in Hf'. rewrite Hf in Hf'. injection Hf' as <-. lia. }
  destruct (POST_reaches_respond request fd w row r data c)
    as (image & w2 & -> & Henv & Huuid & Hdb & Hfault & Hcalls & _ & Himage & _);
    try done.
  rewrite (Himage f Hf Hsize) in Hcalls. clear Himage.
  set (suggestions := OpenRouter.parseSuggestions c).
  pose proof (respond_calls request (parse fd) suggestions w2) as Hcalls'.
  destruct (respond_effect request (parse fd) suggestions w2) as (_ & _ & Hworks).
  rewrite Hfault, Hdb in Hworks.
  destruct (Hworks (Hq _)) as [_ Hstored]; [by rewrite Hrow|].
  pose proof (respond_returns request (parse fd) suggestions w2) as Hret.
  unfold try_catch.
  destruct (respond request (parse fd) suggestions w2) as [[response|t] w3];
    cbn in *; [|done].
  eexists _, _, _. rewrite Hstored. cbn [submissions]. split_and!.
  - reflexivity.
  - cbn. rewrite Hf. by apply bool_decide_eq_true_2.
  - rewrite Hcalls', Hcalls. unfold upstreamCall.
    apply elem_of_app. left. apply elem_of_app. right.
    apply elem_of_cons. right. apply list_elem_of_singleton. reflexivity.
  - unfold OpenRouter.chatRequest, OpenRouter.composeMessages. cbn [messages].
    rewrite !app_assoc. rewrite last_snoc. reflexivity.
Qed.

(** X13: A screenshot that cannot be read is answered 500 with the message of
    the conversion, whatever the read failed with; the upstream is not
    called and nothing is stored. *)
Theorem unreadable_screenshot request fd w row f t :
  truthy_opt (OPENROUTER_API_KEY (env w)) = true →
  truthy_opt (NEXT_PUBLIC_SUPABASE_URL (env w)) = true →
  truthy_opt (SUPABASE_SERVICE_ROLE_KEY (env w)) = true →
  formData request = inr fd →
  let p := parse fd in
  truthy_opt (fd_productTypeId fd) = true →
  (p_mode p = lit "improve_copy" → p_badCopy p ≠ []) →
  query_fault w (SelectInstructions true (p_productTypeId p)) = Works →
  product_types (db w) !! p_productTypeId p = Some row →
  fd_screenshot fd = Some f →
  0 < file_size f →
  file_arrayBuffer f = inl t →
  let run := POST request w in
  run.1 = Return (json (error_body (lit "Failed to process screenshot: Failed to convert file to base64")) 500)
  ∧ calls run.2
    = calls w ++ [CallQuery (SelectInstructions true (p_productTypeId p))]
  ∧ db run.2 = db w.
Proof.
  intros Hkey Hurl Hservice Hform p. subst p. cbv zeta.
  intros Hid Hcopy Hq Hrow Hf Hsize Ht.
  rewrite (POST_reaches_generate request fd w row) by done.
  assert (p_screenshot (parse fd) = Some f) as Hp by done.
  generalize dependent (parse fd). intros p _ _ _ Hp.
  unfold generate, convertFileToBase64, arrayBuffer, try_catch, bind.
  rewrite Hp. apply N.ltb_lt in Hsize. rewrite Hsize, Ht. cbn. done.
Qed.

End GenerateSuccess.

Section GenerateAnswers.

Import Generate.

Implicit Types (w : World) (request : Request) (fd : FormData) (p : Parsed).

Lemma parseSuggestions_list c : suggestionList (OpenRouter.parseSuggestions c).
Proof.
  split; [|apply parseSuggestions_isSuggestion].
  rewrite parseSuggestions_eq. cbv zeta.
  destruct (decide _) as [|Hne]; [cbn; lia|].
  rewrite length_take. destruct (filter _ _) as [|l lines]; [done|].
  cbn [length]. lia.
Qed.

Lemma generator_returns_suggestions badCopy instructions image refs context :
  returns_only
    (OpenRouter.generateCopySuggestions badCopy instructions image refs context)
    suggestionList.
Proof.
  unfold OpenRouter.generateCopySuggestions.
  eapply returns_only_bind; [apply returns_only_True|intros apiKey _].
  destruct (negb (truthy_opt apiKey)).
  { apply returns_only_seq, returns_only_throw. }
  eapply returns_only_bind; [apply returns_only_True|intros appUrl _].
  apply returns_only_try_catch.
  - eapply returns_only_bind; [apply returns_only_True|intros response _].
    destruct (negb (resp_ok response)).
    + apply returns_only_seq. repeat case_match; apply returns_only_throw.
    + eapply returns_only_bind; [apply returns_only_True|intros data _].
      destruct (choices data) as [m|cs]; [apply returns_only_throw|].
      destruct (negb (OpenRouter.truthy_content (OpenRouter.contentValue cs))).
      * apply returns_only_seq, returns_only_throw.
      * destruct (OpenRouter.contentValue cs) as [[text|m]|].
        -- apply returns_only_ret, parseSuggestions_list.
        -- apply returns_only_throw.
        -- apply returns_only_ret, parseSuggestions_list.
  - intros t. apply returns_only_seq.
    repeat case_match; apply returns_only_throw.
Qed.

Lemma error_answer message code :
  code = 400 ∨ code = 500 → generateAnswer (json (error_body message) code).
Proof.
  intros Hcode. split; cbn.
  - by right.
  - intros ->. by destruct Hcode.
Qed.

Lemma respond_answer request p suggestions :
  suggestionList suggestions →
  returns_only (respond request p suggestions) generateAnswer.
Proof.
  intros Hlist. unfold respond.
  eapply returns_only_bind; [apply returns_only_True|intros userSession _].
  eapply returns_only_bind; [apply returns_only_True|intros node_env _].
  apply returns_only_seq, returns_only_ret.
  split; cbn; [by left|]. intros _. by exists suggestions.
Qed.

Lemma generate_answer request p productType :
  returns_only (generate request p productType) generateAnswer.
Proof.
  unfold generate.
  eapply (returns_only_bind _ _
            (fun converted => ∀ response, converted = inl response →
                                generateAnswer response)).
  - destruct (p_screenshot p) as [screenshot|];
      [destruct (0 <? file_size screenshot)|].
    + apply returns_only_try_catch.
      * eapply returns_only_bind; [apply returns_only_True|intros b _].
        by apply returns_only_ret.
      * intros t. apply returns_only_seq, returns_only_ret.
        intros response [= <-]. apply error_answer. by right.
    + by apply returns_only_ret.
    + by apply returns_only_ret.
  - intros [response|imageBase64] Hconv.
    + apply returns_only_ret. by apply Hconv.
    + eapply (returns_only_bind _ _
                (fun generated =>
                   match generated with
                   | inl response => generateAnswer response
                   | inr suggestions => suggestionList suggestions
                   end)).
      * apply returns_only_try_catch.
        -- eapply returns_only_bind;
             [apply generator_returns_suggestions|intros s Hs].
           by apply returns_only_ret.
        -- intros t. apply returns_only_seq, returns_only_ret.
           apply error_answer. by right.
      * intros [response|suggestions] Hgen.
        -- by apply returns_only_ret.
        -- by apply respond_answer.
Qed.

Lemma POST_answer request : returns_only (POST request) generateAnswer.
Proof.
  unfold POST. apply returns_only_try_catch.
  - eapply returns_only_bind; [apply returns_only_True|intros openRouterKey _].
    eapply returns_only_bind; [apply returns_only_True|intros supabaseUrl _].
    eapply returns_only_bind; [apply returns_only_True|intros supabaseServiceKey _].
    destruct (negb (truthy_opt openRouterKey)).
    { apply returns_only_seq, returns_only_ret, error_answer. by right. }
    destruct (negb (truthy_opt supabaseUrl) || negb (truthy_opt supabaseServiceKey)).
    { apply returns_only_seq, returns_only_ret, error_answer. by right. }
    eapply returns_only_bind; [apply returns_only_True|intros fd _].
    destruct (negb (truthy_opt (fd_productTypeId fd))).
    { apply returns_only_seq, returns_only_ret, error_answer. by left. }
    destruct (bool_decide _ && negb _).
    { apply returns_only_seq, returns_only_ret, error_answer. by left. }
    unfold load. apply returns_only_seq.
    eapply returns_only_bind; [apply returns_only_True|intros found _].
    destruct (snd found) as [e|].
    + apply returns_only_seq, returns_only_ret, error_answer. by right.
    + destruct (fst found) as [productType|].
      * apply generate_answer.
      * apply returns_only_seq, returns_only_ret, error_answer. by left.
  - intros t. unfold unexpected.
    do 3 apply returns_only_seq.
    eapply returns_only_bind; [apply returns_only_True|intros trace _].
    apply returns_only_ret.
    split; cbn; [by right; right | done].
Qed.

(** X14: The handler answers every request in every world, and never throws.
    The status is 200, 400 or 500. A 200 carries a list of one to three
    suggestions, each of them not empty, on one line and without white
    space at its ends. *)
Theorem generate_always_answers request w :
  ∃ response,
    (POST request w).1 = Return response
    ∧ (status response = 200 ∨ status response = 400 ∨ status response = 500)
    ∧ (status response = 200 →
       ∃ suggestions,
         body response = JObj [("suggestions"%string, JArr (JStr <$> suggestions))]
         ∧ (1 ≤ length suggestions ≤ 3)%nat
         ∧ Forall isSuggestion suggestions).
Proof.
  destruct (POST_returns request w) as [response Hrun].
  exists response. split; [done|].
  apply (POST_answer request w response Hrun).
Qed.

End GenerateAnswers.

(** ** Product types: what the handlers keep *)

Section ProductTypesMore.

Import ProductTypeById.

Implicit Types (w : World) (id : jsstring) (row : ProductTypeRow) (b : Body).

Lemma conflicts_nil (name id : jsstring) (d : DB) :
  (map_to_list
     (filter (fun kv : list N * ProductTypeRow => pt_name kv.2 = name ∧ kv.1 ≠ id)
        (product_types d))).*1 = [] →
  ∀ i r, product_types d !! i = Some r → pt_name r = name → i = id.
Proof.
  intros Hnil i r Hi Hname.
  destruct (decide (i = id)) as [|Hne]; [done|].
  apply fmap_nil_inv in Hnil. apply map_to_list_empty_iff in Hnil.
  assert (filter (fun kv : list N * ProductTypeRow => pt_name kv.2 = name ∧ kv.1 ≠ id)
            (product_types d) !! i = Some r) as Hin.
  { by apply map_lookup_filter_Some_2. }
  rewrite Hnil in Hin. by rewrite lookup_empty in Hin.
Qed.

Lemma uniqueNames_update (d : DB) id row row' :
  uniqueNames d →
  product_types d !! id = Some row →
  (∀ i r, product_types d !! i = Some r → pt_name r = pt_name row' → i = id) →
  uniqueNames {| product_types := <[id := row']> (product_types d);
                 submissions := submissions d |}.
Proof.
  intros Huniq Hrow Hfree i j r r'. cbn.
  destruct (decide (i = id)) as [->|Hi], (decide (j = id)) as [->|Hj]; [done|..].
  - rewrite lookup_insert_eq, lookup_insert_ne by done.
    intros [= <-] Hj' Hname. symmetry. by apply (Hfree j r').
  - rewrite lookup_insert_eq, lookup_insert_ne by done.
    intros Hi' [= <-] Hname. by apply (Hfree i r).
  - rewrite !lookup_insert_ne by done. apply Huniq.
Qed.

(** What a PUT can do to the datastore: nothing, or the update of the row
    [id] to a name that no other row has. *)
Lemma PUT_effect id request w :
  let run := PUT id request w in
  (db run.2 = db w ∧ ∀ response, run.1 = Return response → status response ≠ 200)
  ∨ ∃ row row',
      product_types (db w) !! id = Some row
      ∧ (∀ i r, product_types (db w) !! i = Some r →
                pt_name r = pt_name row' → i = id)
      ∧ pt_created_at row' = pt_created_at row
      ∧ run.1 = Return (json (json_of_product_type id row') 200)
      ∧ db run.2 = {| product_types := <[id := row']> (product_types (db w));
                      submissions := submissions (db w) |}.
Proof.
  cbv zeta.
  unfold PUT, try_catch, bind, request_json, createServerSupabaseClient,
    await_query, run_select_name_conflicts, run_update.
  destruct request as [t|b]; cbn; [left; split; [done|by intros ? [= <-]]|].
  destruct (truthy id); cbn; [|left; split; [done|by intros ? [= <-]]].
  destruct (truthy_opt (name b)); cbn; [|left; split; [done|by intros ? [= <-]]].
  destruct (truthy_opt (instructions b)); cbn;
    [|left; split; [done|by intros ? [= <-]]].
  destruct (truthy_opt (NEXT_PUBLIC_SUPABASE_URL (env w))); cbn;
    [|left; split; [done|by intros ? [= <-]]].
  destruct (truthy_opt (SUPABASE_SERVICE_ROLE_KEY (env w))); cbn;
    [|left; split; [done|by intros ? [= <-]]].
  destruct (query_fault w (SelectIdByNameNotId _ id)) as [|e|t]; cbn;
    [|left; split; [done|by intros ? [= <-]]..].
  match goal with |- context [bool_decide (0 < length ?l)%nat] =>
    destruct l as [|x l'] eqn:Hconflicts end.
  2:{ rewrite bool_decide_eq_true_2 by (cbn; lia). cbn.
      left; split; [done|by intros ? [= <-]]. }
  rewrite bool_decide_eq_false_2 by (cbn; lia). cbn.
  destruct (query_fault w (UpdateProductType _ _ _ _)) as [|e|t]; cbn;
    [|left; split; [done|by intros ? [= <-]]..].
  destruct (product_types (db w) !! id) as [row|] eqn:Hrow; cbn;
    [|left; split; [done|by intros ? [= <-]]].
  right. eexists row, _. split; [done|].
  split; [|split; [|split; reflexivity]].
  - cbn. by apply conflicts_nil.
  - done.
Qed.

(** X15: A PUT keeps the names of the product types distinct, whatever the
    request and however the datastore answers; it neither adds nor removes
    a product type, it leaves the submissions alone, and it changes nothing
    unless it answers 200. *)
Theorem PUT_keeps_names_distinct id request w :
  uniqueNames (db w) →
  let run := PUT id request w in
  uniqueNames (db run.2)
  ∧ (∀ i, is_Some (product_types (db run.2) !! i)
          ↔ is_Some (product_types (db w) !! i))
  ∧ submissions (db run.2) = submissions (db w)
  ∧ (∀ response, run.1 = Return response → status response ≠ 200 →
                 db run.2 = db w).
Proof.
  intros Huniq. cbv zeta.
  destruct (PUT_effect id request w) as [[Hdb Hstatus]|(row & row' & Hrow & Hfree & _ & Hret & Hdb)].
  - rewrite Hdb. split_and!; done.
  - rewrite Hdb. split_and!.
    + by apply (uniqueNames_update _ _ row).
    + intros i. cbn. destruct (decide (i = id)) as [->|Hne].
      * rewrite lookup_insert_eq, Hrow. split; by eexists.
      * by rewrite lookup_insert_ne.
    + done.
    + intros response Hret' Hne. rewrite Hret in Hret'. by injection Hret' as <-.
Qed.

(** X16: A PUT for an id that is not stored is answered 500, not 404:
    [.single()] makes the update report an error when it matched no row,
    the handler throws that error, and its [catch] answers. The details are
    the datastore's message when its errors are instances of [Error], and
    "Unknown error" otherwise. Nothing is stored. *)
Theorem PUT_unknown_id id b w name' instructions' :
  id ≠ [] →
  truthy_opt (NEXT_PUBLIC_SUPABASE_URL (env w)) = true →
  truthy_opt (SUPABASE_SERVICE_ROLE_KEY (env w)) = true →
  name b = Some name' → name' ≠ [] →
  instructions b = Some instructions' → instructions' ≠ [] →
  (∀ q, query_fault w q = Works) →
  product_types (db w) !! id = None →
  (∀ i r, product_types (db w) !! i = Some r → pt_name r ≠ name') →
  let run := PUT id (inr b) w in
  run.1 = Return (json
            (JObj [("error"%string, JStr (lit "Failed to update product type"));
                   ("details"%string,
                    JStr (if client_errors_extend_Error w
                          then lit "JSON object requested, multiple (or no) rows returned"
                          else lit "Unknown error"))])
            500)
  ∧ db run.2 = db w.
Proof.
  intros Hid Hurl Hservice Hname Hname' Hinstr Hinstr' Hq Hrow Hfree.
  cbv zeta.
  destruct id as [|c0 id]; [done|].
  destruct name' as [|c1 name']; [done|].
  destruct instructions' as [|c2 instructions']; [done|].
  unfold PUT, try_catch, bind, request_json, createServerSupabaseClient,
    await_query.
  cbn. rewrite Hname, Hinstr. cbn. rewrite Hurl, Hservice. cbn.
  rewrite Hq. cbn. rewrite (no_conflict _ _ (db w)).
  2:{ intros i r Hi Hr. by destruct (Hfree i r Hi). }
  rewrite bool_decide_eq_false_2 by (cbn; lia). cbn.
  rewrite Hq. unfold run_update. cbn. rewrite Hrow. cbn.
  by destruct (client_errors_extend_Error w).
Qed.

(** What a DELETE can do to the datastore: nothing, or the removal of the
    row [id], which no submission references. *)
Lemma DELETE_effect id w :
  let after := db (DELETE id w).2 in
  after = db w
  ∨ (existsb (references id) (submissions (db w)) = false
     ∧ after = {| product_types := delete id (product_types (db w));
                  submissions := submissions (db w) |}).
Proof.
  cbv zeta.
  unfold DELETE, try_catch, bind, createServerSupabaseClient, await_query,
    run_select_single, run_select_submissions, run_delete.
  destruct (truthy id); cbn; [|by left].
  destruct (truthy_opt (NEXT_PUBLIC_SUPABASE_URL (env w))); cbn; [|by left].
  destruct (truthy_opt (SUPABASE_SERVICE_ROLE_KEY (env w))); cbn; [|by left].
  destruct (query_fault w (SelectIdName id)) as [|e|t]; cbn.
  - destruct (product_types (db w) !! id) as [row|]; cbn; [|by left].
    destruct (query_fault w (SelectSubmissionIds id)) as [|e|t]; cbn.
    + destruct (bool_decide _); cbn; [by left|].
      destruct (query_fault w (DeleteProductType id)) as [|e'|t']; cbn.
      * destruct (existsb (references id) (submissions (db w))) eqn:Hex; cbn.
        -- left. by destruct (client_errors_extend_Error w).
        -- by right.
      * left. by destruct (bool_decide (err_code e' = lit "23503")).
      * left. destruct t' as [m|e'']; cbn; [done|].
        by destruct (bool_decide (err_code e'' = lit "23503")).
    + rewrite bool_decide_eq_false_2 by (cbn; lia). cbn.
      destruct (query_fault w (DeleteProductType id)) as [|e'|t']; cbn.
      * destruct (existsb (references id) (submissions (db w))) eqn:Hex; cbn.
        -- left. by destruct (client_errors_extend_Error w).
        -- by right.
      * left. by destruct (bool_decide (err_code e' = lit "23503")).
      * left. destruct t' as [m|e'']; cbn; [done|].
        by destruct (bool_decide (err_code e'' = lit "23503")).
    + left. destruct t as [m|e'']; cbn; [done|].
      by destruct (bool_decide (err_code e'' = lit "23503")).
  - left. destruct (bool_decide (err_code e = lit "PGRST116")); cbn; [done|].
    by destruct (bool_decide (err_code e = lit "23503")).
  - left. destruct t as [m|e'']; cbn; [done|].
    by destruct (bool_decide (err_code e'' = lit "23503")).
Qed.

(** X17: A DELETE never leaves a submission without its product type: if every
    submission refers to a stored product type before, every one does
    after, whatever the request and however the datastore answers. The
    submissions themselves are never touched, and no other product type is
    removed or changed. *)
Theorem DELETE_keeps_references id w :
  referencesResolve (db w) →
  let after := db (DELETE id w).2 in
  referencesResolve after
  ∧ submissions after = submissions (db w)
  ∧ (∀ i, i ≠ id → product_types after !! i = product_types (db w) !! i).
Proof.
  intros Href. cbv zeta.
  destruct (DELETE_effect id w) as [-> | [Hex ->]]; [done|].
  split_and!; [|done|].
  - intros s Hs. cbn in *.
    assert (product_type_id s ≠ id) as Hne.
    { intros Heq. apply not_true_iff_false in Hex. apply Hex.
      apply existsb_references_true. by exists s. }
    rewrite lookup_delete_ne by done. by apply Href.
  - intros i Hne. cbn. by rewrite lookup_delete_ne.
Qed.

(** X18: When the check of the submissions fails, the handler logs it and
    attempts the delete all the same; for a product type that a submission
    references the foreign key refuses, and the answer is 409 with the
    datastore's message. The row stays. *)
Theorem DELETE_unchecked_is_refused id w row e :
  id ≠ [] →
  truthy_opt (NEXT_PUBLIC_SUPABASE_URL (env w)) = true →
  truthy_opt (SUPABASE_SERVICE_ROLE_KEY (env w)) = true →
  query_fault w (SelectIdName id) = Works →
  query_fault w (SelectSubmissionIds id) = FailsWith e →
  query_fault w (DeleteProductType id) = Works →
  product_types (db w) !! id = Some row →
  (∃ s, s ∈ submissions (db w) ∧ product_type_id s = id) →
  let run := DELETE id w in
  run.1 = Return (json
            (conflict_body
               (lit "This product type is being used by existing submissions and cannot be deleted.")
               (lit "violates foreign key constraint"))
            409)
  ∧ db run.2 = db w
  ∧ console run.2
    = console w
      ++ ["DELETE /api/product-types/[id] - Error checking submissions:"%string;
          "DELETE /api/product-types/[id] - Database delete error:"%string].
Proof.
  intros Hid Hurl Hservice Hq1 Hq2 Hq3 Hrow Href. cbv zeta.
  pose proof (existsb_references_true id _ Href) as Hfk.
  unfold DELETE, try_catch, bind, createServerSupabaseClient, await_query,
    run_select_single, run_delete.
  destruct id as [|c0 id]; [done|]. cbn [truthy negb].
  rewrite Hurl, Hservice. cbn [negb]. rewrite Hq1, Hrow. cbn.
  rewrite Hq2. cbn. rewrite bool_decide_eq_false_2 by (cbn; lia). cbn.
  rewrite Hq3, Hfk. cbn. rewrite bool_decide_eq_true_2 by done. cbn.
  rewrite <- app_assoc. done.
Qed.

End ProductTypesMore.

(** ** Reference files: upload and removal *)

Section UploadMore.

Import UploadReference.

Variable toLowerCase : jsstring → jsstring.

Implicit Types (w : World) (file : File).

Ltac unchanged :=
  split_and!;
  [done | done
  | eexists; split_and!;
    [reflexivity
    | cbn; first [by left | by right; left | by right; right]
    | done]].

(** X19: An upload never changes or removes an object that is stored, never
    touches the datastore, and changes the object store only when it
    answers 200; the answer is always given, with status 200, 400 or
    500. *)
Theorem upload_only_adds request w :
  let run := POST toLowerCase request w in
  (∀ path object, storage w !! path = Some object →
                  storage run.2 !! path = Some object)
  ∧ db run.2 = db w
  ∧ ∃ response,
      run.1 = Return response
      ∧ (status response = 200 ∨ status response = 400 ∨ status response = 500)
      ∧ (status response ≠ 200 → storage run.2 = storage w).
Proof.
  cbv zeta.
  unfold POST, try_catch, bind, request_file, createServerSupabaseClient,
    arrayBuffer, storage_upload, getPublicUrl, getenv, randomUUID,
    Date_now_toISOString.
  destruct request as [t|[file|]]; cbn; [unchanged | | unchanged].
  destruct (array_includes _ _); cbn; [|unchanged].
  destruct (MAX_FILE_SIZE <? file_size file); cbn; [unchanged|].
  destruct (truthy_opt (NEXT_PUBLIC_SUPABASE_URL (env w))) eqn:Hurl; cbn;
    [|unchanged].
  destruct (truthy_opt (SUPABASE_SERVICE_ROLE_KEY (env w))); cbn; [|unchanged].
  destruct (file_arrayBuffer file) as [t|bytes]; cbn; [unchanged|].
  destruct (upload_fault w) as [|e|t]; cbn; [|unchanged..].
  destruct (storage w !! _) as [existing|] eqn:Hpath; cbn; [unchanged|].
  destruct (NEXT_PUBLIC_SUPABASE_URL (env w)) as [[|c url]|]; try done. cbn.
  split_and!; [|done|eexists; split_and!; [done | by left | done]].
  intros path object Hobject.
  rewrite lookup_insert_ne; [done|]. intros <-. by rewrite Hpath in Hobject.
Qed.

End UploadMore.

Section RemoveReference.

Import UploadReferenceDelete.

Implicit Types (w : World).

Lemma splitBy_nonempty sep skip piece s : splitBy sep skip piece s ≠ [].
Proof.
  revert skip piece. induction s as [|c s IH]; intros skip piece; cbn; [done|].
  destruct skip; [|apply IH]. destruct (startsWith sep (c :: s)); [done|apply IH].
Qed.

(** X20: A request without an id or without a URL, or with a URL that does not
    have the bucket's name between slashes exactly once, is answered 400
    and the object store is not asked for anything. *)
Theorem remove_validation answer fileId fileUrl w :
  let run := DELETE answer fileId fileUrl w in
  (truthy_opt fileId = false ∨ truthy_opt fileUrl = false →
     run.1 = Return (json (error_body (lit "File ID and URL are required")) 400)
     ∧ storage run.2 = storage w)
  ∧ (truthy_opt fileId = true → truthy_opt fileUrl = true →
     length (splitOn (lit "/reference-files/") (default [] fileUrl)) ≠ 2%nat →
     run.1 = Return (json (error_body (lit "Invalid file URL format")) 400)
     ∧ storage run.2 = storage w).
Proof.
  cbv zeta. unfold DELETE, try_catch, bind. split.
  - intros [-> | ->]; cbn; [done|]. by destruct (truthy_opt fileId).
  - intros -> -> Hlen. cbn. by rewrite bool_decide_eq_false_2.
Qed.

(** X21: The removal asks the store to drop the key made of the bucket's name
    and the part of the URL after it. The part after the bucket's name is
    the key under which the object is stored, so the object that the URL
    names is still stored after a removal that is answered 200. *)
Theorem remove_leaves_object fileId fileUrl bucketUrl key w :
  fileId ≠ [] →
  truthy_opt (NEXT_PUBLIC_SUPABASE_URL (env w)) = true →
  truthy_opt (SUPABASE_SERVICE_ROLE_KEY (env w)) = true →
  splitOn (lit "/reference-files/") fileUrl = [bucketUrl; key] →
  let run := DELETE Works (Some fileId) (Some fileUrl) w in
  run.1 = Return (json (JObj [("message"%string,
                               JStr (lit "File deleted successfully"))]) 200)
  ∧ storage run.2 = delete (lit "reference-files/" ++ key) (storage w)
  ∧ storage run.2 !! key = storage w !! key.
Proof.
  intros Hid Hurl Hservice Hsplit. cbv zeta.
  assert (truthy fileUrl = true) as Hne
    by (destruct fileUrl; [discriminate Hsplit | done]).
  assert (truthy fileId = true) as Hid' by (by destruct fileId).
  unfold DELETE, try_catch, bind, createServerSupabaseClient, storage_remove.
  change (default [] (Some fileUrl)) with fileUrl.
  cbn [truthy_opt]. rewrite Hid', Hne, Hsplit. cbn.
  rewrite bool_decide_eq_true_2 by done. cbn.
  rewrite Hurl, Hservice. cbn. split_and!; [done | done |].
  apply lookup_delete_ne. intros Heq.
  apply (f_equal length) in Heq. rewrite length_app in Heq.
  assert (length (lit "reference-files/") = 16%nat) as Hlen by (by vm_compute).
  lia.
Qed.

End RemoveReference.

(** ** The collection of product types: creation and update *)

Section Collection.

Import ProductTypes.

Implicit Types (w : World) (d : DB) (row : ProductTypeRow).

Lemma named_none (name : jsstring) d :
  (∀ i r, product_types d !! i = Some r → pt_name r ≠ name) →
  (map_to_list
     (filter (fun kv : list N * ProductTypeRow => pt_name kv.2 = name)
        (product_types d))).*1 = [].
Proof.
  intros Hfree.
  replace (filter _ (product_types d)) with (∅ : gmap (list N) ProductTypeRow).
  - by rewrite map_to_list_empty.
  - symmetry. apply map_empty. intros i. apply map_lookup_filter_None_2.
    destruct (product_types d !! i) as [r|] eqn:Hi; [right|by left].
    intros r' [= <-] Hname. cbn in *. by apply (Hfree i r).
Qed.

Lemma named_one (name : jsstring) d i r :
  uniqueNames d →
  product_types d !! i = Some r → pt_name r = name →
  (map_to_list
     (filter (fun kv : list N * ProductTypeRow => pt_name kv.2 = name)
        (product_types d))).*1 = [i].
Proof.
  intros Huniq Hi Hname.
  replace (filter _ (product_types d)) with ({[ i := r ]} : gmap (list N) ProductTypeRow).
  - by rewrite map_to_list_singleton.
  - symmetry. apply map_eq. intros j.
    destruct (decide (j = i)) as [->|Hne].
    + rewrite lookup_singleton_eq. by apply map_lookup_filter_Some_2.
    + rewrite lookup_singleton_ne by done. apply map_lookup_filter_None_2.
      destruct (product_types d !! j) as [r'|] eqn:Hj; [right|by left].
      intros r'' [= <-] Hname'. cbn in *. apply Hne.
      apply (Huniq j i r' r); congruence.
Qed.

Lemma named_nil_inv (name : jsstring) d :
  (map_to_list
     (filter (fun kv : list N * ProductTypeRow => pt_name kv.2 = name)
        (product_types d))).*1 = [] →
  ∀ i r, product_types d !! i = Some r → pt_name r ≠ name.
Proof.
  intros Hnil i r Hi Hname.
  apply fmap_nil_inv in Hnil. apply map_to_list_empty_iff in Hnil.
  assert (filter (fun kv : list N * ProductTypeRow => pt_name kv.2 = name)
            (product_types d) !! i = Some r) as Hin
    by (by apply map_lookup_filter_Some_2).
  rewrite Hnil in Hin. by rewrite lookup_empty in Hin.
Qed.

Lemma uniqueNames_insert d id row :
  uniqueNames d →
  product_types d !! id = None →
  (∀ i r, product_types d !! i = Some r → pt_name r ≠ pt_name row) →
  uniqueNames {| product_types := <[id := row]> (product_types d);
                 submissions := submissions d |}.
Proof.
  intros Huniq Hfresh Hfree i j r r'. cbn.
  destruct (decide (i = id)) as [->|Hi], (decide (j = id)) as [->|Hj]; [done|..].
  - rewrite lookup_insert_eq, lookup_insert_ne by done.
    intros [= <-] Hj' Hname. by destruct (Hfree j r').
  - rewrite lookup_insert_eq, lookup_insert_ne by done.
    intros Hi' [= <-] Hname. by destruct (Hfree i r).
  - rewrite !lookup_insert_ne by done. apply Huniq.
Qed.

(** X22: Creation, with the datastore answering: a name that a product type
    has is refused with 409 and nothing is stored; a name that none has is
    stored in a new row under the id and the time the datastore gives, with
    the reference files of the request or none, and the names stay
    distinct. *)
Theorem create_product_type answers b w name' instructions' :
  truthy_opt (NEXT_PUBLIC_SUPABASE_URL (env w)) = true →
  truthy_opt (SUPABASE_SERVICE_ROLE_KEY (env w)) = true →
  ProductTypeById.name b = Some name' → name' ≠ [] →
  ProductTypeById.instructions b = Some instructions' → instructions' ≠ [] →
  check_answer answers = Works →
  uniqueNames (db w) →
  let run := POST answers (inr b) w in
  (∀ i r, product_types (db w) !! i = Some r → pt_name r = name' →
     run.1 = Return (json (error_body (lit "A product type with this name already exists")) 409)
     ∧ db run.2 = db w)
  ∧ ((∀ i r, product_types (db w) !! i = Some r → pt_name r ≠ name') →
     insert_answer answers = Works →
     product_types (db w) !! uuid w = None →
     let row := {| pt_name := name'; pt_instructions := instructions';
                   pt_reference_files :=
                     Some (ProductTypeById.or_empty (ProductTypeById.referenceFiles b));
                   pt_created_at := now w |} in
     run.1 = Return (json (ProductTypeById.json_of_product_type (uuid w) row) 200)
     ∧ db run.2 = {| product_types := <[uuid w := row]> (product_types (db w));
                     submissions := submissions (db w) |}
     ∧ uniqueNames (db run.2)).
Proof.
  intros Hurl Hservice Hname Hname' Hinstr Hinstr' Hcheck Huniq. cbv zeta.
  destruct name' as [|c1 name']; [done|].
  destruct instructions' as [|c2 instructions']; [done|].
  unfold POST, try_catch, bind, ProductTypeById.request_json,
    createServerSupabaseClient, await_answer, run_select_by_name.
  cbn. rewrite Hname, Hinstr. cbn. rewrite Hurl, Hservice. cbn.
  rewrite Hcheck. split.
  - intros i r Hi Hr. rewrite (named_one _ _ i r) by done. done.
  - intros Hfree Hinsert Hfresh. rewrite (named_none _ _ Hfree). cbn.
    rewrite Hinsert. unfold run_insert. cbn. rewrite Hfresh. cbn.
    split_and!; [done | done |].
    by apply uniqueNames_insert.
Qed.

(** X23: The name check's error is not looked at. When the check fails, the
    handler sees no row and goes on to insert: a name that a product type
    already has is stored a second time, and the answer is 200. *)
Theorem create_after_failed_check answers b w name' instructions' e i r :
  truthy_opt (NEXT_PUBLIC_SUPABASE_URL (env w)) = true →
  truthy_opt (SUPABASE_SERVICE_ROLE_KEY (env w)) = true →
  ProductTypeById.name b = Some name' → name' ≠ [] →
  ProductTypeById.instructions b = Some instructions' → instructions' ≠ [] →
  check_answer answers = FailsWith e →
  insert_answer answers = Works →
  product_types (db w) !! uuid w = None →
  product_types (db w) !! i = Some r → pt_name r = name' →
  let run := POST answers (inr b) w in
  (∃ response, run.1 = Return response ∧ status response = 200)
  ∧ product_types (db run.2) !! i = Some r
  ∧ (∃ r', product_types (db run.2) !! uuid w = Some r' ∧ pt_name r' = name')
  ∧ ¬ uniqueNames (db run.2).
Proof.
  intros Hurl Hservice Hname Hname' Hinstr Hinstr' Hcheck Hinsert Hfresh Hi Hr.
  cbv zeta.
  assert (i ≠ uuid w) as Hne by (intros ->; by rewrite Hfresh in Hi).
  destruct name' as [|c1 name']; [done|].
  destruct instructions' as [|c2 instructions']; [done|].
  unfold POST, try_catch, bind, ProductTypeById.request_json,
    createServerSupabaseClient, await_answer.
  cbn. rewrite Hname, Hinstr. cbn. rewrite Hurl, Hservice. cbn.
  rewrite Hcheck. cbn. rewrite Hinsert. unfold run_insert. cbn. rewrite Hfresh. cbn.
  split_and!.
  - by eexists.
  - by rewrite lookup_insert_ne.
  - eexists. by rewrite lookup_insert_eq.
  - intros Huniq. apply Hne.
    eapply (Huniq i (uuid w)); cbn.
    + by rewrite lookup_insert_ne.
    + by rewrite lookup_insert_eq.
    + done.
Qed.

(** What the update of the collection route can do to the datastore:
    nothing, or the change of the name and the instructions of one row. *)
Lemma collection_PUT_effect check update request w :
  let after := db (PUT check update request w).2 in
  after = db w
  ∨ ∃ id row name' instructions',
      product_types (db w) !! id = Some row
      ∧ after = {| product_types :=
                     <[id := {| pt_name := name'; pt_instructions := instructions';
                                pt_reference_files := pt_reference_files row;
                                pt_created_at := pt_created_at row |}]>
                       (product_types (db w));
                   submissions := submissions (db w) |}.
Proof.
  cbv zeta.
  unfold PUT, try_catch, bind, request_put, createServerSupabaseClient,
    await_answer, run_select_other_by_name, run_update_basic.
  destruct request as [t|b]; cbn; [by left|].
  destruct (truthy_opt (put_id b)); cbn; [|by left].
  destruct (truthy_opt (put_name b)); cbn; [|by left].
  destruct (truthy_opt (put_instructions b)); cbn; [|by left].
  destruct (truthy_opt (NEXT_PUBLIC_SUPABASE_URL (env w))); cbn; [|by left].
  destruct (truthy_opt (SUPABASE_SERVICE_ROLE_KEY (env w))); cbn; [|by left].
  destruct check as [|e|t]; cbn; [| |by left].
  - destruct (single _ _) as [[existing|] err] eqn:Hsingle; cbn; [by left|].
    destruct update as [|e'|t']; cbn; [|by left..].
    destruct (product_types (db w) !! default [] (put_id b)) as [row|] eqn:Hrow;
      cbn; [|by left].
    right. by eexists _, row, _, _.
  - destruct update as [|e'|t']; cbn; [|by left..].
    destruct (product_types (db w) !! default [] (put_id b)) as [row|] eqn:Hrow;
      cbn; [|by left].
    right. by eexists _, row, _, _.
Qed.

(** X24: The update of the collection route writes the name and the
    instructions only: whatever the request and however the datastore
    answers, every product type keeps its reference files and its creation
    time, none is added or removed, and the submissions are as they were.
    The update by id, in contrast, replaces the reference files. *)
Theorem collection_PUT_keeps_reference_files check update request w :
  let after := db (PUT check update request w).2 in
  (∀ i r, product_types (db w) !! i = Some r →
          ∃ r', product_types after !! i = Some r'
                ∧ pt_reference_files r' = pt_reference_files r
                ∧ pt_created_at r' = pt_created_at r)
  ∧ (∀ i, product_types (db w) !! i = None → product_types after !! i = None)
  ∧ submissions after = submissions (db w).
Proof.
  cbv zeta.
  destruct (collection_PUT_effect check update request w)
    as [-> | (id & row & name' & instructions' & Hrow & ->)].
  - split_and!; [|done|done]. intros i r Hi. by exists r.
  - cbn. split_and!; [| |done].
    + intros i r Hi. destruct (decide (i = id)) as [->|Hne].
      * rewrite lookup_insert_eq. eexists. split; [done|].
        rewrite Hrow in Hi. by injection Hi as <-.
      * rewrite lookup_insert_ne by done. by exists r.
    + intros i Hi. destruct (decide (i = id)) as [->|Hne].
      * by rewrite Hrow in Hi.
      * by rewrite lookup_insert_ne.
Qed.

(** X25: Creation followed by the removal of the created id gives back the
    datastore as it was, when every submission refers to a stored product
    type: the new id is then referenced by none, so the removal is not
    refused. *)
Theorem create_then_delete answers b w name' instructions' :
  truthy_opt (NEXT_PUBLIC_SUPABASE_URL (env w)) = true →
  truthy_opt (SUPABASE_SERVICE_ROLE_KEY (env w)) = true →
  ProductTypeById.name b = Some name' → name' ≠ [] →
  ProductTypeById.instructions b = Some instructions' → instructions' ≠ [] →
  check_answer answers = Works →
  insert_answer answers = Works →
  (∀ q, query_fault w q = Works) →
  (∀ i r, product_types (db w) !! i = Some r → pt_name r ≠ name') →
  uuid w ≠ [] →
  product_types (db w) !! uuid w = None →
  referencesResolve (db w) →
  let created := POST answers (inr b) w in
  let removed := ProductTypeById.DELETE (uuid w) created.2 in
  removed.1
  = Return (json (JObj [("message"%string,
                         JStr (lit "Product type deleted successfully"));
                        ("deletedId"%string, JStr (uuid w));
                        ("deletedName"%string, JStr name')]) 200)
  ∧ db removed.2 = db w.
Proof.
  intros Hurl Hservice Hname Hname' Hinstr Hinstr' Hcheck Hinsert Hq Hfree
    Hid Hfresh Href.
  cbv zeta.
  assert (∀ s, s ∈ submissions (db w) → product_type_id s ≠ uuid w) as Hnone.
  { intros s Hs Heq. destruct (Href s Hs) as [r Hr].
    rewrite Heq, Hfresh in Hr. done. }
  assert (POST answers (inr b) w
          = (Return (json (ProductTypeById.json_of_product_type (uuid w)
                             {| pt_name := name'; pt_instructions := instructions';
                                pt_reference_files :=
                                  Some (ProductTypeById.or_empty
                                          (ProductTypeById.referenceFiles b));
                                pt_created_at := now w |}) 200),
             with_db
               {| product_types :=
                    <[uuid w := {| pt_name := name';
                                   pt_instructions := instructions';
                                   pt_reference_files :=
                                     Some (ProductTypeById.or_empty
                                             (ProductTypeById.referenceFiles b));
                                   pt_created_at := now w |}]>
                      (product_types (db w));
                  submissions := submissions (db w) |}
               (with_db (db w) w))) as ->.
  { destruct name' as [|c1 name']; [done|].
    destruct instructions' as [|c2 instructions']; [done|].
    unfold POST, try_catch, bind, ProductTypeById.request_json,
      createServerSupabaseClient, await_answer, run_select_by_name.
    cbn. rewrite Hname, Hinstr. cbn. rewrite Hurl, Hservice. cbn.
    rewrite Hcheck. rewrite (named_none _ _ Hfree). cbn.
    rewrite Hinsert. unfold run_insert. cbn. rewrite Hfresh. cbn. done. }
  unfold ProductTypeById.DELETE, try_catch, bind, createServerSupabaseClient,
    await_query, run_select_single, run_select_submissions, run_delete.
  assert (truthy (uuid w) = true) as Htruthy by (by destruct (uuid w)).
  cbn. rewrite Htruthy. cbn. rewrite Hurl, Hservice. cbn.
  rewrite Hq. cbn. rewrite lookup_insert_eq. cbn. rewrite Hq. cbn.
  rewrite bool_decide_eq_false_2.
  2:{ rewrite take_1_filter_length. intros (s & Hs & Heq). by apply (Hnone s). }
  cbn. rewrite Hq. cbn. rewrite existsb_references_false by done. cbn.
  split; [done|]. rewrite delete_insert_id by done. by destruct (db w).
Qed.

End Collection.

(** ** The session of a request for the submissions *)

Section Session.

Import Submissions.

Lemma split_no_sep_id sep s : sep ∉ s → split sep s = [s].
Proof.
  induction s as [|c s IH]; [done|]. intros Hsep. cbn.
  destruct (N.eqb_spec c sep) as [->|Hc]; [set_solver|].
  rewrite IH by set_solver. done.
Qed.

Lemma split_app_sep sep s t :
  sep ∉ s → split sep (s ++ sep :: t) = s :: split sep t.
Proof.
  induction s as [|c s IH]; intros Hsep; cbn.
  - by rewrite N.eqb_refl.
  - destruct (N.eqb_spec c sep) as [->|Hc]; [set_solver|].
    rewrite IH by set_solver. done.
Qed.

Lemma split_cons_ne sep c s piece pieces :
  c ≠ sep → split sep s = piece :: pieces →
  split sep (c :: s) = (c :: piece) :: pieces.
Proof.
  intros Hc Hs. cbn [split]. by rewrite (proj2 (N.eqb_neq _ _) Hc), Hs.
Qed.

(** The pieces of a [Cookie] header: the first cookie, and each of the
    others after the space that follows the semicolon. *)
Lemma split_cookies (c : jsstring) (cs : list jsstring) :
  Forall (fun c => 59 ∉ c) (c :: cs) →
  split 59 (join (lit "; ") (c :: cs)) = c :: ((fun c => 32 :: c) <$> cs).
Proof.
  revert c. induction cs as [|c' cs IH]; intros c Hall.
  - cbn. apply split_no_sep_id. by inversion Hall.
  - inversion Hall as [|? ? Hc Hrest]; subst.
    change (join (lit "; ") (c :: c' :: cs))
      with (c ++ lit "; " ++ join (lit "; ") (c' :: cs)).
    change (lit "; ") with [59; 32]. cbn [app].
    rewrite split_app_sep by done. f_equal.
    by apply split_cons_ne, IH.
Qed.

Lemma trimStart_app_solid s t c :
  head t = Some c → isWhiteSpace c = false →
  trimStart (s ++ t) = trimStart s ++ t.
Proof.
  intros Ht Hc. induction s as [|a s IH]; cbn.
  - destruct t as [|b t]; [done|]. cbn in *. injection Ht as ->. by rewrite Hc.
  - by destruct (isWhiteSpace a).
Qed.

Lemma trim_session_cookie value :
  startsWith (lit "user_session=") (trim (lit "user_session=" ++ value)) = true.
Proof.
  apply startsWith_spec. unfold trim.
  assert (trimStart (lit "user_session=" ++ value) = lit "user_session=" ++ value)
    as -> by done.
  unfold trimEnd. rewrite reverse_app.
  rewrite (trimStart_app_solid _ _ 61) by done.
  rewrite reverse_app, reverse_involutive. by eexists.
Qed.

Lemma find_cookie (before : list jsstring) (c : jsstring) (after : list jsstring)
    (f : jsstring → bool) :
  Forall (fun c => f c = false) before → f c = true →
  List.find f (before ++ c :: after) = Some c.
Proof.
  intros Hbefore Hc. induction Hbefore as [|b before Hb _ IH]; cbn.
  - by rewrite Hc.
  - by rewrite Hb.
Qed.

Lemma session_value (value : jsstring) :
  61 ∉ value →
  split 61 (lit "user_session=" ++ value) !! 1%nat = Some value
  ∧ split 61 (32 :: lit "user_session=" ++ value) !! 1%nat = Some value.
Proof.
  intros Hvalue.
  assert (split 61 (lit "user_session=" ++ value) = [lit "user_session"; value])
    as Hsplit.
  { change (lit "user_session=") with (lit "user_session" ++ [61]).
    rewrite <- app_assoc. cbn [app].
    rewrite split_app_sep by (apply (bool_decide_unpack _); by vm_compute).
    by rewrite split_no_sep_id. }
  split; [by rewrite Hsplit|].
  assert (32 ≠ 61) as Hne by done.
  by rewrite (split_cons_ne 61 32 _ _ _ Hne Hsplit).
Qed.

(** X26: The session that the generation endpoint sets is the one this route
    reads: from a [Cookie] header that lists the cookies with "; " between
    them, the handler takes the value of the first cookie named
    [user_session], wherever it stands among the others, provided the value
    has no [=] in it, as a UUID has none. *)
Theorem session_cookie_is_read (before after : list jsstring) (value : jsstring) :
  Forall (fun c => (59 ∉ c)
                   ∧ startsWith (lit "user_session=") (trim c) = false) before →
  Forall (fun c => 59 ∉ c) after →
  59 ∉ value → 61 ∉ value →
  userSession
    (Some (join (lit "; ")
             (before ++ [lit "user_session=" ++ value] ++ after)))
  = Some value.
Proof.
  intros Hbefore Hafter H59 H61. unfold userSession.
  assert (59 ∉ lit "user_session=" ++ value) as Hcookie.
  { rewrite elem_of_app. intros [Hin|Hin]; [|done].
    revert Hin. apply (bool_decide_unpack _). by vm_compute. }
  destruct (session_value value H61) as [Hfirst Hlater].
  destruct before as [|b before].
  - cbn [app]. rewrite split_cookies by (by constructor).
    cbn [List.find]. rewrite trim_session_cookie. done.
  - inversion Hbefore as [|? ? [Hb59 Hb] Hrest]; subst.
    cbn [app]. rewrite split_cookies.
    2:{ constructor; [done|]. apply Forall_app. split.
        - eapply Forall_impl; [exact Hrest|]. by intros c [? _].
        - by constructor. }
    rewrite fmap_app, fmap_cons, app_comm_cons.
    rewrite (find_cookie (b :: ((fun c => 32 :: c) <$> before))
               (32 :: lit "user_session=" ++ value)).
    + done.
    + constructor; [done|]. apply Forall_fmap.
      eapply Forall_impl; [exact Hrest|]. intros c [_ Hc]. exact Hc.
    + exact (trim_session_cookie value).
Qed.

Lemma session_cookie_is_read_witness :
  userSession
    (Some (lit "theme=dark; user_session=00000000-0000-4000-8000-000000000000; lang=en"))
  = Some (lit "00000000-0000-4000-8000-000000000000").
Proof.
  apply (session_cookie_is_read [lit "theme=dark"] [lit "lang=en"]
           (lit "00000000-0000-4000-8000-000000000000")).
  - constructor; [|done]. split; [|by vm_compute].
    apply (bool_decide_unpack _). by vm_compute.
  - constructor; [|done]. apply (bool_decide_unpack _). by vm_compute.
  - apply (bool_decide_unpack _). by vm_compute.
  - apply (bool_decide_unpack _). by vm_compute.
Defined.

End Session.

(** ** lib/utils: slugs *)

Section Slug.

Import Utils.

Variable toLowerCase : jsstring → jsstring.

(** Two facts of [String.prototype.toLowerCase]: its result has no letter
    from A to Z, and it keeps a string of small letters, digits,
    underscores and hyphens. *)
Hypothesis lower_no_capital :
  ∀ s c, c ∈ toLowerCase s → ¬ (65 ≤ c ≤ 90).
Hypothesis lower_fixes_slugs :
  ∀ s, Forall isSlugChar s → toLowerCase s = s.

Lemma slugify_chars text : Forall isSlugChar (slugify toLowerCase text).
Proof.
  unfold slugify. apply Forall_forall. intros c Hc.
  apply list_elem_of_filter in Hc as [HP Hc].
  apply list_elem_of_fmap in Hc as (c' & Heq & Hc').
  pose proof (lower_no_capital _ _ Hc') as Hcap. subst c. cbv beta in HP |- *.
  unfold isSlugChar. destruct (decide (c' = 32)) as [Heq|Hne].
  { rewrite Heq. cbn. by right; right; right. }
  rewrite (proj2 (N.eqb_neq _ _) Hne) in HP |- *.
  destruct HP as [Hword | ->]; [|by right; right; right].
  unfold isWordChar in Hword.
  repeat (apply orb_prop in Hword as [Hword|Hword]);
    try (apply andb_prop in Hword as [H1 H2];
         apply N.leb_le in H1; apply N.leb_le in H2);
    try apply N.eqb_eq in Hword; lia.
Qed.

(** X27: A slug is made of small letters, digits, underscores and hyphens
    only, and making the slug of a slug changes nothing. *)
Theorem slugify_idempotent text :
  Forall isSlugChar (slugify toLowerCase text)
  ∧ slugify toLowerCase (slugify toLowerCase text) = slugify toLowerCase text.
Proof.
  split; [apply slugify_chars|].
  pose proof (slugify_chars text) as Hslug.
  generalize dependent (slugify toLowerCase text). intros slug Hslug.
  unfold slugify at 1. rewrite lower_fixes_slugs by done.
  induction Hslug as [|c slug Hc _ IH]; [done|].
  rewrite fmap_cons.
  assert (c ≠ 32) as Hne by (unfold isSlugChar in Hc; lia).
  rewrite (proj2 (N.eqb_neq _ _) Hne).
  rewrite filter_cons_True; [by rewrite IH|].
  unfold isSlugChar in Hc. unfold isWordChar.
  destruct Hc as [?|[?|[?|?]]]; [left..|by right].
  - apply orb_true_intro. right. apply andb_true_intro. split; apply N.leb_le; lia.
  - apply orb_true_intro. left. apply orb_true_intro. left.
    apply orb_true_intro. left. apply andb_true_intro. split; apply N.leb_le; lia.
  - apply orb_true_intro. left. apply orb_true_intro. right. apply N.eqb_eq. lia.
Qed.

End Slug.

Lemma asciiToLowerCase_no_capital s c :
  c ∈ asciiToLowerCase s → ¬ (65 ≤ c ≤ 90).
Proof.
  unfold asciiToLowerCase. intros (c' & Heq & _)%list_elem_of_fmap.
  subst c. cbv beta.
  destruct (_ && _) eqn:E; [|apply andb_false_iff in E as [?%N.leb_gt|?%N.leb_gt]];
    [apply andb_prop in E as [?%N.leb_le ?%N.leb_le]|..]; lia.
Qed.

Lemma asciiToLowerCase_fixes_slugs s :
  Forall isSlugChar s → asciiToLowerCase s = s.
Proof.
  unfold asciiToLowerCase. induction 1 as [|c s Hc _ IH]; [done|].
  rewrite fmap_cons, IH. f_equal.
  unfold isSlugChar in Hc.
  destruct (_ && _) eqn:E; [|done].
  apply andb_prop in E as [?%N.leb_le ?%N.leb_le]. lia.
Qed.

Lemma slugify_idempotent_witness :
  Utils.slugify asciiToLowerCase
    (Utils.slugify asciiToLowerCase (lit "Mobile App (v2)!"))
  = lit "mobile-app-v2".
Proof.
  rewrite (proj2 (slugify_idempotent asciiToLowerCase
                    asciiToLowerCase_no_capital asciiToLowerCase_fixes_slugs
                    (lit "Mobile App (v2)!"))).
  by vm_compute.
Defined.

(** ** The properties above on the fixture *)

Lemma fixture_uniqueNames : uniqueNames Fixture.database.
Proof.
  assert (∀ i r, product_types Fixture.database !! i = Some r →
                 (i = lit "pt-saas" ∧ r = Fixture.saas)
                 ∨ (i = lit "pt-mobile" ∧ r = Fixture.mobile)) as Hrows.
  { intros i r Hi. unfold Fixture.database in Hi. cbn in Hi.
    destruct (decide (i = lit "pt-saas")) as [->|Hne1].
    { rewrite lookup_insert_eq in Hi. left. split; congruence. }
    rewrite lookup_insert_ne in Hi by done.
    destruct (decide (i = lit "pt-mobile")) as [->|Hne2].
    { rewrite lookup_insert_eq in Hi. right. split; congruence. }
    rewrite lookup_insert_ne in Hi by done. by rewrite lookup_empty in Hi. }
  intros i j r r' Hi Hj Hname.
  destruct (Hrows i r Hi) as [[-> ->]|[-> ->]],
           (Hrows j r' Hj) as [[-> ->]|[-> ->]];
    try done; by vm_compute in Hname.
Qed.

Lemma fixture_referencesResolve : referencesResolve Fixture.database.
Proof.
  intros s Hs. apply list_elem_of_singleton in Hs as ->. by eexists.
Qed.

Lemma fixture_readable : readable (Generate.parse (Scenario.improve None)).
Proof. intros f Hf. discriminate Hf. Qed.

Lemma fixture_copy_given (screenshot : option File) :
  Generate.p_mode (Generate.parse (Scenario.improve screenshot)) = lit "improve_copy" →
  Generate.p_badCopy (Generate.parse (Scenario.improve screenshot)) ≠ [].
Proof. intros _. by vm_compute. Qed.

Lemma fixture_names i r :
  product_types Fixture.database !! i = Some r →
  pt_name r = lit "SaaS" ∨ pt_name r = lit "Mobile App".
Proof.
  unfold Fixture.database. cbn.
  destruct (decide (i = lit "pt-saas")) as [->|Hne1].
  { rewrite lookup_insert_eq. intros [= <-]. by left. }
  rewrite lookup_insert_ne by done.
  destruct (decide (i = lit "pt-mobile")) as [->|Hne2].
  { rewrite lookup_insert_eq. intros [= <-]. by right. }
  rewrite lookup_insert_ne by done. by rewrite lookup_empty.
Qed.


Lemma lookup_fallback_drops_reference_files_witness :
  let request := Fixture.request_of (Scenario.improve None) in
  let w := Fixture.failing (SelectInstructions true (lit "pt-saas"))
             (FailsWith Scenario.column_missing) Fixture.healthy in
  pt_reference_files Fixture.saas = Some [Fixture.style_guide]
  ∧ (Generate.POST request w).1
    = Return (Generate.success request w
                [lit "Something went wrong."; lit "We hit a snag.";
                 lit "Please try again."]).
Proof.
  intros request w. split; [reflexivity|].
  refine (proj1 (lookup_fallback_drops_reference_files request
                   (Scenario.improve None) w Scenario.column_missing Fixture.saas
                   (Fixture.ok_response Fixture.three_lines)
                   (Fixture.completion Fixture.three_lines) Fixture.three_lines
                   eq_refl eq_refl eq_refl eq_refl eq_refl
                   (fixture_copy_given None) eq_refl eq_refl eq_refl
                   fixture_readable eq_refl eq_refl eq_refl eq_refl _)).
  by vm_compute.
Defined.

Lemma session_of_request_witness :
  ∃ response stored,
    (Generate.POST (Scenario.returning []) Fixture.healthy).1 = Return response
    ∧ submissions (db (Generate.POST (Scenario.returning []) Fixture.healthy).2)
      = [Fixture.earlier; stored]
    ∧ user_session stored = uuid Fixture.healthy
    ∧ set_cookie response = None.
Proof.
  pose proof (session_of_request (Scenario.returning []) (Scenario.improve None)
                Fixture.healthy Fixture.saas
                (Fixture.ok_response Fixture.three_lines)
                (Fixture.completion Fixture.three_lines) Fixture.three_lines
                eq_refl eq_refl eq_refl eq_refl eq_refl
                (fixture_copy_given None) (fun _ => eq_refl) eq_refl
                fixture_readable eq_refl eq_refl eq_refl eq_refl
                ltac:(by vm_compute)) as H.
  cbv zeta in H.
  destruct H as (response & stored & Hret & _ & Hstored & _ & _ & Hempty).
  exists response, stored.
  destruct (Hempty eq_refl) as [Hsession Hcookie]. by split_and!.
Defined.

Lemma empty_screenshot_witness :
  ∃ stored,
    submissions
      (db (Generate.POST (Fixture.request_of (Scenario.improve (Some Scenario.blank)))
             Fixture.healthy).2)
    = [Fixture.earlier; stored]
    ∧ has_screenshot stored = true.
Proof.
  pose proof (empty_screenshot
                (Fixture.request_of (Scenario.improve (Some Scenario.blank)))
                (Scenario.improve (Some Scenario.blank))
                Fixture.healthy Fixture.saas
                (Fixture.ok_response Fixture.three_lines)
                (Fixture.completion Fixture.three_lines) Fixture.three_lines
                Scenario.blank
                eq_refl eq_refl eq_refl eq_refl eq_refl
                (fixture_copy_given _) (fun _ => eq_refl) eq_refl
                eq_refl eq_refl eq_refl eq_refl eq_refl eq_refl
                ltac:(by vm_compute)) as H.
  cbv zeta in H.
  destruct H as (stored & req & text & Hstored & Hshot & _).
  exists stored. by split.
Defined.

Lemma unreadable_screenshot_witness :
  (Generate.POST (Fixture.request_of (Scenario.improve (Some Scenario.broken)))
     Fixture.healthy).1
  = Return (json (error_body (lit "Failed to process screenshot: Failed to convert file to base64")) 500).
Proof.
  refine (proj1 (unreadable_screenshot
                   (Fixture.request_of (Scenario.improve (Some Scenario.broken)))
                   (Scenario.improve (Some Scenario.broken))
                   Fixture.healthy Fixture.saas Scenario.broken
                   (JsError (lit "The file could not be read"))
                   eq_refl eq_refl eq_refl eq_refl eq_refl
                   (fixture_copy_given _) eq_refl eq_refl eq_refl _ eq_refl)).
  by vm_compute.
Defined.

Lemma PUT_keeps_names_distinct_witness :
  uniqueNames
    (db (ProductTypeById.PUT (lit "pt-mobile") (inr (Scenario.named "Mobile"))
           Fixture.healthy).2).
Proof.
  exact (proj1 (PUT_keeps_names_distinct (lit "pt-mobile")
                  (inr (Scenario.named "Mobile")) Fixture.healthy
                  fixture_uniqueNames)).
Defined.

Lemma PUT_unknown_id_witness :
  (ProductTypeById.PUT (lit "pt-gone") (inr (Scenario.named "Gone"))
     Fixture.healthy).1
  = Return (json
      (JObj [("error"%string, JStr (lit "Failed to update product type"));
             ("details"%string,
              JStr (lit "JSON object requested, multiple (or no) rows returned"))])
      500).
Proof.
  refine (proj1 (PUT_unknown_id (lit "pt-gone") (Scenario.named "Gone")
                   Fixture.healthy (lit "Gone") (lit "Be brief.")
                   _ eq_refl eq_refl eq_refl _ eq_refl _ (fun _ => eq_refl)
                   eq_refl _)); try done.
  intros i r Hi Hname. destruct (fixture_names i r Hi) as [H|H];
    rewrite H in Hname; by vm_compute in Hname.
Defined.

Lemma DELETE_keeps_references_witness :
  referencesResolve (db (ProductTypeById.DELETE (lit "pt-saas") Fixture.healthy).2).
Proof.
  exact (proj1 (DELETE_keeps_references (lit "pt-saas") Fixture.healthy
                  fixture_referencesResolve)).
Defined.

Lemma DELETE_unchecked_is_refused_witness :
  let w := Fixture.failing (SelectSubmissionIds (lit "pt-saas"))
             (FailsWith Fixture.storage_down) Fixture.healthy in
  (ProductTypeById.DELETE (lit "pt-saas") w).1
  = Return (json
      (ProductTypeById.conflict_body
         (lit "This product type is being used by existing submissions and cannot be deleted.")
         (lit "violates foreign key constraint"))
      409)
  ∧ db (ProductTypeById.DELETE (lit "pt-saas") w).2 = Fixture.database.
Proof.
  intros w.
  destruct (DELETE_unchecked_is_refused (lit "pt-saas") w Fixture.saas
              Fixture.storage_down ltac:(done) eq_refl eq_refl eq_refl eq_refl
              eq_refl eq_refl) as (Hret & Hdb & _).
  - exists Fixture.earlier. split; [left | done].
  - by split.
Defined.

Lemma upload_only_adds_witness :
  storage (UploadReference.POST asciiToLowerCase (inr (Some Scenario.guide))
             Scenario.uploaded).2 !! Scenario.guide_key
  = Some {| obj_bytes := [37; 80; 68]; obj_contentType := lit "application/pdf" |}.
Proof.
  apply (proj1 (upload_only_adds asciiToLowerCase (inr (Some Scenario.guide))
                  Scenario.uploaded)).
  by vm_compute.
Defined.

Lemma remove_validation_witness :
  (UploadReferenceDelete.DELETE Works (Some (lit "f1"))
     (Some (lit "https://db.example/files/guide.pdf")) Scenario.uploaded).1
  = Return (json (error_body (lit "Invalid file URL format")) 400).
Proof.
  refine (proj1 (proj2 (remove_validation Works (Some (lit "f1"))
                          (Some (lit "https://db.example/files/guide.pdf"))
                          Scenario.uploaded) eq_refl eq_refl _)).
  by vm_compute.
Defined.

Lemma remove_leaves_object_witness :
  let removed :=
    UploadReferenceDelete.DELETE Works
      (Some (lit "00000000-0000-4000-8000-000000000000"))
      (Some Scenario.guide_url) Scenario.uploaded in
  is_Some (storage Scenario.uploaded !! Scenario.guide_key)
  ∧ (status <$> (match removed.1 with
                 | Return response => Some response
                 | Throw _ => None
                 end)) = Some 200
  ∧ storage removed.2 !! Scenario.guide_key
    = storage Scenario.uploaded !! Scenario.guide_key.
Proof.
  intros removed.
  destruct (remove_leaves_object (lit "00000000-0000-4000-8000-000000000000")
              Scenario.guide_url
              (lit "https://db.example/storage/v1/object/public")
              Scenario.guide_key Scenario.uploaded
              ltac:(done) eq_refl eq_refl ltac:(by vm_compute))
    as (Hret & _ & Hkept).
  split_and!.
  - exists {| obj_bytes := [37; 80; 68]; obj_contentType := lit "application/pdf" |}.
    by vm_compute.
  - unfold removed. by rewrite Hret.
  - exact Hkept.
Defined.

Lemma create_product_type_witness :
  (ProductTypes.POST Scenario.working (inr (Scenario.named "SaaS")) Fixture.healthy).1
  = Return (json (error_body (lit "A product type with this name already exists")) 409)
  ∧ uniqueNames
      (db (ProductTypes.POST Scenario.working (inr (Scenario.named "Web"))
             Fixture.healthy).2).
Proof.
  split.
  - destruct (create_product_type Scenario.working (Scenario.named "SaaS")
                Fixture.healthy (lit "SaaS") (lit "Be brief.")
                eq_refl eq_refl eq_refl ltac:(done) eq_refl ltac:(done) eq_refl
                fixture_uniqueNames) as [Hdup _].
    exact (proj1 (Hdup (lit "pt-saas") Fixture.saas eq_refl eq_refl)).
  - destruct (create_product_type Scenario.working (Scenario.named "Web")
                Fixture.healthy (lit "Web") (lit "Be brief.")
                eq_refl eq_refl eq_refl ltac:(done) eq_refl ltac:(done) eq_refl
                fixture_uniqueNames) as [_ Hnew].
    apply Hnew; [|done|done].
    intros i r Hi Hname. destruct (fixture_names i r Hi) as [H|H];
      rewrite H in Hname; by vm_compute in Hname.
Defined.

Lemma create_after_failed_check_witness :
  ¬ uniqueNames
      (db (ProductTypes.POST Scenario.unchecked (inr (Scenario.named "SaaS"))
             Fixture.healthy).2).
Proof.
  exact (proj2 (proj2 (proj2
    (create_after_failed_check Scenario.unchecked (Scenario.named "SaaS")
       Fixture.healthy (lit "SaaS") (lit "Be brief.") Fixture.storage_down
       (lit "pt-saas") Fixture.saas
       eq_refl eq_refl eq_refl ltac:(done) eq_refl ltac:(done) eq_refl eq_refl
       eq_refl eq_refl eq_refl)))).
Defined.

Lemma collection_PUT_keeps_reference_files_witness :
  ∃ r', product_types
          (db (ProductTypes.PUT Works Works
                 (inr {| ProductTypes.put_id := Some (lit "pt-saas");
                         ProductTypes.put_name := Some (lit "SaaS");
                         ProductTypes.put_instructions := Some (lit "Be bold.") |})
                 Fixture.healthy).2) !! lit "pt-saas" = Some r'
        ∧ pt_reference_files r' = Some [Fixture.style_guide].
Proof.
  destruct (proj1 (collection_PUT_keeps_reference_files Works Works
                     (inr {| ProductTypes.put_id := Some (lit "pt-saas");
                             ProductTypes.put_name := Some (lit "SaaS");
                             ProductTypes.put_instructions := Some (lit "Be bold.") |})
                     Fixture.healthy) (lit "pt-saas") Fixture.saas eq_refl)
    as (r' & Hr' & Hrefs & _).
  exists r'. by split.
Defined.

Lemma create_then_delete_witness :
  db (ProductTypeById.DELETE (uuid Fixture.healthy)
        (ProductTypes.POST Scenario.working (inr (Scenario.named "Web"))
           Fixture.healthy).2).2
  = Fixture.database.
Proof.
  refine (proj2 (create_then_delete Scenario.working (Scenario.named "Web")
                   Fixture.healthy (lit "Web") (lit "Be brief.")
                   eq_refl eq_refl eq_refl ltac:(done) eq_refl ltac:(done)
                   eq_refl eq_refl (fun _ => eq_refl) _ ltac:(done) eq_refl
                   fixture_referencesResolve)).
  intros i r Hi Hname. destruct (fixture_names i r Hi) as [H|H];
    rewrite H in Hname; by vm_compute in Hname.
Defined.
